(** * pico_ui: client-side vault computations, embedded and verified

    A shallow embedding of the financial computation layer of the vault
    dashboard: big-integer helpers, the max-available calculator of the
    vault context, the low-level rebalance and auction handlers, the
    flash-loan minimum computation and the submit paths of the action
    handlers.

    Conventions.  A JavaScript [bigint] is a [Z]; bigint division truncates
    toward zero and is [Z.quot].  A value that may be [undefined] or [null]
    is an [option].  A contract read that may revert is an [option] whose
    [None] is the thrown exception.  React state that a handler updates is
    a record threaded through the handler; the effects a handler has on the
    outside world (transactions sent, console logging) are a trace. *)

From Stdlib Require Import ZArith List Bool String Lia.
Import ListNotations.
Local Open Scope Z_scope.

(** ** NumericUtils *)

Module NumericUtils.

(** Modelled from the spec: the body of [minBigInt] is not part of the
    sources at hand (only its callers are); section 4.1 gives it as the
    minimum in the total order over arbitrary-precision integers. *)
Definition minBigInt (a b : Z) : Z := if a <? b then a else b.

(** Modelled from the spec: the body of [maxBigInt] is not part of the
    sources at hand; section 4.1 gives it as the maximum of two integers. *)
Definition maxBigInt (a b : Z) : Z := if a >? b then a else b.

(** Modelled from the spec: the body of [clampToPositive] is not part of
    the sources at hand; section 4.1: returns [x] if [x > 0], else [0]. *)
Definition clampToPositive (x : Z) : Z := if x >? 0 then x else 0.

(** constants: [GAS_RESERVE_WEI = parseEther("0.002")]. *)
Definition GAS_RESERVE_WEI : Z := 2000000000000000.

(** hooks/useFlashLoanPreview.ts:
    [return (value * numerator) / denominator;] *)
Definition reduceByPrecisionBuffer (value : Z) : Z :=
  let numerator := 99999999 in
  let denominator := 100000000 in
  Z.quot (value * numerator) denominator.

End NumericUtils.

(** ** Asynchronous handlers as a small effect monad

    A handler runs over its own React state [S].  A step either completes
    with a value, leaves the handler by an early [return], or throws.  An
    awaited external call is a [Result]: the resolved value or the rejection
    reason. *)

Module Effects.

Inductive Result (Err A : Type) : Type :=
| Ok (a : A)
| Fail (e : Err).
Arguments Ok {Err A} a.
Arguments Fail {Err A} e.

Inductive Outcome (Err A : Type) : Type :=
| Done (a : A)
| Returned
| Thrown (e : Err).
Arguments Done {Err A} a.
Arguments Returned {Err A}.
Arguments Thrown {Err A} e.

Definition M (Err S A : Type) : Type := S -> Outcome Err A * S.

Section Monad.
Context {Err S : Type}.

Definition ret {A} (a : A) : M Err S A := fun s => (Done a, s).

Definition bind {A B} (c : M Err S A) (k : A -> M Err S B) : M Err S B :=
  fun s =>
    match c s with
    | (Done a, s') => k a s'
    | (Returned, s') => (Returned, s')
    | (Thrown e, s') => (Thrown e, s')
    end.

(** [await p]: the resolved value, or the rejection rethrown. *)
Definition await {A} (r : Result Err A) : M Err S A :=
  fun s => match r with Ok a => (Done a, s) | Fail e => (Thrown e, s) end.

(** a state setter *)
Definition set (f : S -> S) : M Err S unit := fun s => (Done tt, f s).

(** reading the current state *)
Definition get : M Err S S := fun s => (Done s, s).

(** [return;] inside the handler *)
Definition earlyReturn {A} : M Err S A := fun s => (Returned, s).

(** [try { body } catch (err) { handler(err) } finally { fin }], the last
    statement of the function it occurs in: an early return of the body
    still runs [fin]. *)
Definition tryCatchFinally (body : M Err S unit) (handler : Err -> M Err S unit)
    (fin : M Err S unit) : M Err S unit :=
  fun s =>
    match body s with
    | (Done _, s1) => fin s1
    | (Returned, s1) =>
        match fin s1 with
        | (Done _, s2) => (Returned, s2)
        | r => r
        end
    | (Thrown e, s1) =>
        match handler e s1 with
        | (Done _, s2) => fin s2
        | (Returned, s2) =>
            match fin s2 with
            | (Done _, s3) => (Returned, s3)
            | r => r
            end
        | (Thrown e', s2) =>
            match fin s2 with
            | (Done _, s3) => (Thrown e', s3)
            | r => r
            end
        end
    end.

(** [try { body } catch (err) { handler(err) }] producing a value: the
    handler's value stands in when the body throws. *)
Definition tryCatch {A} (body : M Err S A) (handler : Err -> M Err S A) : M Err S A :=
  fun s =>
    match body s with
    | (Thrown e, s1) => handler e s1
    | r => r
    end.

(** A call of an inner function without a result: its early [return]
    ends the inner function only. *)
Definition call (body : M Err S unit) : M Err S unit :=
  fun s =>
    match body s with
    | (Returned, s1) => (Done tt, s1)
    | r => r
    end.

End Monad.

Declare Scope handler_scope.
Delimit Scope handler_scope with handler.
Notation "x <- c ;; k" := (bind c (fun x => k))
  (at level 61, c at next level, right associativity) : handler_scope.
Notation "c ;; k" := (bind c (fun _ => k))
  (at level 61, right associativity) : handler_scope.

End Effects.

(** ** types/actions *)

Inductive TokenType : Type := shares | borrow | collateral.

Definition TokenType_eqb (a b : TokenType) : bool :=
  match a, b with
  | shares, shares | borrow, borrow | collateral, collateral => true
  | _, _ => false
  end.

(** The two lists a preview box shows. *)
Module PreviewBox.

(** One leg of a preview: [{ amount: bigint; tokenType: TokenType }]. *)
Record Leg : Type := mkLeg { amount : Z; tokenType : TokenType }.

Record Legs : Type := mkLegs { receive : list Leg; provide : list Leg }.

(** the legs of one token in a list *)
Definition legsOf (t : TokenType) (l : list Leg) : list Leg :=
  filter (fun x => TokenType_eqb (tokenType x) t) l.

End PreviewBox.
Export PreviewBox.

(** One [console.error] call: the message and the error object passed. *)
Inductive LogEntry (Err : Type) : Type :=
| Log (msg : string) (err : option Err).
Arguments Log {Err} msg err.

(** ** LowLevelRebalanceHandler *)

Module LowLevelRebalanceHandler.

(** [type ActionType = 'mint' | 'burn' | 'provide' | 'receive'] *)
Inductive ActionType : Type := act_mint | act_burn | act_provide | act_receive.

Definition isProvide (a : ActionType) : bool :=
  match a with act_provide => true | _ => false end.

Record PreviewData : Type := mkPreview {
  deltaCollateral : option Z;
  deltaBorrow : option Z;
  deltaShares : option Z
}.

Definition pushProvide (l : Legs) (x : Leg) : Legs :=
  mkLegs (receive l) (provide l ++ [x]).
Definition pushReceive (l : Legs) (x : Leg) : Legs :=
  mkLegs (receive l ++ [x]) (provide l).

(** [addToList]; [!value] holds for [undefined] and for [0n]. *)
Definition addToList (acc : Legs) (value : option Z) (t : TokenType)
    (invertSign : bool) : Legs :=
  match value with
  | None => acc
  | Some v =>
      if v =? 0 then acc
      else
        let isPositive := if invertSign then v <? 0 else v >? 0 in
        let absValue := if v <? 0 then - v else v in
        if isPositive then pushProvide acc (mkLeg absValue t)
        else pushReceive acc (mkLeg absValue t)
  end.

(** [getReceiveAndProvide], over the component state it reads:
    [rebalanceType], [amount] and [previewData]. *)
Definition getReceiveAndProvide (rebalanceType : TokenType) (amount : option Z)
    (previewData : option PreviewData) : Legs :=
  match previewData with
  | None => mkLegs [] []
  | Some pd =>
      let l0 := mkLegs [] [] in
      let l1 :=
        match amount with
        | Some a =>
            if a =? 0 then l0
            else
              let isInputPositive :=
                match rebalanceType with
                | shares => a >? 0
                | borrow => a <? 0
                | collateral => a >? 0
                end in
              let absAmount := if a <? 0 then - a else a in
              if isInputPositive then
                match rebalanceType with
                | shares => pushReceive l0 (mkLeg absAmount rebalanceType)
                | _ => pushProvide l0 (mkLeg absAmount rebalanceType)
                end
              else
                match rebalanceType with
                | shares => pushProvide l0 (mkLeg absAmount rebalanceType)
                | _ => pushReceive l0 (mkLeg absAmount rebalanceType)
                end
        | None => l0
        end in
      match rebalanceType with
      | shares =>
          let l2 := addToList l1 (deltaCollateral pd) collateral false in
          addToList l2 (deltaBorrow pd) borrow true
      | borrow =>
          let l2 := addToList l1 (deltaCollateral pd) collateral false in
          addToList l2 (deltaShares pd) shares true
      | collateral =>
          let l2 := addToList l1 (deltaBorrow pd) borrow true in
          addToList l2 (deltaShares pd) shares true
      end
  end.

(** The reads [loadMaxValue] awaits on the lens contract ([None]: the call
    reverted) and the context balances as [parseUnits] reads them ([None]:
    the string does not parse and the call throws). *)
Record MaxEnv : Type := mkMaxEnv {
  vaultLens : bool;
  maxLowLevelRebalanceShares : option Z;
  maxLowLevelRebalanceBorrow : option Z;
  maxLowLevelRebalanceCollateral : option Z;
  borrowTokenBalance : option Z;
  collateralTokenBalance : option Z
}.

(** [loadMaxValue]: the new [maxValue] state from the old one.  A failed
    read is caught and leaves the state as it was. *)
Definition loadMaxValue (env : MaxEnv) (rebalanceType : TokenType)
    (actionType : ActionType) (maxValue : option Z) : option Z :=
  if negb (vaultLens env) then maxValue
  else
    match rebalanceType with
    | shares =>
        match maxLowLevelRebalanceShares env with
        | Some max => Some max
        | None => maxValue
        end
    | _ =>
        let read :=
          match rebalanceType with
          | borrow =>
              match maxLowLevelRebalanceBorrow env, borrowTokenBalance env with
              | Some vaultMax, Some userBalance => Some (vaultMax, userBalance)
              | _, _ => None
              end
          | _ =>
              match maxLowLevelRebalanceCollateral env, collateralTokenBalance env with
              | Some vaultMax, Some userBalance => Some (vaultMax, userBalance)
              | _, _ => None
              end
          end in
        match read with
        | None => maxValue
        | Some (vaultMax, userBalance) =>
            let isVaultProvideDirection := vaultMax <? 0 in
            let isUserProvideAction := isProvide actionType in
            if negb (Bool.eqb isVaultProvideDirection isUserProvideAction) then Some 0
            else if vaultMax <? 0 then
              Some (if vaultMax >? - userBalance then vaultMax else - userBalance)
            else
              Some (if vaultMax <? userBalance then vaultMax else userBalance)
        end
    end.

(** the vault-side maximum [loadMaxValue] reads for a rebalance type *)
Definition vaultMaxOf (env : MaxEnv) (rebalanceType : TokenType) : option Z :=
  match rebalanceType with
  | shares => maxLowLevelRebalanceShares env
  | borrow => maxLowLevelRebalanceBorrow env
  | collateral => maxLowLevelRebalanceCollateral env
  end.

(** the user balance [loadMaxValue] compares it with *)
Definition userBalanceOf (env : MaxEnv) (rebalanceType : TokenType) : option Z :=
  match rebalanceType with
  | borrow => borrowTokenBalance env
  | _ => collateralTokenBalance env
  end.

(** *** The entered amount *)

(** [getAmountSign]: the sign the action gives the entered amount. *)
Definition getAmountSign (rebalanceType : TokenType) (actionType : ActionType) : Z :=
  match rebalanceType with
  | shares => match actionType with act_mint => 1 | _ => -1 end
  | collateral => match actionType with act_provide => 1 | _ => -1 end
  | borrow => match actionType with act_provide => -1 | _ => 1 end
  end.

(** [handleInputChange]: the new [amount] state.  [parsedValue] is what
    [processInput] of utils makes of the typed text, [null] when it does
    not parse. *)
Definition handleInputChange (rebalanceType : TokenType) (actionType : ActionType)
    (parsedValue : option Z) : option Z :=
  match parsedValue with
  | None => None
  | Some p =>
      let sign := getAmountSign rebalanceType actionType in
      Some (p * sign)
  end.

(** [handleMaxClick]: the [amount] state after a click on MAX. *)
Definition handleMaxClick (rebalanceType : TokenType) (actionType : ActionType)
    (maxValue amount : option Z) : option Z :=
  match maxValue with
  | Some m =>
      let absValue := if m <? 0 then - m else m in
      let sign := getAmountSign rebalanceType actionType in
      Some (absValue * sign)
  | None => amount
  end.

(** the side the action puts the entered amount on: [true] when the user
    gives it *)
Definition userGives (rebalanceType : TokenType) (actionType : ActionType) : bool :=
  match rebalanceType with
  | shares => match actionType with act_mint => false | _ => true end
  | _ => isProvide actionType
  end.

(** *** The submit path *)

Import Effects.
Local Open Scope string_scope.
Local Open Scope Z_scope.
Local Open Scope handler_scope.

(** A transaction handed to the signer. *)
Inductive Tx : Type :=
| TxApprove (t : TokenType) (amount : Z)
| TxRebalanceShares (amount gasLimit : Z)
| TxRebalanceBorrowHint (amount : Z) (isSharesPositiveHint : bool) (gasLimit : Z)
| TxRebalanceCollateralHint (amount : Z) (isSharesPositiveHint : bool) (gasLimit : Z).

Section Handler.
Context {Err : Type}.

(** Helpers of utils whose bodies are not among the sources. *)
Variable isUserRejected : Err -> bool.
Variable applyGasSlippage : Z -> Z.

(** The component state [handleSubmit] reads and writes, with the console
    and the requests made to the signer. *)
Record State : Type := mkState {
  inputValue : string;
  amount : option Z;
  loading : bool;
  error : option string;
  success : option string;
  isApproving : bool;
  approvalError : option string;
  previewData : option PreviewData;
  console : list (LogEntry Err);
  txs : list Tx
}.

Definition setInputValue (v : string) : M Err State unit :=
  set (fun s => mkState v (amount s) (loading s) (error s) (success s)
                  (isApproving s) (approvalError s) (previewData s) (console s) (txs s)).
Definition setAmount (a : option Z) : M Err State unit :=
  set (fun s => mkState (inputValue s) a (loading s) (error s) (success s)
                  (isApproving s) (approvalError s) (previewData s) (console s) (txs s)).
Definition setLoading (b : bool) : M Err State unit :=
  set (fun s => mkState (inputValue s) (amount s) b (error s) (success s)
                  (isApproving s) (approvalError s) (previewData s) (console s) (txs s)).
Definition setError (e : option string) : M Err State unit :=
  set (fun s => mkState (inputValue s) (amount s) (loading s) e (success s)
                  (isApproving s) (approvalError s) (previewData s) (console s) (txs s)).
Definition setSuccess (m : option string) : M Err State unit :=
  set (fun s => mkState (inputValue s) (amount s) (loading s) (error s) m
                  (isApproving s) (approvalError s) (previewData s) (console s) (txs s)).
Definition setIsApproving (b : bool) : M Err State unit :=
  set (fun s => mkState (inputValue s) (amount s) (loading s) (error s) (success s)
                  b (approvalError s) (previewData s) (console s) (txs s)).
Definition setApprovalError (e : option string) : M Err State unit :=
  set (fun s => mkState (inputValue s) (amount s) (loading s) (error s) (success s)
                  (isApproving s) e (previewData s) (console s) (txs s)).
Definition console_error (msg : string) (err : option Err) : M Err State unit :=
  set (fun s => mkState (inputValue s) (amount s) (loading s) (error s) (success s)
                  (isApproving s) (approvalError s) (previewData s)
                  (console s ++ [Log msg err]) (txs s)).
Definition request (t : Tx) : M Err State unit :=
  set (fun s => mkState (inputValue s) (amount s) (loading s) (error s) (success s)
                  (isApproving s) (approvalError s) (previewData s)
                  (console s) (txs s ++ [t])).

(** What the handler closes over.  A preview read resolves to the second
    component of the result, [preview?.[1]], which may be [undefined]. *)
Record Env : Type := mkEnv {
  rebalanceType : TokenType;
  vault : bool;
  vaultLens_present : bool;
  address : bool;
  vaultAddress : bool;
  tokenOf : TokenType -> bool;
  symbolOf : TokenType -> string;
  token_allowance : TokenType -> Result Err Z;
  token_approve : TokenType -> Z -> Result Err unit;
  approveTx_wait : Result Err unit;
  previewLowLevelRebalanceBorrow : Z -> Result Err (option Z);
  previewLowLevelRebalanceCollateral : Z -> Result Err (option Z);
  estimateGas_shares : Z -> Result Err Z;
  estimateGas_borrowHint : Z -> bool -> Result Err Z;
  estimateGas_collateralHint : Z -> bool -> Result Err Z;
  vault_execute : Tx -> Result Err unit;
  tx_wait : Result Err unit
}.

Variable env : Env.

(** The [for] loop of [checkAndApproveRequiredAssets], carrying its two
    flags; [getTokenMetadata] has no token for shares. *)
Fixpoint approveEach (items : list Leg) (anyApproved allAlreadyApproved : bool)
    : M Err State (bool * bool) :=
  match items with
  | [] => ret (anyApproved, allAlreadyApproved)
  | item :: rest =>
      match tokenType item with
      | shares => approveEach rest anyApproved allAlreadyApproved
      | t =>
          if tokenOf env t then
            currentAllowance <- await (token_allowance env t) ;;
            if currentAllowance <? PreviewBox.amount item then
              request (TxApprove t (PreviewBox.amount item)) ;;
              await (token_approve env t (PreviewBox.amount item)) ;;
              await (approveTx_wait env) ;;
              setSuccess (Some ("Successfully approved " ++ symbolOf env t ++ ".")) ;;
              approveEach rest true false
            else approveEach rest anyApproved allAlreadyApproved
          else approveEach rest anyApproved allAlreadyApproved
      end
  end.

Definition checkAndApproveRequiredAssets : M Err State unit :=
  call
    (s <- get ;;
     match previewData s with
     | None => earlyReturn
     | Some _ =>
         if negb (address env) || negb (vaultAddress env) then earlyReturn
         else
           setIsApproving true ;;
           setApprovalError None ;;
           tryCatchFinally
             (s <- get ;;
              let provide :=
                PreviewBox.provide (getReceiveAndProvide (rebalanceType env) (amount s)
                               (previewData s)) in
              match provide with
              | [] => earlyReturn
              | _ =>
                  flags <- approveEach provide false true ;;
                  if snd flags && negb (fst flags) then
                    setSuccess (Some "All tokens already approved.")
                  else ret tt
              end)
             (fun err =>
                if isUserRejected err then
                  setApprovalError (Some "Approval canceled by user.")
                else
                  setApprovalError (Some "Failed to approve required tokens.") ;;
                  console_error "Failed to approve required tokens:" (Some err))
             (setIsApproving false)
     end).

(** [!deltaShares]: [undefined] or [0n]. *)
Definition noDelta (deltaShares : option Z) : bool :=
  match deltaShares with
  | Some d => d =? 0
  | None => true
  end.

(** The [try] block of [handleSubmit], for a non-zero [amount].  The
    closing [loadMaxValue()] is started without being awaited and is the
    function modelled above; the two context refreshes catch their own
    failures and touch no state of this component. *)
Definition handleSubmit_try (amount : Z) : M Err State unit :=
  checkAndApproveRequiredAssets ;;
  tx <-
    (match rebalanceType env with
     | shares =>
         estimatedGas <- await (estimateGas_shares env amount) ;;
         ret (TxRebalanceShares amount (applyGasSlippage estimatedGas))
     | borrow =>
         deltaShares <- await (previewLowLevelRebalanceBorrow env amount) ;;
         if noDelta deltaShares then
           console_error "Failed to preview leveraged tokens delta" None ;;
           setError (Some "Failed to preview leveraged tokens delta") ;;
           earlyReturn
         else
           let isSharesPositiveHint :=
             match deltaShares with Some d => d >=? 0 | None => false end in
           estimatedGas <- await (estimateGas_borrowHint env amount isSharesPositiveHint) ;;
           ret (TxRebalanceBorrowHint amount isSharesPositiveHint
                  (applyGasSlippage estimatedGas))
     | collateral =>
         deltaShares <- await (previewLowLevelRebalanceCollateral env amount) ;;
         if noDelta deltaShares then
           console_error "Failed to preview leveraged tokens delta" None ;;
           setError (Some "Failed to preview leveraged tokens delta") ;;
           earlyReturn
         else
           let isSharesPositiveHint :=
             match deltaShares with Some d => d >=? 0 | None => false end in
           estimatedGas <-
             await (estimateGas_collateralHint env amount isSharesPositiveHint) ;;
           ret (TxRebalanceCollateralHint amount isSharesPositiveHint
                  (applyGasSlippage estimatedGas))
     end) ;;
  request tx ;;
  await (vault_execute env tx) ;;
  await (tx_wait env) ;;
  setInputValue "" ;;
  setAmount None ;;
  setSuccess (Some "Low level rebalance executed successfully!").

(** The [catch] block of [handleSubmit]. *)
Definition handleSubmit_catch (err : Err) : M Err State unit :=
  if isUserRejected err then
    setError (Some "Transaction canceled by user.")
  else
    setError (Some "Failed to execute low level rebalance.") ;;
    console_error "Failed to execute low level rebalance:" (Some err).

(** The state in which the [try] block starts. *)
Definition handleSubmit_reset : M Err State unit :=
  setLoading true ;;
  setError None ;;
  setSuccess None ;;
  setApprovalError None.

Definition handleSubmit : M Err State unit :=
  s <- get ;;
  if negb (vault env) || negb (vaultLens_present env) || negb (address env) then
    earlyReturn
  else
    match amount s with
    | None => earlyReturn
    | Some a =>
        if a =? 0 then earlyReturn
        else
          handleSubmit_reset ;;
          tryCatchFinally (handleSubmit_try a) handleSubmit_catch (setLoading false)
    end.

(** The approvals [approveEach] asks for when every read resolves: the
    legs of a token held by the context whose allowance is below the leg's
    amount. *)
Definition shortOfAllowance (item : Leg) : bool :=
  match tokenType item with
  | shares => false
  | t =>
      tokenOf env t &&
      match token_allowance env t with
      | Ok currentAllowance => currentAllowance <? PreviewBox.amount item
      | Fail _ => false
      end
  end.

Definition approvalOf (item : Leg) : Tx :=
  TxApprove (tokenType item) (PreviewBox.amount item).

Definition isApprovalTx (t : Tx) : bool :=
  match t with TxApprove _ _ => true | _ => false end.

Definition isRebalanceTx (t : Tx) : bool := negb (isApprovalTx t).

(** A step that, at most, adds approvals to the requests and otherwise
    touches only the approval messages, the success message and the
    console. *)
Definition approvalsOnly (s s' : State) : Prop :=
  error s' = error s /\ loading s' = loading s /\ amount s' = amount s /\
  inputValue s' = inputValue s /\ previewData s' = previewData s /\
  exists l : list Tx, txs s' = (txs s ++ l)%list /\ forallb isApprovalTx l = true.

Definition keeps {A : Type} (c : M Err State A) : Prop :=
  forall s, approvalsOnly s (snd (c s)).

(** the preview read, the gas estimate and the call [handleSubmit] uses
    for a rebalance by borrow or by collateral amount *)
Definition previewOf (t : TokenType) : Z -> Result Err (option Z) :=
  match t with
  | borrow => previewLowLevelRebalanceBorrow env
  | _ => previewLowLevelRebalanceCollateral env
  end.

Definition estimateOf (t : TokenType) : Z -> bool -> Result Err Z :=
  match t with
  | borrow => estimateGas_borrowHint env
  | _ => estimateGas_collateralHint env
  end.

Definition hintTx (t : TokenType) (a : Z) (hint : bool) (gasLimit : Z) : Tx :=
  match t with
  | borrow => TxRebalanceBorrowHint a hint gasLimit
  | _ => TxRebalanceCollateralHint a hint gasLimit
  end.

(** The state in which the approval loop starts, from the state
    [checkAndApproveRequiredAssets] is entered in: [setIsApproving(true)]
    and [setApprovalError(null)] have run. *)
Definition approving (s : State) : State :=
  mkState (inputValue s) (amount s) (loading s) (error s) (success s)
    true None (previewData s) (console s) (txs s).

(** The state [checkAndApproveRequiredAssets] leaves when the approval loop
    has thrown [err] in state [s]: its [catch] and [finally] have run. *)
Definition approvalFailed (err : Err) (s : State) : State :=
  mkState (inputValue s) (amount s) (loading s) (error s) (success s)
    false
    (Some (if isUserRejected err then "Approval canceled by user."
           else "Failed to approve required tokens."))
    (previewData s)
    (if isUserRejected err then console s
     else console s ++ [Log "Failed to approve required tokens:" (Some err)])
    (txs s).

(** [{approvalError && <ErrorMessage .../>}] and
    [{error && <ErrorMessage .../>}]: an error message is on screen. *)
Definition shown (text : option string) : bool :=
  match text with
  | Some t => negb (String.eqb t "")
  | None => false
  end.

Definition errorShown (s : State) : bool :=
  shown (approvalError s) || shown (error s).

End Handler.

End LowLevelRebalanceHandler.

(** ** VaultContext: balances and user-facing maxima

    The context keeps every amount as a decimal string produced by
    [formatUnits] and reads it back with [parseUnits]; both belong to the
    ethers library.  A string state is modelled by the raw integer it
    stands for, and the initial empty string, which [parseUnits] rejects
    with an exception, by [None]. *)

Module VaultContext.

Import NumericUtils.

Record BalanceState : Type := mkBalances {
  ethBalance : option Z;
  sharesBalance : option Z;
  borrowTokenBalance : option Z;
  collateralTokenBalance : option Z
}.

Record State : Type := mkState {
  balances : BalanceState;
  isRefreshingBalances : bool
}.

(** The four reads of one refresh; [None]: the read rejected. *)
Record BalanceReads : Type := mkReads {
  getBalance : option Z;
  vaultLens_balanceOf : option Z;
  borrowTokenLens_balanceOf : option Z;
  collateralTokenLens_balanceOf : option Z
}.

Definition setEthBalance (v : Z) (b : BalanceState) : BalanceState :=
  mkBalances (Some v) (sharesBalance b) (borrowTokenBalance b) (collateralTokenBalance b).
Definition setSharesBalance (v : Z) (b : BalanceState) : BalanceState :=
  mkBalances (ethBalance b) (Some v) (borrowTokenBalance b) (collateralTokenBalance b).
Definition setBorrowTokenBalance (v : Z) (b : BalanceState) : BalanceState :=
  mkBalances (ethBalance b) (sharesBalance b) (Some v) (collateralTokenBalance b).
Definition setCollateralTokenBalance (v : Z) (b : BalanceState) : BalanceState :=
  mkBalances (ethBalance b) (sharesBalance b) (borrowTokenBalance b) (Some v).

(** [Promise.all] of the three token reads: rejects when one of them does. *)
Definition promiseAll3 (a b c : option Z) : option (Z * Z * Z) :=
  match a, b, c with
  | Some x, Some y, Some z => Some (x, y, z)
  | _, _, _ => None
  end.

(** The [try] block of [loadBalances] on the balance tuple: the native
    balance is awaited and stored first, then the three token balances are
    awaited together and stored.  A rejection leaves the block where it
    occurs; the [catch] only logs. *)
Definition loadBalances_try (r : BalanceReads) (b : BalanceState) : BalanceState :=
  match getBalance r with
  | None => b
  | Some ethBalanceRaw =>
      let b1 := setEthBalance ethBalanceRaw b in
      match promiseAll3 (vaultLens_balanceOf r) (borrowTokenLens_balanceOf r)
                        (collateralTokenLens_balanceOf r) with
      | None => b1
      | Some (sharesBalanceRaw, borrowTokenBalanceRaw, collateralTokenBalanceRaw) =>
          setCollateralTokenBalance collateralTokenBalanceRaw
            (setBorrowTokenBalance borrowTokenBalanceRaw
               (setSharesBalance sharesBalanceRaw b1))
      end
  end.

(** [loadBalances (isManualRefresh)]; [ready] is the conjunction of the
    presence guards on provider, address and the three lens contracts.  The
    loading flag is raised for a manual refresh only and cleared in
    [finally]. *)
Definition loadBalances (ready isManualRefresh : bool) (r : BalanceReads)
    (s : State) : State :=
  if negb ready then s
  else
    let b' := loadBalances_try r (balances s) in
    mkState b' (if isManualRefresh then false else isRefreshingBalances s).

(** [refreshBalances = () => loadBalances(true)] *)
Definition refreshBalances (ready : bool) (r : BalanceReads) (s : State) : State :=
  loadBalances ready true r s.

(** the tuple a refresh reads from the chain, when every read resolves *)
Definition freshTuple (r : BalanceReads) : BalanceState :=
  mkBalances (getBalance r) (vaultLens_balanceOf r)
             (borrowTokenLens_balanceOf r) (collateralTokenLens_balanceOf r).

(** What [calculateMaxValues] closes over: the balance and limit states,
    the two wrapped-native tests and the two preview reads. *)
Record MaxInputs : Type := mkMaxInputs {
  ready : bool;
  isBorrowTokenWeth : bool;
  isCollateralTokenWeth : bool;
  userBalances : BalanceState;
  vaultMaxDeposit : option Z;
  vaultMaxRedeem : option Z;
  vaultMaxMint : option Z;
  vaultMaxWithdraw : option Z;
  vaultMaxDepositCollateral : option Z;
  vaultMaxRedeemCollateral : option Z;
  vaultMaxMintCollateral : option Z;
  vaultMaxWithdrawCollateral : option Z;
  previewDeposit : Z -> option Z;
  previewDepositCollateral : Z -> option Z
}.

(** The eight user-facing maxima, as set at the end of the [try] block. *)
Record MaxValues : Type := mkMaxValues {
  maxDeposit : Z;
  maxRedeem : Z;
  maxMint : Z;
  maxWithdraw : Z;
  maxDepositCollateral : Z;
  maxRedeemCollateral : Z;
  maxMintCollateral : Z;
  maxWithdrawCollateral : Z
}.

Definition obind {A B} (o : option A) (k : A -> option B) : option B :=
  match o with Some a => k a | None => None end.

Notation "'let?' x := o 'in' k" := (obind o (fun x => k))
  (at level 10, x name, o at level 100, k at level 200).

(** [calculateMaxValues]: the eight values it sets, or [None] when a guard
    stops it or an awaited read or a parse throws (nothing is set then). *)
Definition calculateMaxValues (c : MaxInputs) : option MaxValues :=
  if negb (ready c) then None
  else
    let? ethBalanceWei := ethBalance (userBalances c) in
    let? borrowTokenBalanceWei := borrowTokenBalance (userBalances c) in
    let? sharesBalanceWei := sharesBalance (userBalances c) in
    let? collateralTokenBalanceWei := collateralTokenBalance (userBalances c) in
    let? vaultMaxDepositWei := vaultMaxDeposit c in
    let? vaultMaxRedeemWei := vaultMaxRedeem c in
    let? vaultMaxMintWei := vaultMaxMint c in
    let? vaultMaxWithdrawWei := vaultMaxWithdraw c in
    let? vaultMaxDepositCollateralWei := vaultMaxDepositCollateral c in
    let? vaultMaxRedeemCollateralWei := vaultMaxRedeemCollateral c in
    let? vaultMaxMintCollateralWei := vaultMaxMintCollateral c in
    let? vaultMaxWithdrawCollateralWei := vaultMaxWithdrawCollateral c in
    let availableEthForBorrowWei :=
      if isBorrowTokenWeth c then clampToPositive (ethBalanceWei - GAS_RESERVE_WEI) else 0 in
    let availableEthForCollateralWei :=
      if isCollateralTokenWeth c then clampToPositive (ethBalanceWei - GAS_RESERVE_WEI) else 0 in
    (* DEPOSIT (borrow side) *)
    let depositBudgetWei :=
      if isBorrowTokenWeth c then borrowTokenBalanceWei + availableEthForBorrowWei
      else borrowTokenBalanceWei in
    let maxAvailableDepositWei := minBigInt depositBudgetWei vaultMaxDepositWei in
    (* REDEEM (shares) *)
    let maxAvailableRedeemWei := minBigInt sharesBalanceWei vaultMaxRedeemWei in
    (* MINT *)
    let? rawSharesForBorrowToken := previewDeposit c borrowTokenBalanceWei in
    let? rawSharesForEth :=
      (if isBorrowTokenWeth c then previewDeposit c availableEthForBorrowWei else Some 0) in
    let mintBudgetSharesWei := rawSharesForBorrowToken + rawSharesForEth in
    let maxAvailableMintWei := minBigInt mintBudgetSharesWei vaultMaxMintWei in
    (* DEPOSIT COLLATERAL *)
    let depositCollateralBudgetWei :=
      if isCollateralTokenWeth c then collateralTokenBalanceWei + availableEthForCollateralWei
      else collateralTokenBalanceWei in
    let maxAvailableDepositCollateralWei :=
      minBigInt depositCollateralBudgetWei vaultMaxDepositCollateralWei in
    (* REDEEM COLLATERAL (shares) *)
    let maxAvailableRedeemCollateralWei :=
      minBigInt sharesBalanceWei vaultMaxRedeemCollateralWei in
    (* MINT COLLATERAL (shares) *)
    let? rawSharesForCollateral := previewDepositCollateral c collateralTokenBalanceWei in
    let? rawSharesForEthCollateral :=
      (if isCollateralTokenWeth c then previewDepositCollateral c availableEthForCollateralWei
       else Some 0) in
    let mintCollateralBudgetSharesWei := rawSharesForCollateral + rawSharesForEthCollateral in
    let maxAvailableMintCollateralWei :=
      minBigInt mintCollateralBudgetSharesWei vaultMaxMintCollateralWei in
    (* WITHDRAW (borrow/collateral) *)
    let maxAvailableWithdrawTokens := vaultMaxWithdrawWei in
    let maxAvailableWithdrawCollateralTokens := vaultMaxWithdrawCollateralWei in
    Some (mkMaxValues maxAvailableDepositWei maxAvailableRedeemWei maxAvailableMintWei
            maxAvailableWithdrawTokens maxAvailableDepositCollateralWei
            maxAvailableRedeemCollateralWei maxAvailableMintCollateralWei
            maxAvailableWithdrawCollateralTokens).

(** The ten limit states and the ten reads [loadVaultLimits] joins. *)
Record VaultLimits : Type := mkLimits {
  limMaxDeposit : option Z;
  limMaxRedeem : option Z;
  limMaxMint : option Z;
  limMaxWithdraw : option Z;
  limMaxDepositCollateral : option Z;
  limMaxRedeemCollateral : option Z;
  limMaxMintCollateral : option Z;
  limMaxWithdrawCollateral : option Z;
  limMaxLowLevelRebalanceShares : option Z;
  limTotalAssets : option Z
}.

(** [Promise.all] over a list of reads: all the values, or the rejection. *)
Fixpoint promiseAll (reads : list (option Z)) : option (list Z) :=
  match reads with
  | [] => Some []
  | r :: rest =>
      match r, promiseAll rest with
      | Some v, Some vs => Some (v :: vs)
      | _, _ => None
      end
  end.

(** [loadVaultLimits]: the ten reads are awaited together; only then are
    the ten states set.  A rejection is caught and logged.  [ready] is the
    conjunction of the guards on provider, address and lens. *)
Definition loadVaultLimits (ready : bool) (reads : VaultLimits) (s : VaultLimits)
    : VaultLimits :=
  if negb ready then s
  else
    match promiseAll
            [limMaxDeposit reads; limMaxRedeem reads; limMaxMint reads;
             limMaxWithdraw reads; limMaxDepositCollateral reads;
             limMaxRedeemCollateral reads; limMaxMintCollateral reads;
             limMaxWithdrawCollateral reads; limMaxLowLevelRebalanceShares reads;
             limTotalAssets reads] with
    | Some [rawVaultMaxDeposit; rawVaultMaxRedeem; rawVaultMaxMint; rawVaultMaxWithdraw;
            rawVaultMaxDepositCollateral; rawVaultMaxRedeemCollateral;
            rawVaultMaxMintCollateral; rawVaultMaxWithdrawCollateral;
            rawMaxLowLevelRebalanceShares; rawTotalAssets] =>
        mkLimits (Some rawVaultMaxDeposit) (Some rawVaultMaxRedeem)
          (Some rawVaultMaxMint) (Some rawVaultMaxWithdraw)
          (Some rawVaultMaxDepositCollateral) (Some rawVaultMaxRedeemCollateral)
          (Some rawVaultMaxMintCollateral) (Some rawVaultMaxWithdrawCollateral)
          (Some rawMaxLowLevelRebalanceShares) (Some rawTotalAssets)
    | _ => s
    end.

(** the reads of a refresh, as a list *)
Definition limitReads (reads : VaultLimits) : list (option Z) :=
  [limMaxDeposit reads; limMaxRedeem reads; limMaxMint reads;
   limMaxWithdraw reads; limMaxDepositCollateral reads;
   limMaxRedeemCollateral reads; limMaxMintCollateral reads;
   limMaxWithdrawCollateral reads; limMaxLowLevelRebalanceShares reads;
   limTotalAssets reads].

(** the wrappable native balance [calculateMaxValues] adds on a side *)
Definition availableEth (isWeth : bool) (ethBalanceWei : Z) : Z :=
  if isWeth then Z.max 0 (ethBalanceWei - GAS_RESERVE_WEI) else 0.


End VaultContext.

(** ** ActionHandler: deposit, mint, withdraw and redeem on the vault *)

(** [ActionType] of types/actions, as [ACTION_CONFIGS] enumerates it. *)
Inductive ActionType : Type := deposit | mint | withdraw | redeem.

(** the action's name, as template strings print it *)
Definition actionName (a : ActionType) : string :=
  match a with
  | deposit => "deposit" | mint => "mint" | withdraw => "withdraw" | redeem => "redeem"
  end.

(** [actionType.charAt(0).toUpperCase() + actionType.slice(1)] *)
Definition actionNameCapitalized (a : ActionType) : string :=
  match a with
  | deposit => "Deposit" | mint => "Mint" | withdraw => "Withdraw" | redeem => "Redeem"
  end.

Definition isRedeemOrWithdraw (a : ActionType) : bool :=
  match a with redeem | withdraw => true | _ => false end.


(** The state both action handlers keep ([useState] of [loading], [error],
    [success] and [amount]), with the console and the requests made to the
    signer, over the handler's own kind of transaction. *)
Module Form.

Import Effects.

Section State.
Context {Err Tx : Type}.

Record State : Type := mkState {
  loading : bool;
  error : option string;
  success : option string;
  amount : string;
  console : list (LogEntry Err);
  txs : list Tx
}.

Definition setLoading (b : bool) : M Err State unit :=
  set (fun s => mkState b (error s) (success s) (amount s) (console s) (txs s)).
Definition setError (e : option string) : M Err State unit :=
  set (fun s => mkState (loading s) e (success s) (amount s) (console s) (txs s)).
Definition setSuccess (m : option string) : M Err State unit :=
  set (fun s => mkState (loading s) (error s) m (amount s) (console s) (txs s)).
Definition setAmount (a : string) : M Err State unit :=
  set (fun s => mkState (loading s) (error s) (success s) a (console s) (txs s)).
Definition console_error (msg : string) (err : option Err) : M Err State unit :=
  set (fun s => mkState (loading s) (error s) (success s) (amount s)
                  (console s ++ [Log msg err]) (txs s)).
Definition request (t : Tx) : M Err State unit :=
  set (fun s => mkState (loading s) (error s) (success s) (amount s)
                  (console s) (txs s ++ [t])).

(** [error] is handed to the form, which shows it as the error message. *)
Definition errorShown (s : State) : bool :=
  match error s with
  | Some text => negb (String.eqb text "")
  | None => false
  end.

End State.
Arguments State Err Tx : clear implicits.

End Form.

Module ActionHandler.

Import Effects Form.
Local Open Scope string_scope.
Local Open Scope Z_scope.
Local Open Scope handler_scope.

Record ActionConfig : Type := mkConfig { needsApproval : bool; usesShares : bool }.

Definition ACTION_CONFIGS (a : ActionType) : ActionConfig :=
  match a with
  | deposit => mkConfig true false
  | mint => mkConfig true true
  | withdraw => mkConfig false false
  | redeem => mkConfig false true
  end.

(** A transaction handed to the signer. *)
Inductive Tx : Type :=
| TxApprove (needed : Z)
| TxVault (a : ActionType) (isBorrow : bool) (amount gasLimit : Z).

Section Handler.
Context {Err : Type}.

(** Helpers of utils whose bodies are not among the sources. *)
Variable isUserRejected : Err -> bool.
Variable applyGasSlippage : Z -> Z.

Definition State : Type := Form.State Err Tx.

(** What the handler closes over: props, context objects (their presence)
    and the outcome of each call it awaits. *)
Record Env : Type := mkEnv {
  actionType : ActionType;
  isBorrow : bool;
  isMaxSelected : bool;
  vault : bool;
  vaultLens : bool;
  address : bool;
  publicProvider : bool;
  tokenLens : bool;
  token : bool;
  currentNetwork : bool;
  isWETHAddress : bool;
  tokenSymbol : string;
  parseUnits : string -> Result Err Z;
  previewMint : Z -> Result Err Z;
  previewMintCollateral : Z -> Result Err Z;
  tokenLens_balanceOf : Result Err Z;
  tokenLens_balanceOf_afterWrap : Result Err Z;
  getBalance : Result Err Z;
  wrapEth : Z -> Z -> M Err State unit;
  tokenLens_allowance : Result Err Z;
  token_approve : Z -> Result Err unit;
  approveTx_wait : Result Err unit;
  estimateGas : ActionType -> bool -> Z -> Result Err Z;
  vault_call : ActionType -> bool -> Z -> Z -> Result Err unit;
  tx_wait : Result Err unit;
  vaultLens_balanceOf : Result Err Z;
  maxRedeem : Result Err Z;
  maxRedeemCollateral : Result Err Z;
  maxWithdraw : Result Err Z;
  maxWithdrawCollateral : Result Err Z
}.

Variable env : Env.

Definition handleWrapIfNeeded (needed balance : Z) : M Err State bool :=
  if balance >=? needed then ret true
  else if negb (currentNetwork env) then
    setError (Some "Wrong network.") ;;
    console_error "Wrong network." None ;;
    ret false
  else if negb (isWETHAddress env) then
    setError (Some ("Not enough tokens to " ++ actionName (actionType env) ++ ".")) ;;
    console_error ("Not enough tokens to " ++ actionName (actionType env)) None ;;
    ret false
  else if negb (publicProvider env) || negb (token env) then ret false
  else
    ethBalance <- await (getBalance env) ;;
    let wethMissing := needed - balance in
    wrapEth env wethMissing ethBalance ;;
    newBalance <- await (tokenLens_balanceOf_afterWrap env) ;;
    if newBalance <? needed then
      setError (Some "Not enough WETH after wrapping.") ;;
      console_error "Not enough WETH after wrapping" None ;;
      ret false
    else ret true.

Definition handleApproval (needed : Z) : M Err State bool :=
  if negb (token env) || negb (tokenLens env) || negb (address env) then ret false
  else
    currentAllowance <- await (tokenLens_allowance env) ;;
    (if currentAllowance <? needed then
       request (TxApprove needed) ;;
       await (token_approve env needed) ;;
       await (approveTx_wait env) ;;
       setSuccess (Some ("Successfully approved " ++ tokenSymbol env ++ "."))
     else
       setSuccess (Some ("Already approved " ++ tokenSymbol env ++ "."))) ;;
    ret true.

(** The four branches of [executeVaultMethod] have one shape: estimate
    the gas on the lens contract, then call the vault with the padded
    limit and wait for the receipt. *)
Definition executeVaultMethod (parsedAmount : Z) : M Err State unit :=
  if negb (vault env) || negb (vaultLens env) || negb (address env) then ret tt
  else
    estimatedGas <- await (estimateGas env (actionType env) (isBorrow env) parsedAmount) ;;
    request (TxVault (actionType env) (isBorrow env) parsedAmount
               (applyGasSlippage estimatedGas)) ;;
    await (vault_call env (actionType env) (isBorrow env) parsedAmount
             (applyGasSlippage estimatedGas)) ;;
    await (tx_wait env).

(** [refetchMaxBeforeTx : Promise<bigint | undefined>] *)
Definition refetchMaxBeforeTx : M Err State (option Z) :=
  if negb (vaultLens env) || negb (address env) then ret (Some 0)
  else
    tryCatch
      (match actionType env with
       | redeem =>
           userSharesBalance <- await (vaultLens_balanceOf env) ;;
           vaultMaxRedeem <- await (if isBorrow env then maxRedeem env
                                    else maxRedeemCollateral env) ;;
           ret (Some (if userSharesBalance <? vaultMaxRedeem
                      then userSharesBalance else vaultMaxRedeem))
       | withdraw =>
           vaultMaxWithdraw <- await (if isBorrow env then maxWithdraw env
                                      else maxWithdrawCollateral env) ;;
           ret (Some vaultMaxWithdraw)
       | _ =>
           console_error "Invalid action type (expected redeem or withdraw):" None ;;
           ret None
       end)
      (fun err =>
         console_error "Error refetching max amount before tx:" (Some err) ;;
         ret None).

(** The [try] block of [handleSubmit].  [refreshBalances] and
    [refreshVaultLimits] belong to the vault context, catch their own
    failures and touch no state of this component. *)
Definition handleSubmit_try : M Err State unit :=
  s <- get ;;
  parsedAmount <- await (parseUnits env (amount s)) ;;
  (if needsApproval (ACTION_CONFIGS (actionType env)) then
     if negb (publicProvider env) || negb (tokenLens env) || negb (token env)
        || negb (vaultLens env)
     then earlyReturn
     else
       tokensNeeded <-
         (match actionType env with
          | mint => await (if isBorrow env then previewMint env parsedAmount
                           else previewMintCollateral env parsedAmount)
          | _ => ret parsedAmount
          end) ;;
       balance <- await (tokenLens_balanceOf env) ;;
       hasEnough <- handleWrapIfNeeded tokensNeeded balance ;;
       if negb hasEnough then earlyReturn
       else
         approved <- handleApproval tokensNeeded ;;
         if negb approved then earlyReturn else ret tt
   else ret tt) ;;
  (if isMaxSelected env && isRedeemOrWithdraw (actionType env) then
     maxBeforeTx <- refetchMaxBeforeTx ;;
     match maxBeforeTx with
     | Some maxBeforeTx =>
         if maxBeforeTx =? 0 then
           setError (Some "Error refetching max amount before tx.") ;;
           console_error "Error refetching max amount before tx." None ;;
           earlyReturn
         else if maxBeforeTx <? parsedAmount then
           setError (Some "Amount higher than available.") ;;
           console_error "Amount higher than available" None ;;
           earlyReturn
         else executeVaultMethod maxBeforeTx
     | None =>
         setError (Some "Error refetching max amount before tx.") ;;
         console_error "Error refetching max amount before tx." None ;;
         earlyReturn
     end
   else executeVaultMethod parsedAmount) ;;
  setAmount "" ;;
  setSuccess (Some (actionNameCapitalized (actionType env) ++ " successful!")).

(** The [catch] block of [handleSubmit]. *)
Definition handleSubmit_catch (err : Err) : M Err State unit :=
  if isUserRejected err then
    setError (Some "Transaction canceled by user.")
  else
    setError (Some ("Failed to " ++ actionName (actionType env) ++ ".")) ;;
    console_error ("Failed to " ++ actionName (actionType env) ++ ": ") (Some err).

(** The state in which the [try] block starts. *)
Definition actionReset (s : State) : State :=
  Form.mkState true None None (amount s) (console s) (txs s).

Definition handleSubmit : M Err State unit :=
  setLoading true ;;
  setError None ;;
  setSuccess None ;;
  if negb (vault env) || negb (address env) then earlyReturn
  else
    tryCatchFinally handleSubmit_try handleSubmit_catch (setLoading false).

(** The maximum the chain reports when [refetchMaxBeforeTx] asks: for a
    redeem the smaller of the user's shares and the vault's redeem limit,
    for a withdraw the vault's withdraw limit; [None] when a read rejects. *)
Definition trueMax : option Z :=
  match actionType env with
  | redeem =>
      match vaultLens_balanceOf env,
            (if isBorrow env then maxRedeem env else maxRedeemCollateral env) with
      | Ok userSharesBalance, Ok vaultMaxRedeem =>
          Some (Z.min userSharesBalance vaultMaxRedeem)
      | _, _ => None
      end
  | withdraw =>
      match (if isBorrow env then maxWithdraw env else maxWithdrawCollateral env) with
      | Ok vaultMaxWithdraw => Some vaultMaxWithdraw
      | Fail _ => None
      end
  | _ => None
  end.

End Handler.

End ActionHandler.

(** ** SafeActionHandler: the same actions through the safe helper *)

Module SafeActionHandler.

Import Effects Form.
Local Open Scope string_scope.
Local Open Scope Z_scope.
Local Open Scope handler_scope.

Record SafeActionConfig : Type := mkConfig { needsApproval : bool; usesShares : bool }.

Definition SAFE_ACTION_CONFIGS (a : ActionType) : SafeActionConfig :=
  match a with
  | deposit => mkConfig true false
  | mint => mkConfig true true
  | withdraw => mkConfig true false
  | redeem => mkConfig true true
  end.

(** A transaction handed to the signer. *)
Inductive Tx : Type :=
| TxApproveShares (needed : Z)
| TxApproveToken (needed : Z)
| TxSafe (a : ActionType) (isBorrow : bool) (amount bound gasLimit : Z).

Definition isTxSafe (t : Tx) : bool :=
  match t with TxSafe _ _ _ _ _ => true | _ => false end.

Section Handler.
Context {Err : Type}.

(** Helpers of utils whose bodies are not among the sources. *)
Variable isUserRejected : Err -> bool.
Variable applyGasSlippage : Z -> Z.

Definition State : Type := Form.State Err Tx.

(** What the handler closes over.  The slippage tolerance is a decimal
    string read with [parseFloat]: [slippageValid] tells whether it is a
    number above zero, and [slippageDown], [slippageUp] are
    [BigInt(Math.floor((100 - p) * 100))] and
    [BigInt(Math.floor((100 + p) * 100))], which throw when the number is
    not finite. *)
Record Env : Type := mkEnv {
  actionType : ActionType;
  isBorrow : bool;
  isMaxSelected : bool;
  vault : bool;
  vaultLens : bool;
  address : bool;
  publicProvider : bool;
  tokenLens : bool;
  token : bool;
  currentNetwork : bool;
  isWETHAddress : bool;
  safeHelper : bool;
  helperAddress : bool;
  tokenSymbol : string;
  sharesSymbol : string;
  slippageValid : bool;
  slippageDown : Result Err Z;
  slippageUp : Result Err Z;
  parseUnits : string -> Result Err Z;
  previewDeposit : Z -> Result Err Z;
  previewMint : Z -> Result Err Z;
  previewWithdraw : Z -> Result Err Z;
  previewRedeem : Z -> Result Err Z;
  tokenLens_balanceOf : Result Err Z;
  tokenLens_balanceOf_afterWrap : Result Err Z;
  getBalance : Result Err Z;
  wrapEth : Z -> Z -> M Err State unit;
  vaultLens_allowance : Result Err Z;
  vault_approve : Z -> Result Err unit;
  tokenLens_allowance : Result Err Z;
  token_approve : Z -> Result Err unit;
  approveTx_wait : Result Err unit;
  estimateGas : ActionType -> bool -> Z -> Z -> Result Err Z;
  safeHelper_call : ActionType -> bool -> Z -> Z -> Z -> Result Err unit;
  tx_wait : Result Err unit;
  vaultLens_balanceOf : Result Err Z;
  maxRedeem : Result Err Z;
  maxWithdraw : Result Err Z
}.

Variable env : Env.

Definition handleWrapIfNeeded (needed balance : Z) : M Err State bool :=
  if balance >=? needed then ret true
  else if negb (currentNetwork env) then
    setError (Some "Wrong network.") ;;
    console_error "Wrong network." None ;;
    ret false
  else if negb (isWETHAddress env) then
    setError (Some ("Not enough tokens to " ++ actionName (actionType env) ++ ".")) ;;
    console_error ("Not enough tokens to " ++ actionName (actionType env)) None ;;
    ret false
  else if negb (publicProvider env) || negb (token env) then ret false
  else
    ethBalance <- await (getBalance env) ;;
    let wethMissing := needed - balance in
    wrapEth env wethMissing ethBalance ;;
    newBalance <- await (tokenLens_balanceOf_afterWrap env) ;;
    if newBalance <? needed then
      setError (Some "Not enough WETH after wrapping.") ;;
      console_error "Not enough WETH after wrapping" None ;;
      ret false
    else ret true.

Definition handleApproval (needed : Z) (approveShares : bool) : M Err State bool :=
  if negb (address env) || negb (helperAddress env) then ret false
  else if approveShares then
    if negb (vault env) || negb (vaultLens env) then ret false
    else
      currentAllowance <- await (vaultLens_allowance env) ;;
      (if currentAllowance <? needed then
         request (TxApproveShares needed) ;;
         await (vault_approve env needed) ;;
         await (approveTx_wait env) ;;
         setSuccess (Some ("Successfully approved " ++ sharesSymbol env ++ "."))
       else
         setSuccess (Some ("Already approved " ++ sharesSymbol env ++ "."))) ;;
      ret true
  else
    if negb (token env) || negb (tokenLens env) then ret false
    else
      currentAllowance <- await (tokenLens_allowance env) ;;
      (if currentAllowance <? needed then
         request (TxApproveToken needed) ;;
         await (token_approve env needed) ;;
         await (approveTx_wait env) ;;
         setSuccess (Some ("Successfully approved " ++ tokenSymbol env
                           ++ " for Safe Helper."))
       else
         setSuccess (Some ("Already approved " ++ tokenSymbol env ++ "."))) ;;
      ret true.

(** [calculateSlippageBound : Promise<bigint | null>]; the preview read is
    the borrow-side or the collateral-side one, by [isBorrow]. *)
Definition calculateSlippageBound (parsedAmount : Z) : M Err State (option Z) :=
  if negb (vaultLens env) || negb (helperAddress env) then ret None
  else if negb (slippageValid env) then ret None
  else
    tryCatch
      (match actionType env with
       | deposit =>
           expectedShares <- await (previewDeposit env parsedAmount) ;;
           factor <- await (slippageDown env) ;;
           ret (Some (Z.quot (expectedShares * factor) 10000))
       | mint =>
           expectedAssets <- await (previewMint env parsedAmount) ;;
           factor <- await (slippageUp env) ;;
           ret (Some (Z.quot (expectedAssets * factor) 10000))
       | withdraw =>
           expectedShares <- await (previewWithdraw env parsedAmount) ;;
           factor <- await (slippageUp env) ;;
           ret (Some (Z.quot (expectedShares * factor) 10000))
       | redeem =>
           expectedAssets <- await (previewRedeem env parsedAmount) ;;
           factor <- await (slippageDown env) ;;
           ret (Some (Z.quot (expectedAssets * factor) 10000))
       end)
      (fun err =>
         console_error "Error calculating slippage bound:" (Some err) ;;
         ret None).

(** The eight branches of [executeSafeMethod] have one shape: estimate
    the gas of the helper method, call it with the padded limit, wait. *)
Definition executeSafeMethod (parsedAmount bound : Z) : M Err State unit :=
  if negb (address env) then ret tt
  else if negb (safeHelper env) then
    console_error
      (if isBorrow env
       then "Safe helper for borrow not initialized. Please ensure you are connected to a supported network."
       else "Safe helper for collateral not initialized. Please ensure you are connected to a supported network.")
      None
  else
    estimatedGas <-
      await (estimateGas env (actionType env) (isBorrow env) parsedAmount bound) ;;
    request (TxSafe (actionType env) (isBorrow env) parsedAmount bound
               (applyGasSlippage estimatedGas)) ;;
    await (safeHelper_call env (actionType env) (isBorrow env) parsedAmount bound
             (applyGasSlippage estimatedGas)) ;;
    await (tx_wait env).

(** [refetchMaxBeforeTx : Promise<bigint | undefined>]; [maxRedeem] and
    [maxWithdraw] are the borrow-side or collateral-side read, by
    [isBorrow]. *)
Definition refetchMaxBeforeTx : M Err State (option Z) :=
  if negb (vaultLens env) || negb (address env) then ret (Some 0)
  else
    tryCatch
      (match actionType env with
       | redeem =>
           userSharesBalance <- await (vaultLens_balanceOf env) ;;
           vaultMaxRedeem <- await (maxRedeem env) ;;
           ret (Some (if userSharesBalance <? vaultMaxRedeem
                      then userSharesBalance else vaultMaxRedeem))
       | withdraw =>
           vaultMaxWithdraw <- await (maxWithdraw env) ;;
           ret (Some vaultMaxWithdraw)
       | _ =>
           console_error "Invalid action type (expected redeem or withdraw):" None ;;
           ret None
       end)
      (fun err =>
         console_error "Error refetching max amount before tx:" (Some err) ;;
         ret None).

(** The [try] block of [handleSubmit]. *)
Definition handleSubmit_try : M Err State unit :=
  s <- get ;;
  parsedAmount <- await (parseUnits env (amount s)) ;;
  (if negb (slippageValid env) then
     setError (Some "Invalid slippage tolerance.") ;; setLoading false ;; earlyReturn
   else ret tt) ;;
  slippageBound <- calculateSlippageBound parsedAmount ;;
  match slippageBound with
  | None =>
      setError (Some "Error calculating slippage bound.") ;; setLoading false ;;
      earlyReturn
  | Some slippageBound =>
      (if needsApproval (SAFE_ACTION_CONFIGS (actionType env)) then
         if negb (publicProvider env) || negb (vaultLens env) then earlyReturn
         else if isRedeemOrWithdraw (actionType env) then
           let sharesNeeded :=
             match actionType env with
             | withdraw => slippageBound
             | _ => parsedAmount
             end in
           approved <- handleApproval sharesNeeded true ;;
           if negb approved then setLoading false ;; earlyReturn else ret tt
         else
           if negb (tokenLens env) || negb (token env) then earlyReturn
           else
             let tokensNeeded :=
               match actionType env with
               | mint => slippageBound
               | _ => parsedAmount
               end in
             balance <- await (tokenLens_balanceOf env) ;;
             hasEnough <- handleWrapIfNeeded tokensNeeded balance ;;
             if negb hasEnough then setLoading false ;; earlyReturn
             else
               approved <- handleApproval tokensNeeded false ;;
               if negb approved then setLoading false ;; earlyReturn else ret tt
       else ret tt) ;;
      final <-
        (if isMaxSelected env && isRedeemOrWithdraw (actionType env) then
           maxBeforeTx <- refetchMaxBeforeTx ;;
           match maxBeforeTx with
           | Some maxBeforeTx =>
               if maxBeforeTx =? 0 then
                 setError (Some "Error refetching max amount before tx.") ;;
                 console_error "Error refetching max amount before tx." None ;;
                 setLoading false ;; earlyReturn
               else if maxBeforeTx <? parsedAmount then
                 setError (Some "Amount higher than available.") ;;
                 console_error "Amount higher than available" None ;;
                 setLoading false ;; earlyReturn
               else
                 adjustedSlippageBound <- calculateSlippageBound maxBeforeTx ;;
                 match adjustedSlippageBound with
                 | None =>
                     setError (Some "Error calculating slippage bound.") ;;
                     setLoading false ;; earlyReturn
                 | Some adjusted => ret (maxBeforeTx, adjusted)
                 end
           | None =>
               setError (Some "Error refetching max amount before tx.") ;;
               console_error "Error refetching max amount before tx." None ;;
               setLoading false ;; earlyReturn
           end
         else ret (parsedAmount, slippageBound)) ;;
      executeSafeMethod (fst final) (snd final) ;;
      setAmount "" ;;
      setSuccess (Some (actionNameCapitalized (actionType env) ++ " successful!"))
  end.

(** The [catch] block of [handleSubmit]. *)
Definition handleSubmit_catch (err : Err) : M Err State unit :=
  if isUserRejected err then
    setError (Some "Transaction canceled by user.")
  else
    setError (Some ("Failed to " ++ actionName (actionType env) ++ ".")) ;;
    console_error ("Failed to " ++ actionName (actionType env) ++ ": ") (Some err).

Definition handleSubmit : M Err State unit :=
  setLoading true ;;
  setError None ;;
  setSuccess None ;;
  if negb (vault env) || negb (address env) then
    setError (Some "Vault or address not configured.") ;; setLoading false ;;
    earlyReturn
  else if negb (safeHelper env) then
    setError (Some "Safe helper not initialized. Please ensure you are connected to a supported network.") ;;
    setLoading false ;; earlyReturn
  else
    tryCatchFinally handleSubmit_try handleSubmit_catch (setLoading false).

(** The maximum the chain reports when [refetchMaxBeforeTx] asks. *)
Definition trueMax : option Z :=
  match actionType env with
  | redeem =>
      match vaultLens_balanceOf env, maxRedeem env with
      | Ok userSharesBalance, Ok vaultMaxRedeem =>
          Some (Z.min userSharesBalance vaultMaxRedeem)
      | _, _ => None
      end
  | withdraw =>
      match maxWithdraw env with
      | Ok vaultMaxWithdraw => Some vaultMaxWithdraw
      | Fail _ => None
      end
  | _ => None
  end.

(** The preview and the tolerance factor a slippage bound is made of. *)
Definition expectedOf (parsedAmount : Z) : Result Err Z :=
  match actionType env with
  | deposit => previewDeposit env parsedAmount
  | mint => previewMint env parsedAmount
  | withdraw => previewWithdraw env parsedAmount
  | redeem => previewRedeem env parsedAmount
  end.

Definition factorOf : Result Err Z :=
  match actionType env with
  | deposit | redeem => slippageDown env
  | mint | withdraw => slippageUp env
  end.

End Handler.

End SafeActionHandler.

(** ** Flash-loan handlers: the minimum safe amounts *)

Module FlashLoan.

Import NumericUtils.

(** What [loadMinAvailable] reads: the presence guards, the share delta of
    the zero-amount rebalance preview, the vault's variable-debt balance
    and the two conversions ([None]: the read rejected). *)
Record Env : Type := mkEnv {
  ready : bool;
  previewLowLevelRebalanceBorrow0 : option Z;
  variableDebtToken_balanceOf : option Z;
  convertToShares : Z -> option Z;
  convertToAssets : Z -> option Z
}.

(** The two minimum states of a handler, as raw amounts; [None] is the
    initial state. *)
Record MinState : Type := mkMin { minUp : option Z; minDown : option Z }.

Definition setMinUp (v : Z) (s : MinState) : MinState := mkMin (Some v) (minDown s).
Definition setMinDown (v : Z) (s : MinState) : MinState := mkMin (minUp s) (Some v).

(** FlashLoanHelperHandler.[loadMinAvailable], with [minUp = minMint] and
    [minDown = minRedeem].  There is no [try] around the reads: a rejection
    leaves the function where it occurs, after the setters already run. *)
Definition loadMinAvailable (env : Env) (s : MinState) : MinState :=
  if negb (ready env) then s
  else
    match previewLowLevelRebalanceBorrow0 env with
    | None => s
    | Some deltaShares =>
        if deltaShares >? 0 then
          let s1 := setMinDown 0 s in
          match variableDebtToken_balanceOf env with
          | None => s1
          | Some variableDebtTokenAmount =>
              match convertToShares env variableDebtTokenAmount with
              | None => s1
              | Some variableDebtTokenShares =>
                  let amountWithPrecision :=
                    Z.quot (variableDebtTokenShares * 2) 10000000 in
                  let rawMinMint :=
                    maxBigInt (Z.quot (deltaShares * 101) 100)
                              (deltaShares + 5 * amountWithPrecision) in
                  setMinUp rawMinMint s1
              end
          end
        else if deltaShares <? 0 then
          let s1 := setMinUp 0 s in
          let absDelta := if deltaShares <? 0 then - deltaShares else deltaShares in
          let rawMinRedeem := Z.quot (absDelta * 10001) 10000 in
          setMinDown rawMinRedeem s1
        else
          setMinDown 0 (setMinUp 0 s)
    end.

(** FlashLoanDepositWithdrawHandler.[loadMinAvailable], with
    [minUp = minDeposit] and [minDown = minWithdraw]: the same share
    amounts, converted to assets and padded by one basis point. *)
Definition loadMinAvailable_depositWithdraw (env : Env) (s : MinState) : MinState :=
  if negb (ready env) then s
  else
    match previewLowLevelRebalanceBorrow0 env with
    | None => s
    | Some deltaShares =>
        if deltaShares >? 0 then
          let s1 := setMinDown 0 s in
          match variableDebtToken_balanceOf env with
          | None => s1
          | Some variableDebtTokenAmount =>
              match convertToShares env variableDebtTokenAmount with
              | None => s1
              | Some variableDebtTokenShares =>
                  let amountWithPrecision :=
                    Z.quot (variableDebtTokenShares * 2) 10000000 in
                  let rawMinMint :=
                    maxBigInt (Z.quot (deltaShares * 101) 100)
                              (deltaShares + 5 * amountWithPrecision) in
                  match convertToAssets env rawMinMint with
                  | None => s1
                  | Some rawMinDeposit =>
                      let rawMinDepositWithPrecision :=
                        Z.quot (rawMinDeposit * 10001) 10000 in
                      setMinUp rawMinDepositWithPrecision s1
                  end
              end
          end
        else if deltaShares <? 0 then
          let s1 := setMinUp 0 s in
          let absDelta := if deltaShares <? 0 then - deltaShares else deltaShares in
          let rawMinRedeem := Z.quot (absDelta * 10001) 10000 in
          match convertToAssets env rawMinRedeem with
          | None => s1
          | Some rawMinWithdraw =>
              let rawMinWithdrawWithPrecision :=
                Z.quot (rawMinWithdraw * 10001) 10000 in
              setMinDown rawMinWithdrawWithPrecision s1
          end
        else
          setMinDown 0 (setMinUp 0 s)
    end.

(** The protocol debt-precision correction: the vault's variable-debt
    balance in shares, times 2 / 10,000,000. *)
Definition debtPrecisionCorrection (env : Env) : option Z :=
  match variableDebtToken_balanceOf env with
  | Some debt =>
      match convertToShares env debt with
      | Some debtShares => Some (Z.quot (debtShares * 2) 10000000)
      | None => None
      end
  | None => None
  end.

End FlashLoan.

(** ** Decimal strings

    The vault context keeps each balance as the string [formatUnits] writes
    for a raw amount at the token's decimals, and a handler reads it back
    with [parseUnits] at a number of decimals of its choice.  Such a string
    is represented by the amount and the decimals it was written with.
    [parseUnits] pads the fraction up to the decimals asked for, and throws
    when fractional digits other than zero do not fit. *)

Module Units.

Record DecimalString : Type := mkDecimal { written : Z; writtenDecimals : nat }.

Definition formatUnits (value : Z) (decimals : nat) : DecimalString :=
  mkDecimal value decimals.

(** [None]: the call throws. *)
Definition parseUnits (text : DecimalString) (decimals : nat) : option Z :=
  if (writtenDecimals text <=? decimals)%nat then
    Some (written text * 10 ^ Z.of_nat (decimals - writtenDecimals text))
  else
    let cut := 10 ^ Z.of_nat (writtenDecimals text - decimals) in
    if Z.rem (written text) cut =? 0 then Some (Z.quot (written text) cut) else None.

End Units.

(** ** AuctionHandler *)

Module AuctionHandler.

Import Units.

Inductive AuctionType : Type := provide_borrow | provide_collateral.

(** [futureBorrowAssets && futureBorrowAssets > 0n ? 'provide_collateral'
    : 'provide_borrow'] *)
Definition auctionType (futureBorrowAssets : option Z) : AuctionType :=
  match futureBorrowAssets with
  | Some v => if negb (v =? 0) && (v >? 0) then provide_collateral else provide_borrow
  | None => provide_borrow
  end.


(** Props, context and state of one render of the handler.  A balance is
    the context's decimal string ([None]: a string [parseUnits] refuses, as
    the initial empty one); [decimals] is the component's own state, which
    [loadMaxValue] parses with. *)
Record Env : Type := mkEnv {
  vaultLens : bool;
  futureBorrowAssets : option Z;
  futureCollateralAssets : option Z;
  borrowTokenBalance : option DecimalString;
  collateralTokenBalance : option DecimalString;
  borrowTokenDecimals : nat;
  collateralTokenDecimals : nat;
  decimals : nat
}.

Definition truthy (v : option Z) : bool :=
  match v with Some x => negb (x =? 0) | None => false end.


Definition getBalanceForAuctionType (env : Env) : option DecimalString :=
  match auctionType (futureBorrowAssets env) with
  | provide_borrow => borrowTokenBalance env
  | provide_collateral => collateralTokenBalance env
  end.

(** [parseUnits(getBalanceForAuctionType(), decimals)] *)
Definition userBalance (env : Env) : option Z :=
  match getBalanceForAuctionType env with
  | Some text => parseUnits text (decimals env)
  | None => None
  end.

(** [loadMaxValue]: the new [maxValue] state from the old one. *)
Definition loadMaxValue (env : Env) (maxValue : option Z) : option Z :=
  if negb (vaultLens env) || negb (truthy (futureBorrowAssets env))
     || negb (truthy (futureCollateralAssets env))
  then maxValue
  else
    match futureBorrowAssets env, futureCollateralAssets env with
    | Some futureBorrowAssets, Some futureCollateralAssets =>
        match userBalance env with
        | None => maxValue
        | Some userBalance =>
            let vaultNeeds :=
              match auctionType (Some futureBorrowAssets) with
              | provide_borrow =>
                  if futureBorrowAssets <? 0 then - futureBorrowAssets else 0
              | provide_collateral =>
                  if futureCollateralAssets >? 0 then futureCollateralAssets else 0
              end in
            let max := if userBalance <? vaultNeeds then userBalance else vaultNeeds in
            Some max
        end
    | _, _ => maxValue
    end.


(** The state the submit button looks at. *)
Record State : Type := mkState {
  loading : bool;
  isApproving : bool;
  amount : option Z;
  maxValue : option Z
}.

(** [disabled={loading || isApproving || amount === null ||
    (amount !== null && maxValue !== null && amount > maxValue)}] *)
Definition submitDisabled (s : State) : bool :=
  loading s || isApproving s
  || match amount s with None => true | Some _ => false end
  || match amount s, maxValue s with
     | Some a, Some m => a >? m
     | _, _ => false
     end.


End AuctionHandler.

(** ** AuctionHandler: preview and submit *)

Module AuctionSubmit.

Import Effects AuctionHandler.
Local Open Scope string_scope.
Local Open Scope Z_scope.
Local Open Scope handler_scope.

(** [{ deltaBorrow?: bigint; deltaCollateral?: bigint }] *)
Record PreviewData : Type := mkPreview {
  deltaBorrow : option Z;
  deltaCollateral : option Z
}.

(** [auctionType === 'provide_borrow' ? 'borrow' : 'collateral'] *)
Definition inputTokenType (a : AuctionType) : TokenType :=
  match a with provide_borrow => borrow | provide_collateral => collateral end.

(** The leg a preview delta gives: none for [undefined] and for [0n],
    otherwise its absolute value. *)
Definition receiveLeg (delta : option Z) (t : TokenType) : list Leg :=
  match delta with
  | Some d =>
      if negb (d =? 0) && negb (d =? 0)
      then [mkLeg (if d <? 0 then - d else d) t]
      else []
  | None => []
  end.

(** [getReceiveAndProvide]; [!amount] holds for [null] and for [0n]. *)
Definition getReceiveAndProvide (a : AuctionType) (amount : option Z)
    (previewData : option PreviewData) : Legs :=
  match amount, previewData with
  | Some amt, Some pd =>
      if amt =? 0 then mkLegs [] []
      else
        let provide := [mkLeg amt (inputTokenType a)] in
        let receive :=
          match a with
          | provide_borrow => receiveLeg (deltaCollateral pd) collateral
          | provide_collateral => receiveLeg (deltaBorrow pd) borrow
          end in
        mkLegs receive provide
  | _, _ => mkLegs [] []
  end.

(** [loadPreview]: the new [previewData] state.  The lens is asked with the
    amount itself on the borrow side and with its negation on the collateral
    side; [None] from a read is its rejection.  The console lines are left
    out. *)
Definition loadPreview (lens : bool) (a : AuctionType)
    (previewExecuteAuctionCollateral previewExecuteAuctionBorrow : Z -> option Z)
    (previewAmount : option Z) : option PreviewData :=
  if negb lens then None
  else
    match previewAmount with
    | None => None
    | Some previewAmount =>
        match a with
        | provide_borrow =>
            match previewExecuteAuctionCollateral previewAmount with
            | Some result => Some (mkPreview None (Some result))
            | None => None
            end
        | provide_collateral =>
            match previewExecuteAuctionBorrow (- previewAmount) with
            | Some result => Some (mkPreview (Some result) None)
            | None => None
            end
        end
    end.

(** A transaction handed to the signer: an approval of the provided token,
    or [executeAuctionCollateral] / [executeAuctionBorrow] (by the auction
    type) with its argument and gas limit. *)
Inductive Tx : Type :=
| TxApprove (t : TokenType) (amount : Z)
| TxExecuteAuction (a : AuctionType) (arg gasLimit : Z).

Definition isExecuteTx (t : Tx) : bool :=
  match t with TxExecuteAuction _ _ _ => true | _ => false end.

Section Handler.
Context {Err : Type}.

(** Helpers of utils whose bodies are not among the sources. *)
Variable isUserRejected : Err -> bool.
Variable applyGasSlippage : Z -> Z.

(** The component state the submit path reads and writes ([inputValue] and
    [isLoadingMax] apart), with the console and the requests made to the
    signer. *)
Record State : Type := mkState {
  amount : option Z;
  loading : bool;
  error : option string;
  success : option string;
  isApproving : bool;
  approvalError : option string;
  maxValue : option Z;
  console : list (LogEntry Err);
  txs : list Tx
}.

Definition setAmount (a : option Z) : M Err State unit :=
  set (fun s => mkState a (loading s) (error s) (success s) (isApproving s)
                  (approvalError s) (maxValue s) (console s) (txs s)).
Definition setLoading (b : bool) : M Err State unit :=
  set (fun s => mkState (amount s) b (error s) (success s) (isApproving s)
                  (approvalError s) (maxValue s) (console s) (txs s)).
Definition setError (e : option string) : M Err State unit :=
  set (fun s => mkState (amount s) (loading s) e (success s) (isApproving s)
                  (approvalError s) (maxValue s) (console s) (txs s)).
Definition setSuccess (m : option string) : M Err State unit :=
  set (fun s => mkState (amount s) (loading s) (error s) m (isApproving s)
                  (approvalError s) (maxValue s) (console s) (txs s)).
Definition setIsApproving (b : bool) : M Err State unit :=
  set (fun s => mkState (amount s) (loading s) (error s) (success s) b
                  (approvalError s) (maxValue s) (console s) (txs s)).
Definition setApprovalError (e : option string) : M Err State unit :=
  set (fun s => mkState (amount s) (loading s) (error s) (success s) (isApproving s)
                  e (maxValue s) (console s) (txs s)).
Definition setMaxValue (m : option Z) : M Err State unit :=
  set (fun s => mkState (amount s) (loading s) (error s) (success s) (isApproving s)
                  (approvalError s) m (console s) (txs s)).
Definition console_error (msg : string) (err : option Err) : M Err State unit :=
  set (fun s => mkState (amount s) (loading s) (error s) (success s) (isApproving s)
                  (approvalError s) (maxValue s) (console s ++ [Log msg err]) (txs s)).
Definition request (t : Tx) : M Err State unit :=
  set (fun s => mkState (amount s) (loading s) (error s) (success s) (isApproving s)
                  (approvalError s) (maxValue s) (console s) (txs s ++ [t])).

(** What the handler closes over: the props and balances [loadMaxValue]
    reads, the presence of the context objects, the symbols as
    [formatTokenSymbol] shows them and the outcome of each awaited call. *)
Record Env : Type := mkEnv {
  base : AuctionHandler.Env;
  vault : bool;
  address : bool;
  vaultAddress : bool;
  tokenOf : TokenType -> bool;
  symbolOf : TokenType -> string;
  token_allowance : TokenType -> Result Err Z;
  token_approve : TokenType -> Z -> Result Err unit;
  approveTx_wait : Result Err unit;
  estimateGas : AuctionType -> Z -> Result Err Z;
  vault_execute : AuctionType -> Z -> Z -> Result Err unit;
  tx_wait : Result Err unit
}.

Variable env : Env.

Definition auctionTypeOf : AuctionType :=
  auctionType (futureBorrowAssets (base env)).

(** [checkAndApproveRequiredAssets]: its [return] and its [catch] keep
    every outcome inside. *)
Definition checkAndApproveRequiredAssets : M Err State unit :=
  call
    (s <- get ;;
     if negb (address env) || negb (vaultAddress env) || negb (truthy (amount s))
     then earlyReturn
     else
       setIsApproving true ;;
       setApprovalError None ;;
       tryCatchFinally
         (let token := inputTokenType auctionTypeOf in
          match amount s with
          | Some amt =>
              if tokenOf env token && (amt >? 0) then
                currentAllowance <- await (token_allowance env token) ;;
                if currentAllowance <? amt then
                  request (TxApprove token amt) ;;
                  await (token_approve env token amt) ;;
                  await (approveTx_wait env) ;;
                  setSuccess (Some ("Successfully approved " ++ symbolOf env token ++ "."))
                else
                  setSuccess (Some ("Already approved " ++ symbolOf env token ++ "."))
              else ret tt
          | None => ret tt
          end)
         (fun err =>
            if isUserRejected err then
              setApprovalError (Some "Approval canceled by user.")
            else
              setApprovalError (Some "Failed to approve required tokens.") ;;
              console_error "Failed to approve required tokens:" (Some err))
         (setIsApproving false)).

(** The [try] block of [handleSubmit]; [amt] is the amount the guard has
    seen.  [refreshBalances] and [refreshVaultLimits] belong to the vault
    context; the closing [loadMaxValue()] has no [await] and so runs to its
    end within the call (the console line of its failing parse is left
    out). *)
Definition handleSubmit_try (amt : Z) : M Err State unit :=
  checkAndApproveRequiredAssets ;;
  (match auctionTypeOf with
   | provide_borrow =>
       estimatedGas <- await (estimateGas env provide_borrow amt) ;;
       request (TxExecuteAuction provide_borrow amt (applyGasSlippage estimatedGas)) ;;
       await (vault_execute env provide_borrow amt (applyGasSlippage estimatedGas))
   | provide_collateral =>
       estimatedGas <- await (estimateGas env provide_collateral (- amt)) ;;
       request (TxExecuteAuction provide_collateral (- amt)
                  (applyGasSlippage estimatedGas)) ;;
       await (vault_execute env provide_collateral (- amt)
                (applyGasSlippage estimatedGas))
   end) ;;
  await (tx_wait env) ;;
  setAmount None ;;
  setSuccess (Some "Auction executed successfully!") ;;
  s <- get ;;
  setMaxValue (loadMaxValue (base env) (maxValue s)).

Definition handleSubmit_catch (err : Err) : M Err State unit :=
  if isUserRejected err then
    setError (Some "Transaction canceled by user.")
  else
    setError (Some "Failed to execute auction.") ;;
    console_error "Failed to execute auction:" (Some err).

Definition handleSubmit : M Err State unit :=
  s <- get ;;
  match amount s with
  | Some amt =>
      if negb (vault env) || negb (AuctionHandler.vaultLens (base env))
         || negb (address env) || (amt =? 0)
      then earlyReturn
      else
        setLoading true ;;
        setError None ;;
        setSuccess None ;;
        setApprovalError None ;;
        tryCatchFinally (handleSubmit_try amt) handleSubmit_catch (setLoading false)
  | None => earlyReturn
  end.

(** [handleMaxClick]: with a maximum loaded, it becomes the amount. *)
Definition handleMaxClick (s : State) : State :=
  match maxValue s with
  | Some m => mkState (Some m) (loading s) (error s) (success s) (isApproving s)
                (approvalError s) (maxValue s) (console s) (txs s)
  | None => s
  end.

(** The signed amount both the preview and the vault call are asked with. *)
Definition auctionArg (a : AuctionType) (amt : Z) : Z :=
  match a with provide_borrow => amt | provide_collateral => - amt end.

(** What the submit button looks at. *)
Definition buttonState (s : State) : AuctionHandler.State :=
  AuctionHandler.mkState (loading s) (isApproving s) (amount s) (maxValue s).

End Handler.

End AuctionSubmit.

(** ** FlashLoanHelperHandler: the maximum mint *)

Module FlashLoanMax.

Import NumericUtils.

(** [GAS_RESERVE = GAS_RESERVE_WEI * GAS_RESERVE_MULTIPLIER], the
    multiplier being [3n]. *)
Definition GAS_RESERVE : Z := GAS_RESERVE_WEI * 3.

(** [amount * BigInt(999999) / BigInt(1000000)] *)
Definition applyMaxMintSlippage (amount : Z) : Z :=
  Z.quot (amount * 999999) 1000000.

(** What [setMaxMint] reads: [ready] is its guard (lens, balances and
    decimals all truthy), the two balances are the context's strings as
    [parseEther] and [parseUnits] read them, and [None] from a lens read is
    its rejection. *)
Record Env : Type := mkEnv {
  ready : bool;
  isWstETHVault : bool;
  rawEthBalance : Z;
  rawCollateralBalance : Z;
  convertToSharesCollateral : Z -> option Z;
  convertToShares : Z -> option Z;
  maxLowLevelRebalanceShares : option Z
}.

(** [setMaxMint]: the new [maxAmount] state (as the raw amount its string
    formats) from the old one.  Outside a wstETH vault the function ends
    without setting anything. *)
Definition setMaxMint (env : Env) (maxAmount : option Z) : option Z :=
  if negb (ready env) then maxAmount
  else if isWstETHVault env then
    match convertToSharesCollateral env (rawCollateralBalance env) with
    | None => maxAmount
    | Some sharesFromCollateral =>
        match convertToShares env (rawEthBalance env) with
        | None => maxAmount
        | Some sharesFromEth =>
            let userMaxMint :=
              clampToPositive (sharesFromCollateral + sharesFromEth - GAS_RESERVE) in
            match maxLowLevelRebalanceShares env with
            | None => maxAmount
            | Some vaultMaxMint =>
                let maxMint := minBigInt userMaxMint vaultMaxMint in
                let maxMintWithSlippage := applyMaxMintSlippage maxMint in
                Some maxMintWithSlippage
            end
        end
    end
  else maxAmount.

End FlashLoanMax.

(** ** hooks/useFlashLoanPreview *)

Module FlashLoanPreview.

Import NumericUtils Effects.

Inductive HelperType : Type := helper_mint | helper_redeem.

(** The state of the hook; [previewData] holds the [amount] of the
    preview object. *)
Record State : Type := mkState {
  previewData : option Z;
  isErrorLoadingPreview : bool;
  invalidRebalanceMode : bool
}.

Section Hook.
Context {Err : Type}.

(** [err?.message?.includes('InvalidRebalanceMode')] *)
Variable mentionsInvalidRebalanceMode : Err -> bool.

(** The props of the hook and the outcome of the two helper previews. *)
Record Env : Type := mkEnv {
  helperType : HelperType;
  sharesToProcess : option Z;
  mintHelper : bool;
  redeemHelper : bool;
  previewMintSharesWithFlashLoanCollateral : Z -> Result Err Z;
  previewRedeemSharesWithCurveAndFlashLoanBorrow : Z -> Result Err Z
}.

Variable env : Env.

Definition isValid : bool :=
  match sharesToProcess env with
  | Some sharesToProcess =>
      (sharesToProcess >? 0)
      && match helperType env with
         | helper_mint => mintHelper env
         | helper_redeem => redeemHelper env
         end
  | None => false
  end.

(** [loadPreview]; the console line of the [catch] is left out. *)
Definition loadPreview (s : State) : State :=
  if negb isValid then mkState None (isErrorLoadingPreview s) (invalidRebalanceMode s)
  else
    match sharesToProcess env with
    | None => s
    | Some sharesToProcess =>
        match (match helperType env with
               | helper_mint => previewMintSharesWithFlashLoanCollateral env sharesToProcess
               | helper_redeem =>
                   previewRedeemSharesWithCurveAndFlashLoanBorrow env sharesToProcess
               end) with
        | Ok amount => mkState (Some (reduceByPrecisionBuffer amount)) false false
        | Fail err =>
            mkState None true (if mentionsInvalidRebalanceMode err then true else false)
        end
    end.

(** The two lists the hook returns; [sharesToProcess && sharesToProcess >
    0n]. *)
Definition receiveAndProvide (s : State) : Legs :=
  match previewData s, sharesToProcess env with
  | Some amount, Some sharesToProcess =>
      if negb (sharesToProcess =? 0) && (sharesToProcess >? 0) then
        match helperType env with
        | helper_mint =>
            mkLegs [mkLeg sharesToProcess shares] [mkLeg amount collateral]
        | helper_redeem =>
            mkLegs [mkLeg amount borrow] [mkLeg sharesToProcess shares]
        end
      else mkLegs [] []
  | _, _ => mkLegs [] []
  end.

End Hook.

End FlashLoanPreview.

(** ** hooks/useActionPreview *)

Module ActionPreview.

(** [{ assets?: bigint; shares?: bigint }] *)
Record PreviewData : Type := mkPreview {
  assets : option Z;
  shares_ : option Z
}.

(** A leg for a preview field, when it is neither [undefined] nor [0n]. *)
Definition fieldLeg (v : option Z) (t : TokenType) : list Leg :=
  match v with
  | Some x => if x =? 0 then [] else [mkLeg x t]
  | None => []
  end.

(** [getReceiveAndProvide]: [amount] is the entered string ([None]: empty)
    and [parseUnits] its reading at the display decimals ([None]: it
    throws, which the [catch] swallows before anything is pushed). *)
Definition getReceiveAndProvide (actionType : ActionType) (tokenType : TokenType)
    (amount : option string) (parseUnits : string -> option Z)
    (previewData : option PreviewData) : Legs :=
  match amount, previewData with
  | Some amount, Some previewData =>
      match parseUnits amount with
      | None => mkLegs [] []
      | Some parsedAmount =>
          match actionType with
          | deposit =>
              mkLegs (fieldLeg (shares_ previewData) shares)
                     [mkLeg parsedAmount tokenType]
          | mint =>
              mkLegs [mkLeg parsedAmount shares]
                     (fieldLeg (assets previewData) tokenType)
          | withdraw =>
              mkLegs [mkLeg parsedAmount tokenType]
                     (fieldLeg (shares_ previewData) shares)
          | redeem =>
              mkLegs (fieldLeg (assets previewData) tokenType)
                     [mkLeg parsedAmount shares]
          end
      end
  | _, _ => mkLegs [] []
  end.

End ActionPreview.

(** ** components/ui/Tabs *)

Module Tabs.

Section Tabs.
Context {T : Type}.
Variable eqb : T -> T -> bool.

(** [safeSetActiveTab]: the new active tab after a click on [tab]. *)
Definition safeSetActiveTab (isProcessing : bool) (activeTab tab : T) : T :=
  if isProcessing && negb (eqb tab activeTab) then activeTab else tab.

(** A run of clicks, each handled by the render that follows the one
    before. *)
Definition clicks (isProcessing : bool) (activeTab : T) (tabs : list T) : T :=
  fold_left (safeSetActiveTab isProcessing) tabs activeTab.

End Tabs.

End Tabs.

Definition ActionType_eqb (a b : ActionType) : bool :=
  match a, b with
  | deposit, deposit | mint, mint | withdraw, withdraw | redeem, redeem => true
  | _, _ => false
  end.

(** ** RedeemCollateral *)

Module RedeemCollateral.

Import Effects Form.
Local Open Scope string_scope.
Local Open Scope Z_scope.
Local Open Scope handler_scope.

(** The one transaction of the component:
    [vault.redeemCollateral(amountToRedeem, address, address)]. *)
Inductive Tx : Type :=
| TxRedeemCollateral (amountToRedeem : Z).

Section Handler.
Context {Err : Type}.

(** Helper of utils whose body is not among the sources. *)
Variable isUserRejected : Err -> bool.

Definition State : Type := Form.State Err Tx.

(** What [handleRedeem] closes over; [maxRedeemCollateral] is the
    context's string. *)
Record Env : Type := mkEnv {
  address : bool;
  vault : bool;
  maxRedeemCollateral : string;
  parseUnits : string -> Result Err Z;
  vault_redeemCollateral : Z -> Result Err unit;
  redeemTx_wait : Result Err unit
}.

Variable env : Env.

Definition handleRedeem_try : M Err State unit :=
  s <- get ;;
  amountToRedeem <- await (parseUnits env (amount s)) ;;
  maxAvailable <- await (parseUnits env (maxRedeemCollateral env)) ;;
  if maxAvailable <? amountToRedeem then
    setError (Some "Amount higher than available.") ;;
    console_error "Amount higher than available" None ;;
    earlyReturn
  else
    request (TxRedeemCollateral amountToRedeem) ;;
    await (vault_redeemCollateral env amountToRedeem) ;;
    await (redeemTx_wait env) ;;
    setAmount "" ;;
    setSuccess (Some "Redemption successful!").

Definition handleRedeem_catch (err : Err) : M Err State unit :=
  if isUserRejected err then
    setError (Some "Transaction canceled by user.")
  else
    setError (Some "Failed to redeem") ;;
    console_error "Failed to redeem" (Some err).

Definition handleRedeem : M Err State unit :=
  if negb (address env) || negb (vault env) then earlyReturn
  else
    setLoading true ;;
    setError None ;;
    setSuccess None ;;
    tryCatchFinally handleRedeem_try handleRedeem_catch (setLoading false).

End Handler.

End RedeemCollateral.

(** ** Concrete inputs used by the scenarios below *)

(** a vault that must receive 40 borrow tokens, a user holding 25 *)
Definition maxEnv_example : LowLevelRebalanceHandler.MaxEnv :=
  LowLevelRebalanceHandler.mkMaxEnv true (Some 7) (Some (-40)) (Some 15) (Some 25) (Some 60).


(** A user whose every balance is 3 while the vault reports
    [maxWithdraw = 10] and [maxWithdrawCollateral = 12]. *)
Definition withdrawScenario : VaultContext.MaxInputs :=
  VaultContext.mkMaxInputs true false false
    (VaultContext.mkBalances (Some 3) (Some 3) (Some 3) (Some 3))
    (Some 100) (Some 2) (Some 100) (Some 10)
    (Some 100) (Some 5) (Some 100) (Some 12)
    (fun assets => Some assets) (fun assets => Some assets).

(** A refresh whose borrow-token read rejects, over a loaded state. *)
Definition staleState : VaultContext.State :=
  VaultContext.mkState (VaultContext.mkBalances (Some 1) (Some 1) (Some 1) (Some 1)) false.
Definition partialReads : VaultContext.BalanceReads :=
  VaultContext.mkReads (Some 5) (Some 6) None (Some 8).
Definition fullReads : VaultContext.BalanceReads :=
  VaultContext.mkReads (Some 5) (Some 6) (Some 7) (Some 8).

(** A vault whose position must shed 10000 shares, with no variable debt. *)
Definition redeemSideEnv : FlashLoan.Env :=
  FlashLoan.mkEnv true (Some (-10000)) (Some 0)
    (fun assets => Some assets) (fun sh => Some sh).

(** A vault that can take 10000 more shares, variable debt worth
    300,000,000 shares. *)
Definition mintSideEnv : FlashLoan.Env :=
  FlashLoan.mkEnv true (Some 10000) (Some 300000000)
    (fun assets => Some assets) (fun sh => Some sh).


(** the signer's rejection, as the classifier below recognises it *)
Definition rejectedBySigner : string := "ACTION_REJECTED".
Definition isUserRejected_example (err : string) : bool :=
  String.eqb err rejectedBySigner.
Definition applyGasSlippage_example (estimate : Z) : Z :=
  Z.quot (estimate * 12) 10.

(** A max withdraw on the borrow side through the plain handler: the form
    holds 5.0 (18 decimals), the chain reports [maxWithdraw] when asked
    again, and the signer answers the vault call with [signer]. *)
Definition submitEnv (maxWithdrawNow : Z) (signer : Effects.Result string unit)
    : @ActionHandler.Env string :=
  ActionHandler.mkEnv withdraw true true
    true true true true true true true false
    "WETH"
    (fun _ => Effects.Ok 5000000000000000000)
    (fun sh => Effects.Ok sh) (fun sh => Effects.Ok sh)
    (Effects.Ok 0) (Effects.Ok 0) (Effects.Ok 0)
    (fun _ _ => Effects.ret tt)
    (Effects.Ok 0) (fun _ => Effects.Ok tt) (Effects.Ok tt)
    (fun _ _ _ => Effects.Ok 100000)
    (fun _ _ _ _ => signer)
    (Effects.Ok tt)
    (Effects.Ok 5000000000000000000)
    (Effects.Ok 5000000000000000000) (Effects.Ok 5000000000000000000)
    (Effects.Ok maxWithdrawNow) (Effects.Ok maxWithdrawNow).

Definition formState : @ActionHandler.State string :=
  Form.mkState false None None "5.0" [] [].

(** The same max withdraw through the safe helper, the helper holding no
    allowance on the user's shares yet. *)
Definition safeSubmitEnv (maxWithdrawNow : Z) : @SafeActionHandler.Env string :=
  SafeActionHandler.mkEnv withdraw true true
    true true true true true true true false true true
    "WETH" "pWETH"
    true (Effects.Ok 9950) (Effects.Ok 10050)
    (fun _ => Effects.Ok 5000000000000000000)
    (fun a => Effects.Ok a) (fun a => Effects.Ok a)
    (fun a => Effects.Ok a) (fun a => Effects.Ok a)
    (Effects.Ok 0) (Effects.Ok 0) (Effects.Ok 0)
    (fun _ _ => Effects.ret tt)
    (Effects.Ok 0) (fun _ => Effects.Ok tt)
    (Effects.Ok 0) (fun _ => Effects.Ok tt)
    (Effects.Ok tt)
    (fun _ _ _ _ => Effects.Ok 100000)
    (fun _ _ _ _ _ => Effects.Ok tt)
    (Effects.Ok tt)
    (Effects.Ok 5000000000000000000)
    (Effects.Ok 5000000000000000000)
    (Effects.Ok maxWithdrawNow).

Definition safeFormState : @SafeActionHandler.State string :=
  Form.mkState false None None "5.0" [] [].

(** A rebalance by 100 shares whose vault call the signer answers with
    [signer]; no preview is loaded, so nothing needs approval. *)
Definition rebalanceEnv (signer : Effects.Result string unit)
    : @LowLevelRebalanceHandler.Env string :=
  LowLevelRebalanceHandler.mkEnv shares true true true true
    (fun t => match t with shares => false | _ => true end)
    (fun t => match t with
              | shares => "pWETH" | borrow => "WETH" | collateral => "wstETH"
              end%string)
    (fun _ => Effects.Ok 0) (fun _ _ => Effects.Ok tt) (Effects.Ok tt)
    (fun _ => Effects.Ok (Some 1)) (fun _ => Effects.Ok (Some 1))
    (fun _ => Effects.Ok 100000) (fun _ _ => Effects.Ok 100000)
    (fun _ _ => Effects.Ok 100000)
    (fun _ => signer)
    (Effects.Ok tt).

Definition rebalanceState : @LowLevelRebalanceHandler.State string :=
  LowLevelRebalanceHandler.mkState "100" (Some 100) false None None false None None [] [].

(** A rebalance by 100 borrow tokens whose preview reports the share delta
    [delta]. *)
Definition borrowRebalanceEnv (delta : option Z) : @LowLevelRebalanceHandler.Env string :=
  LowLevelRebalanceHandler.mkEnv borrow true true true true
    (fun t => match t with shares => false | _ => true end)
    (fun t => match t with
              | shares => "pWETH" | borrow => "WETH" | collateral => "wstETH"
              end%string)
    (fun _ => Effects.Ok 0) (fun _ _ => Effects.Ok tt) (Effects.Ok tt)
    (fun _ => Effects.Ok delta) (fun _ => Effects.Ok delta)
    (fun _ => Effects.Ok 100000) (fun _ _ => Effects.Ok 100000)
    (fun _ _ => Effects.Ok 100000)
    (fun _ => Effects.Ok tt)
    (Effects.Ok tt).

(** A mint of 100 shares whose preview asks for 30 collateral and repays 20
    borrow tokens. *)
Definition previewState : @LowLevelRebalanceHandler.State string :=
  LowLevelRebalanceHandler.mkState "100" (Some 100) false None None false None
    (Some (LowLevelRebalanceHandler.mkPreview (Some 30) (Some (-20)) None)) [] [].

(** Ten limit reads of which the eighth rejects, over loaded limits. *)
Definition loadedLimits : VaultContext.VaultLimits :=
  VaultContext.mkLimits (Some 1) (Some 1) (Some 1) (Some 1) (Some 1)
    (Some 1) (Some 1) (Some 1) (Some 1) (Some 1).
Definition limitReadsOneFails : VaultContext.VaultLimits :=
  VaultContext.mkLimits (Some 9) (Some 9) (Some 9) (Some 9) (Some 9)
    (Some 9) (Some 9) None (Some 9) (Some 9).

(** A wrapped-native collateral token: 4.0 collateral, 1.0 ETH, 0.5 borrow
    tokens, previews at par on the borrow side and at 2 shares per
    collateral unit. *)
Definition collateralScenario : VaultContext.MaxInputs :=
  VaultContext.mkMaxInputs true false true
    (VaultContext.mkBalances (Some 1000000000000000000) (Some 7)
       (Some 500000000000000000) (Some 4000000000000000000))
    (Some 100000000000000000) (Some 5) (Some 300000000000000000) (Some 11)
    (Some 6000000000000000000) (Some 9) (Some 9000000000000000000) (Some 13)
    (fun assets => Some assets) (fun assets => Some (2 * assets)).

(** A deposit or mint of 5.0 on the borrow side of a token that is not the
    wrapped-native asset: the user holds [balance], the vault is allowed
    [allowance], and a share costs two tokens. *)
Definition depositEnv (action : ActionType) (balance allowance : Z)
    : @ActionHandler.Env string :=
  ActionHandler.mkEnv action true false
    true true true true true true true false
    "USDC"
    (fun _ => Effects.Ok 5000000000000000000)
    (fun sh => Effects.Ok (2 * sh)) (fun sh => Effects.Ok (2 * sh))
    (Effects.Ok balance) (Effects.Ok balance) (Effects.Ok 0)
    (fun _ _ => Effects.ret tt)
    (Effects.Ok allowance) (fun _ => Effects.Ok tt) (Effects.Ok tt)
    (fun _ _ _ => Effects.Ok 100000)
    (fun _ _ _ _ => Effects.Ok tt)
    (Effects.Ok tt)
    (Effects.Ok 0)
    (Effects.Ok 0) (Effects.Ok 0)
    (Effects.Ok 0) (Effects.Ok 0).

(** An action of 5.0 through the safe helper without Max, at a tolerance
    of 0.5 percent and previews at par, the helper being allowed
    [allowance] of the user's shares. *)
Definition safeEnv (action : ActionType) (allowance : Z) : @SafeActionHandler.Env string :=
  SafeActionHandler.mkEnv action true false
    true true true true true true true false true true
    "WETH" "pWETH"
    true (Effects.Ok 9950) (Effects.Ok 10050)
    (fun _ => Effects.Ok 5000000000000000000)
    (fun a => Effects.Ok a) (fun a => Effects.Ok a)
    (fun a => Effects.Ok a) (fun a => Effects.Ok a)
    (Effects.Ok 0) (Effects.Ok 0) (Effects.Ok 0)
    (fun _ _ => Effects.ret tt)
    (Effects.Ok allowance) (fun _ => Effects.Ok tt)
    (Effects.Ok 0) (fun _ => Effects.Ok tt)
    (Effects.Ok tt)
    (fun _ _ _ _ => Effects.Ok 100000)
    (fun _ _ _ _ _ => Effects.Ok tt)
    (Effects.Ok tt)
    (Effects.Ok 5000000000000000000)
    (Effects.Ok 5000000000000000000)
    (Effects.Ok 5000000000000000000).

(** The auction above with collateral to provide instead: the vault needs
    90 collateral from a user who holds 120; the user enters 30, the
    vault's allowance is zero and the signer answers the approval with
    [approval]. *)
Definition collateralAuctionEnv (approval : Effects.Result string unit)
    : @AuctionSubmit.Env string :=
  AuctionSubmit.mkEnv
    (AuctionHandler.mkEnv true (Some 70) (Some 90)
       (Some (Units.formatUnits 50 18)) (Some (Units.formatUnits 120 18)) 18 18 18)
    true true true
    (fun _ => true)
    (fun t => match t with
              | shares => "pWETH" | borrow => "WETH" | collateral => "wstETH"
              end%string)
    (fun _ => Effects.Ok 0) (fun _ _ => approval) (Effects.Ok tt)
    (fun _ _ => Effects.Ok 100000)
    (fun _ _ _ => Effects.Ok tt)
    (Effects.Ok tt).

Definition auctionState : @AuctionSubmit.State string :=
  AuctionSubmit.mkState (Some 30) false None None false None (Some 90) [] [].

(** A wstETH vault: 2.0 collateral and 1.0 ETH convert to shares at par,
    and the vault takes at most 0.5 shares. *)
Definition maxMintEnv : FlashLoanMax.Env :=
  FlashLoanMax.mkEnv true true 1000000000000000000 2000000000000000000
    (fun a => Some a) (fun a => Some a) (Some 500000000000000000).

(** A flash-loan mint of 1000 shares whose helper asks for three units of
    collateral a share. *)
Definition flashPreviewEnv : @FlashLoanPreview.Env string :=
  FlashLoanPreview.mkEnv FlashLoanPreview.helper_mint (Some 1000) true true
    (fun sh => Effects.Ok (3 * sh)) (fun sh => Effects.Ok sh).

(** A collateral redemption of 5.0 against a context maximum of 7.0. *)
Definition redeemCollateralEnv : @RedeemCollateral.Env string :=
  RedeemCollateral.mkEnv true true "7.0"
    (fun text => if String.eqb text "5.0" then Effects.Ok 5000000000000000000
                 else if String.eqb text "7.0" then Effects.Ok 7000000000000000000
                 else Effects.Fail "invalid decimal value"%string)
    (fun _ => Effects.Ok tt) (Effects.Ok tt).

Definition redeemCollateralState : @RedeemCollateral.State string :=
  Form.mkState false None None "5.0" [] [].

(** The vault that must shed 10000 shares again, the debt read
    rejecting. *)
Definition debtReadFailsEnv : FlashLoan.Env :=
  FlashLoan.mkEnv true (Some (-10000)) None
    (fun assets => Some assets) (fun sh => Some sh).



(** The rebalance by shares above, the signer answering every approval
    with [approval]. *)
Definition approvalAnsweredEnv (approval : Effects.Result string unit)
    : @LowLevelRebalanceHandler.Env string :=
  LowLevelRebalanceHandler.mkEnv shares true true true true
    (fun t => match t with shares => false | _ => true end)
    (fun t => match t with
              | shares => "pWETH" | borrow => "WETH" | collateral => "wstETH"
              end%string)
    (fun _ => Effects.Ok 0) (fun _ _ => approval) (Effects.Ok tt)
    (fun _ => Effects.Ok (Some 1)) (fun _ => Effects.Ok (Some 1))
    (fun _ => Effects.Ok 100000) (fun _ _ => Effects.Ok 100000)
    (fun _ _ => Effects.Ok 100000)
    (fun _ => Effects.Ok tt)
    (Effects.Ok tt).

(** A deposit of 5.0 by a user who holds 20.0 and has approved nothing,
    the signer answering the approval with [approval]. *)
Definition depositAnsweredEnv (approval : Effects.Result string unit)
    : @ActionHandler.Env string :=
  ActionHandler.mkEnv deposit true false
    true true true true true true true false
    "USDC"
    (fun _ => Effects.Ok 5000000000000000000)
    (fun sh => Effects.Ok (2 * sh)) (fun sh => Effects.Ok (2 * sh))
    (Effects.Ok 20000000000000000000) (Effects.Ok 20000000000000000000) (Effects.Ok 0)
    (fun _ _ => Effects.ret tt)
    (Effects.Ok 0) (fun _ => approval) (Effects.Ok tt)
    (fun _ _ _ => Effects.Ok 100000)
    (fun _ _ _ _ => Effects.Ok tt)
    (Effects.Ok tt)
    (Effects.Ok 0)
    (Effects.Ok 0) (Effects.Ok 0)
    (Effects.Ok 0) (Effects.Ok 0).

(** * Verified properties *)

Import NumericUtils.

(** ** NumericUtils *)

Lemma minBigInt_min a b : minBigInt a b = Z.min a b.
Proof. unfold minBigInt. destruct (Z.ltb_spec a b); lia. Qed.

Lemma maxBigInt_max a b : maxBigInt a b = Z.max a b.
Proof. unfold maxBigInt. rewrite Z.gtb_ltb. destruct (Z.ltb_spec b a); lia. Qed.

Lemma clampToPositive_max x : clampToPositive x = Z.max 0 x.
Proof. unfold clampToPositive. rewrite Z.gtb_ltb. destruct (Z.ltb_spec 0 x); lia. Qed.

Lemma reduceByPrecisionBuffer_div x :
  0 <= x -> reduceByPrecisionBuffer x = x * 99999999 / 100000000.
Proof.
  intros Hx. unfold reduceByPrecisionBuffer. cbv zeta.
  apply Z.quot_div_nonneg; lia.
Qed.

(** The buffer removes exactly the ceiling of [x / 10^8]. *)
Lemma reduceByPrecisionBuffer_error x :
  0 <= x ->
  x - reduceByPrecisionBuffer x = (x + 99999999) / 100000000.
Proof.
  intros Hx. rewrite reduceByPrecisionBuffer_div by assumption.
  pose proof (Z.div_mod (x * 99999999) 100000000 ltac:(lia)) as E1.
  pose proof (Z.mod_pos_bound (x * 99999999) 100000000 ltac:(lia)) as B1.
  pose proof (Z.div_mod (x + 99999999) 100000000 ltac:(lia)) as E2.
  pose proof (Z.mod_pos_bound (x + 99999999) 100000000 ltac:(lia)) as B2.
  lia.
Qed.

(** ** reduceByPrecisionBuffer *)

(** C9, the claim as stated fails at [x = 1]: the buffer takes the whole
    unit ([1 * 99999999 / 100000000 = 0]), an error of [1], while
    [1 / 10,000,000] is [0] as an integer and [10^-7] as a fraction. *)
Lemma reduceByPrecisionBuffer_error_bound_fails :
  ~ (forall x : Z, 0 <= x ->
       0 <= reduceByPrecisionBuffer x <= x /\
       x - reduceByPrecisionBuffer x <= x / 10000000)
  /\ reduceByPrecisionBuffer 1 = 0
  /\ ~ (10000000 * (1 - reduceByPrecisionBuffer 1) <= 1).
Proof.
  split; [| split].
  - intros H. specialize (H 1 ltac:(lia)). destruct H as [_ H].
    vm_compute in H. apply H. reflexivity.
  - reflexivity.
  - vm_compute. intros H. apply H. reflexivity.
Qed.

(** C9, amended: for every non-negative [x] the result lies in [[0, x]] and
    the amount removed is the ceiling of [x / 10^8], hence at most
    [x / 10^8 + 1]; the bound [x / 10,000,000] holds from [x = 10,000,000]
    on (and at [x = 0]). *)
Theorem reduceByPrecisionBuffer_bounds (x : Z) (Hx : 0 <= x) :
  0 <= reduceByPrecisionBuffer x <= x /\
  x - reduceByPrecisionBuffer x = (x + 99999999) / 100000000 /\
  x - reduceByPrecisionBuffer x <= x / 100000000 + 1 /\
  (x = 0 \/ 10000000 <= x ->
   x - reduceByPrecisionBuffer x <= x / 10000000).
Proof.
  pose proof (reduceByPrecisionBuffer_error x Hx) as E.
  pose proof (Z.div_mod (x + 99999999) 100000000 ltac:(lia)) as E2.
  pose proof (Z.mod_pos_bound (x + 99999999) 100000000 ltac:(lia)) as B2.
  pose proof (Z.div_mod x 100000000 ltac:(lia)) as E3.
  pose proof (Z.mod_pos_bound x 100000000 ltac:(lia)) as B3.
  pose proof (Z.div_mod x 10000000 ltac:(lia)) as E4.
  pose proof (Z.mod_pos_bound x 10000000 ltac:(lia)) as B4.
  repeat split; try lia.
Qed.

Lemma reduceByPrecisionBuffer_bounds_witness :
  0 <= reduceByPrecisionBuffer 250000000 <= 250000000 /\
  250000000 - reduceByPrecisionBuffer 250000000 = (250000000 + 99999999) / 100000000 /\
  250000000 - reduceByPrecisionBuffer 250000000 <= 250000000 / 100000000 + 1 /\
  (250000000 = 0 \/ 10000000 <= 250000000 ->
   250000000 - reduceByPrecisionBuffer 250000000 <= 250000000 / 10000000).
Proof. apply (reduceByPrecisionBuffer_bounds 250000000). lia. Defined.

(** ** Low-level rebalance: preview legs and available maximum *)

Section RebalanceLegs.
Import LowLevelRebalanceHandler.

Ltac case_sign v :=
  destruct (Z.eqb_spec v 0); [subst v|];
  try (rewrite ?Z.gtb_ltb;
       destruct (Z.ltb_spec v 0); destruct (Z.ltb_spec 0 v); try lia).

(** What one [addToList] call leaves in the lists of another token. *)
Lemma addToList_other acc value t invertSign u :
  TokenType_eqb t u = false ->
  legsOf u (provide (addToList acc value t invertSign)) = legsOf u (provide acc) /\
  legsOf u (receive (addToList acc value t invertSign)) = legsOf u (receive acc).
Proof.
  intros Htu. unfold addToList, legsOf.
  destruct value as [v|]; [|auto].
  destruct (v =? 0); [auto|].
  destruct (if invertSign then v <? 0 else v >? 0); cbn [provide receive pushProvide pushReceive];
    rewrite ?filter_app; cbn [filter tokenType]; rewrite Htu, ?app_nil_r; auto.
Qed.

(** What one [addToList] call adds to the lists of its own token. *)
Lemma addToList_same acc value t invertSign :
  legsOf t (provide (addToList acc value t invertSign)) =
    legsOf t (provide acc) ++
    match value with
    | Some v =>
        if (if invertSign then v <? 0 else 0 <? v)
        then [mkLeg (Z.abs v) t] else []
    | None => []
    end /\
  legsOf t (receive (addToList acc value t invertSign)) =
    legsOf t (receive acc) ++
    match value with
    | Some v =>
        if (if invertSign then 0 <? v else v <? 0)
        then [mkLeg (Z.abs v) t] else []
    | None => []
    end.
Proof.
  assert (Ht : TokenType_eqb t t = true) by (destruct t; reflexivity).
  unfold addToList, legsOf.
  destruct value as [v|]; [|rewrite !app_nil_r; auto].
  case_sign v.
  - destruct invertSign; cbn; rewrite !app_nil_r; auto.
  - replace (Z.abs v) with (- v) by lia.
    destruct invertSign; cbn [provide receive pushProvide pushReceive];
      rewrite ?filter_app; cbn [filter tokenType]; rewrite Ht, ?app_nil_r; auto.
  - replace (Z.abs v) with v by lia.
    destruct invertSign; cbn [provide receive pushProvide pushReceive];
      rewrite ?filter_app; cbn [filter tokenType]; rewrite Ht, ?app_nil_r; auto.
Qed.

(** The leg of the entered share amount is a shares leg. *)
Lemma input_leg_is_shares (amount : option Z) u :
  TokenType_eqb shares u = false ->
  let l1 :=
    match amount with
    | Some a =>
        if a =? 0 then mkLegs [] []
        else if a >? 0
             then pushReceive (mkLegs [] []) (mkLeg (if a <? 0 then - a else a) shares)
             else pushProvide (mkLegs [] []) (mkLeg (if a <? 0 then - a else a) shares)
    | None => mkLegs [] []
    end in
  legsOf u (provide l1) = [] /\ legsOf u (receive l1) = [].
Proof.
  intros Hu. destruct u; try discriminate Hu;
    (destruct amount as [a|]; cbn zeta; [|auto]);
    (destruct (a =? 0); [auto|]);
    destruct (a >? 0); cbn; auto.
Qed.

(** C1: in the preview of a rebalance by shares, a positive collateral
    delta is the one collateral leg of [provide] and a negative one the one
    collateral leg of [receive]; the borrow delta is classified the other
    way round (positive: [receive], negative: [provide]); each leg carries
    the magnitude of its delta; a delta that is zero or absent leaves no leg
    of its token in either list, and without preview data both lists are
    empty. *)
Theorem getReceiveAndProvide_shares_sign_rule :
  forall (amount : option Z) (pd : PreviewData),
    let r := getReceiveAndProvide shares amount (Some pd) in
    legsOf collateral (provide r) =
      match deltaCollateral pd with
      | Some v => if 0 <? v then [mkLeg (Z.abs v) collateral] else []
      | None => []
      end /\
    legsOf collateral (receive r) =
      match deltaCollateral pd with
      | Some v => if v <? 0 then [mkLeg (Z.abs v) collateral] else []
      | None => []
      end /\
    legsOf borrow (receive r) =
      match deltaBorrow pd with
      | Some v => if 0 <? v then [mkLeg (Z.abs v) borrow] else []
      | None => []
      end /\
    legsOf borrow (provide r) =
      match deltaBorrow pd with
      | Some v => if v <? 0 then [mkLeg (Z.abs v) borrow] else []
      | None => []
      end /\
    getReceiveAndProvide shares amount None = mkLegs [] [].
Proof.
  intros amount pd r. subst r. unfold getReceiveAndProvide. cbv zeta.
  set (l1 := match amount with Some a => _ | None => _ end).
  destruct (input_leg_is_shares amount collateral eq_refl) as [Pc Rc].
  destruct (input_leg_is_shares amount borrow eq_refl) as [Pb Rb].
  cbv zeta in Pc, Rc, Pb, Rb. fold l1 in Pc, Rc, Pb, Rb.
  set (l2 := addToList l1 (deltaCollateral pd) collateral false).
  destruct (addToList_other l2 (deltaBorrow pd) borrow true collateral eq_refl) as [Oc1 Oc2].
  destruct (addToList_same l1 (deltaCollateral pd) collateral false) as [Sc1 Sc2].
  destruct (addToList_same l2 (deltaBorrow pd) borrow true) as [Sb1 Sb2].
  destruct (addToList_other l1 (deltaCollateral pd) collateral false borrow eq_refl) as [Ob1 Ob2].
  fold l2 in Sc1, Sc2, Ob1, Ob2.
  rewrite Oc1, Oc2, Sc1, Sc2, Sb1, Sb2, Ob1, Ob2, Pc, Rc, Pb, Rb.
  cbn [app]. repeat split; reflexivity.
Qed.

End RebalanceLegs.

Section RebalanceMax.
Import LowLevelRebalanceHandler.

(** C2: on the borrow and on the collateral side, when the sign of the
    vault's signed maximum (negative: the vault must receive) disagrees
    with the selected action ([provide] or not), the maximum set is exactly
    zero; when the vault's maximum is negative and the action is [provide],
    the maximum set has magnitude [min (userBalance, |vaultMax|)].  The
    user's balance is a token balance, hence not negative. *)
Theorem loadMaxValue_direction
    (env : MaxEnv) (rebalanceType : TokenType) (actionType : ActionType)
    (old : option Z) (vaultMax userBalance : Z)
    (Hlens : vaultLens env = true)
    (Hside : rebalanceType <> shares)
    (Hread : vaultMaxOf env rebalanceType = Some vaultMax)
    (Hparse : userBalanceOf env rebalanceType = Some userBalance)
    (Hbal : 0 <= userBalance) :
  ((vaultMax <? 0) <> isProvide actionType ->
   loadMaxValue env rebalanceType actionType old = Some 0) /\
  (vaultMax < 0 -> actionType = act_provide ->
   exists m,
     loadMaxValue env rebalanceType actionType old = Some m /\
     Z.abs m = Z.min userBalance (Z.abs vaultMax)).
Proof.
  unfold loadMaxValue. rewrite Hlens. cbn [negb].
  destruct rebalanceType; [congruence| |]; cbn in Hread, Hparse;
    rewrite Hread, Hparse; cbv zeta.
  all: split.
  all: try (intros Hne; destruct (vaultMax <? 0), (isProvide actionType);
            cbn; congruence).
  all: intros Hneg ->; cbn [isProvide];
       destruct (Z.ltb_spec vaultMax 0); [|lia]; cbn [Bool.eqb negb];
       rewrite Z.gtb_ltb; eexists; split; [reflexivity|];
       match goal with |- context [?a <? ?b] => destruct (Z.ltb_spec a b) end; lia.
Qed.

End RebalanceMax.

Lemma loadMaxValue_direction_witness :
  LowLevelRebalanceHandler.loadMaxValue maxEnv_example borrow
    LowLevelRebalanceHandler.act_receive None = Some 0 /\
  exists m,
    LowLevelRebalanceHandler.loadMaxValue maxEnv_example borrow
      LowLevelRebalanceHandler.act_provide None = Some m /\
    Z.abs m = Z.min 25 (Z.abs (-40)).
Proof.
  split.
  - apply (loadMaxValue_direction maxEnv_example borrow
             LowLevelRebalanceHandler.act_receive None (-40) 25);
      [reflexivity | discriminate | reflexivity | reflexivity | lia
      | vm_compute; discriminate].
  - apply (loadMaxValue_direction maxEnv_example borrow
             LowLevelRebalanceHandler.act_provide None (-40) 25);
      [reflexivity | discriminate | reflexivity | reflexivity | lia
      | reflexivity | reflexivity].
Defined.

(** ** Vault context: user-facing maxima *)

Section MaxValues.
Import VaultContext.








End MaxValues.

(** ** Vault context: balance refresh *)

Section BalanceRefresh.
Import VaultContext.

(** C5, the claim as stated fails: when the native balance resolves and
    one of the three token reads rejects, the refresh has already stored
    the new [ethBalance] and leaves the three token balances as they were;
    the tuple is neither the fresh one nor the previous one. *)
Lemma loadBalances_partial_update :
  let after := balances (loadBalances true false partialReads staleState) in
  after = mkBalances (Some 5) (Some 1) (Some 1) (Some 1) /\
  after <> balances staleState /\
  after <> balances (loadBalances true false fullReads staleState) /\
  ~ (forall (r : BalanceReads) (s : State),
       balances (loadBalances true false r s) = balances s \/
       balances (loadBalances true false r s) = freshTuple r).
Proof.
  cbv zeta. repeat split; try (vm_compute; discriminate).
  intros H. destruct (H partialReads staleState) as [E|E];
    vm_compute in E; discriminate.
Qed.

(** C5, amended: a refresh stores the native balance as soon as its own
    read resolves and stores the three token balances together, only when
    all three reads resolve.  Hence: when all four reads resolve the tuple
    is replaced as a whole; when the native read rejects (or a guard stops
    the refresh) the whole previous tuple stays; when the native read
    resolves and one of the token reads rejects, the native balance is the
    new one and all three token balances are the previous ones; so the three
    token balances are never updated in part. *)
Theorem loadBalances_commit_rule
    (ready isManualRefresh : bool) (r : BalanceReads) (s : State) :
  let b := balances s in
  let b' := balances (loadBalances ready isManualRefresh r s) in
  (ready = true ->
   getBalance r <> None -> vaultLens_balanceOf r <> None ->
   borrowTokenLens_balanceOf r <> None -> collateralTokenLens_balanceOf r <> None ->
   b' = freshTuple r) /\
  (ready = false \/ getBalance r = None -> b' = b) /\
  (ready = true -> getBalance r <> None ->
   vaultLens_balanceOf r = None \/ borrowTokenLens_balanceOf r = None \/
   collateralTokenLens_balanceOf r = None ->
   b' = mkBalances (getBalance r) (sharesBalance b) (borrowTokenBalance b)
          (collateralTokenBalance b)) /\
  ((sharesBalance b', borrowTokenBalance b', collateralTokenBalance b') =
     (sharesBalance b, borrowTokenBalance b, collateralTokenBalance b) \/
   (sharesBalance b', borrowTokenBalance b', collateralTokenBalance b') =
     (vaultLens_balanceOf r, borrowTokenLens_balanceOf r,
      collateralTokenLens_balanceOf r) /\
   ready = true /\ getBalance r <> None /\ vaultLens_balanceOf r <> None /\
   borrowTokenLens_balanceOf r <> None /\ collateralTokenLens_balanceOf r <> None) /\
  (ready = true -> getBalance r <> None -> ethBalance b' = getBalance r).
Proof.
  cbv zeta. unfold loadBalances, loadBalances_try, promiseAll3, freshTuple,
    setCollateralTokenBalance, setBorrowTokenBalance, setSharesBalance, setEthBalance.
  destruct s as [[b0 b1 b2 b3] fl].
  destruct ready; cbn [negb balances].
  - destruct (getBalance r) as [e|], (vaultLens_balanceOf r) as [x|],
      (borrowTokenLens_balanceOf r) as [y|],
      (collateralTokenLens_balanceOf r) as [z|]; cbn;
      (split; [|split; [|split; [|split]]]);
      first [ intros; congruence
            | intros _ _ [H|[H|H]]; congruence
            | intros [H|H]; congruence
            | left; reflexivity
            | right; repeat split; congruence ].
  - (split; [|split; [|split; [|split]]]);
      first [ intros; congruence | left; reflexivity ].
Qed.

Lemma loadBalances_commit_rule_witness :
  VaultContext.balances (VaultContext.loadBalances true true fullReads staleState) =
    VaultContext.freshTuple fullReads /\
  VaultContext.balances (VaultContext.loadBalances true false partialReads staleState) =
    VaultContext.mkBalances (VaultContext.getBalance partialReads) (Some 1) (Some 1) (Some 1).
Proof.
  split.
  - apply (loadBalances_commit_rule true true fullReads staleState);
      [reflexivity | vm_compute; discriminate | vm_compute; discriminate
      | vm_compute; discriminate | vm_compute; discriminate].
  - apply (loadBalances_commit_rule true false partialReads staleState);
      [reflexivity | vm_compute; discriminate | vm_compute; tauto].
Defined.

End BalanceRefresh.

(** ** ActionHandler: the submit path *)

Section ActionHandlerSubmit.
Import Effects Form ActionHandler.
Context {Err : Type}.
Variable isUserRejected : Err -> bool.
Variable applyGasSlippage : Z -> Z.

Ltac run_handler :=
  cbv beta iota zeta delta
    [handleSubmit handleSubmit_try handleSubmit_catch refetchMaxBeforeTx
     executeVaultMethod handleApproval handleWrapIfNeeded
     bind get await ret set earlyReturn tryCatchFinally tryCatch
     setLoading setError setSuccess setAmount console_error request
     snd fst loading error success amount console txs].

Ltac close_cases :=
  intros;
  repeat match goal with
         | H : _ \/ _ |- _ => destruct H
         | H : Some _ = Some _ |- _ => injection H as H; subst
         | H : Some _ = None |- _ => discriminate H
         | H : None = Some _ |- _ => discriminate H
         end;
  try congruence; try lia; auto.

Ltac guard_cases m committed :=
  destruct (Z.eqb_spec m 0) as [?Hz|?Hnz];
  [ try rewrite Hz in *; repeat split; close_cases
  | destruct (Z.ltb_spec m committed);
    [ repeat split; close_cases
    | repeat split; close_cases;
      match goal with
      | Hg : estimateGas _ _ _ _ = Ok _ |- _ => rewrite Hg; cbv beta iota
      end;
      repeat match goal with
             | |- context [match ?r with Ok _ => _ | Fail _ => _ end] =>
                 destruct r; cbv beta iota
             | |- context [if ?b then _ else _] => destruct b; cbv beta iota
             end;
      reflexivity ] ].

Lemma handleSubmit_max_guard (env : @Env Err) (s : @State Err) (committed : Z) :
  vault env = true -> address env = true -> vaultLens env = true ->
  isMaxSelected env = true ->
  isRedeemOrWithdraw (actionType env) = true ->
  parseUnits env (amount s) = Ok committed ->
  let final := snd (handleSubmit isUserRejected applyGasSlippage env s) in
  (forall m, trueMax env = Some m -> m <> 0 -> m < committed ->
     error final = Some "Amount higher than available."%string /\
     txs final = txs s /\ loading final = false) /\
  (trueMax env = Some 0 \/ trueMax env = None ->
     error final = Some "Error refetching max amount before tx."%string /\
     txs final = txs s /\ loading final = false) /\
  (forall m g, trueMax env = Some m -> m <> 0 -> committed <= m ->
     estimateGas env (actionType env) (isBorrow env) m = Ok g ->
     txs final =
       txs s ++ [TxVault (actionType env) (isBorrow env) m (applyGasSlippage g)]).
Proof.
  intros Hv Ha Hl Hmax Hrw Hparse.
  assert (Hcfg : needsApproval (ACTION_CONFIGS (actionType env)) = false)
    by (destruct (actionType env); try discriminate Hrw; reflexivity).
  destruct s as [lo er su am co tx]. cbn [amount] in Hparse.
  cbv zeta. run_handler.
  rewrite Hv, Ha. cbn [negb orb andb].
  rewrite Hparse. cbv beta iota. rewrite Hcfg. cbv beta iota.
  rewrite Hmax, Hrw. cbn [andb]. cbv beta iota.
  rewrite Hl. cbn [negb orb]. cbv beta iota.
  unfold trueMax.
  destruct (actionType env); try discriminate Hrw; cbv beta iota.
  - destruct (if isBorrow env then maxWithdraw env else maxWithdrawCollateral env) as [m|e];
      cbv beta iota; [|repeat split; close_cases].
    guard_cases m committed.
  - destruct (vaultLens_balanceOf env) as [b|e]; cbv beta iota;
      [|repeat split; close_cases].
    destruct (if isBorrow env then maxRedeem env else maxRedeemCollateral env) as [v|e];
      cbv beta iota; [|repeat split; close_cases].
    replace (if b <? v then b else v) with (Z.min b v)
      by (destruct (Z.ltb_spec b v); lia).
    guard_cases (Z.min b v) committed.
Qed.
End ActionHandlerSubmit.

(** ** SafeActionHandler: the submit path *)

Section SafeActionHandlerSubmit.
Import Effects Form SafeActionHandler.
Context {Err : Type}.
Variable isUserRejected : Err -> bool.
Variable applyGasSlippage : Z -> Z.

Ltac run_safe_handler :=
  cbv beta iota zeta delta
    [handleSubmit handleSubmit_try handleSubmit_catch refetchMaxBeforeTx
     executeSafeMethod handleApproval calculateSlippageBound
     bind get await ret set earlyReturn tryCatchFinally tryCatch
     setLoading setError setSuccess setAmount console_error request
     snd fst loading error success amount console txs].

Ltac split_step :=
  match goal with
  | |- context [match ?r with Ok _ => _ | Fail _ => _ end] => destruct r eqn:?
  | |- context [if ?b then _ else _] => destruct b eqn:?
  end; cbv beta iota.

Ltac stale_max_absurd :=
  repeat match goal with
         | H : Some _ = Some _ |- _ => injection H as H; subst
         | H : (_ =? _) = false |- _ => apply Z.eqb_neq in H
         | H : (_ =? _) = true |- _ => apply Z.eqb_eq in H
         | H : (_ <? _) = false |- _ => apply Z.ltb_ge in H
         | H : (_ <? _) = true |- _ => apply Z.ltb_lt in H
         | H : _ \/ _ |- _ => destruct H
         | H : context [if ?a <? ?b then _ else _] |- _ => destruct (Z.ltb_spec a b)
         end;
  try discriminate; try congruence; try lia.

(** Below the fresh maximum no safe-helper transaction is requested. *)
Lemma safe_handleSubmit_stale_max_no_tx (env : @Env Err) (s : @State Err) (committed : Z) :
  isMaxSelected env = true ->
  isRedeemOrWithdraw (actionType env) = true ->
  parseUnits env (amount s) = Ok committed ->
  (exists m, trueMax env = Some m /\ m < committed) \/ trueMax env = Some 0 \/
    trueMax env = None ->
  let final := snd (handleSubmit isUserRejected applyGasSlippage env s) in
  filter isTxSafe (txs final) = filter isTxSafe (txs s).
Proof.
  intros Hmax Hrw Hparse Hstale.
  destruct s as [lo er su am co tx]. cbn [amount] in Hparse.
  cbv zeta. run_safe_handler.
  destruct (vault env) eqn:Hv; cbn [negb orb]; [|reflexivity].
  destruct (address env) eqn:Ha; cbn [negb orb]; [|reflexivity].
  destruct (safeHelper env) eqn:Hh; cbn [negb orb]; [|reflexivity].
  rewrite Hparse. cbv beta iota.
  rewrite Hmax. cbn [andb].
  unfold trueMax in Hstale.
  destruct (actionType env); try discriminate Hrw; cbn [isRedeemOrWithdraw SAFE_ACTION_CONFIGS needsApproval]; cbv beta iota.
  all: repeat split_step.
  all: rewrite ?filter_app; cbn [filter isTxSafe app]; rewrite ?app_nil_r;
       try reflexivity.
  all: exfalso; destruct Hstale as [(m & E & Hlt)|Hstale]; stale_max_absurd.
Qed.

(** When the slippage bound is computed and the shares approval goes
    through, the handler reaches the re-check and reports by it. *)
Lemma safe_handleSubmit_stale_max_error
    (env : @Env Err) (s : @State Err) (committed expected factor allowance : Z) :
  vault env = true -> address env = true -> safeHelper env = true ->
  vaultLens env = true -> helperAddress env = true -> publicProvider env = true ->
  slippageValid env = true ->
  isMaxSelected env = true ->
  isRedeemOrWithdraw (actionType env) = true ->
  parseUnits env (amount s) = Ok committed ->
  match actionType env with
  | withdraw => previewWithdraw env committed = Ok expected /\ slippageUp env = Ok factor
  | _ => previewRedeem env committed = Ok expected /\ slippageDown env = Ok factor
  end ->
  vaultLens_allowance env = Ok allowance ->
  (forall n, vault_approve env n = Ok tt) -> approveTx_wait env = Ok tt ->
  let final := snd (handleSubmit isUserRejected applyGasSlippage env s) in
  (forall m, trueMax env = Some m -> m <> 0 -> m < committed ->
     error final = Some "Amount higher than available."%string /\
     loading final = false) /\
  (trueMax env = Some 0 \/ trueMax env = None ->
     error final = Some "Error refetching max amount before tx."%string /\
     loading final = false).
Proof.
  intros Hv Ha Hh Hl Hha Hpp Hsv Hmax Hrw Hparse Hbound Hal Happ Hwait.
  destruct s as [lo er su am co tx]. cbn [amount] in Hparse.
  cbv zeta. run_safe_handler.
  rewrite Hv, Ha, Hh. cbn [negb orb]. rewrite Hparse. cbv beta iota.
  rewrite Hmax, Hsv, Hl, Hha, Hpp, Hal, Hwait. cbn [negb orb andb]. cbv beta iota.
  unfold trueMax.
  destruct (actionType env); try discriminate Hrw; destruct Hbound as [-> ->];
    cbn [isRedeemOrWithdraw SAFE_ACTION_CONFIGS needsApproval andb]; cbv beta iota;
    rewrite ?Happ.
  all: repeat split_step.
  all: split; intros; stale_max_absurd; auto.
Qed.

End SafeActionHandlerSubmit.

(** ** Failures of a submission *)

Section SubmitFailure.
Import Effects.
Context {Err : Type}.
Variable isUserRejected : Err -> bool.
Variable applyGasSlippage : Z -> Z.

Lemma action_handleSubmit_failure_report
    (env : @ActionHandler.Env Err) (s s1 : @ActionHandler.State Err) (err : Err) :
  ActionHandler.vault env = true -> ActionHandler.address env = true ->
  ActionHandler.handleSubmit_try applyGasSlippage env (ActionHandler.actionReset s) = (Thrown err, s1) ->
  let final := snd (ActionHandler.handleSubmit isUserRejected applyGasSlippage env s) in
  Form.errorShown final = true /\ Form.loading final = false /\
  Form.txs final = Form.txs s1 /\
  (isUserRejected err = true ->
   Form.error final = Some "Transaction canceled by user."%string /\
   Form.console final = Form.console s1) /\
  (isUserRejected err = false ->
   Form.error final =
     Some ("Failed to " ++ actionName (ActionHandler.actionType env) ++ ".")%string /\
   Form.console final =
     Form.console s1 ++
     [Log ("Failed to " ++ actionName (ActionHandler.actionType env) ++ ": ")%string
          (Some err)]).
Proof.
  intros Hv Ha Htry. cbv zeta.
  unfold ActionHandler.handleSubmit. rewrite Hv, Ha. cbn [negb orb].
  unfold tryCatchFinally, bind, Form.setLoading, Form.setError, Form.setSuccess, set.
  cbn [Form.loading Form.error Form.success Form.amount Form.console Form.txs].
  unfold ActionHandler.actionReset in Htry. rewrite Htry.
  unfold ActionHandler.handleSubmit_catch.
  destruct (isUserRejected err); cbn; repeat split; intros; try discriminate; auto.
Qed.

Lemma rebalance_handleSubmit_failure_report
    (env : @LowLevelRebalanceHandler.Env Err)
    (s s1 : @LowLevelRebalanceHandler.State Err) (a : Z) (err : Err) :
  LowLevelRebalanceHandler.vault env = true ->
  LowLevelRebalanceHandler.vaultLens_present env = true ->
  LowLevelRebalanceHandler.address env = true ->
  LowLevelRebalanceHandler.amount s = Some a -> a <> 0 ->
  LowLevelRebalanceHandler.handleSubmit_try isUserRejected applyGasSlippage env a
    (snd (LowLevelRebalanceHandler.handleSubmit_reset s)) = (Thrown err, s1) ->
  let final :=
    snd (LowLevelRebalanceHandler.handleSubmit isUserRejected applyGasSlippage env s) in
  LowLevelRebalanceHandler.errorShown final = true /\
  LowLevelRebalanceHandler.loading final = false /\
  LowLevelRebalanceHandler.txs final = LowLevelRebalanceHandler.txs s1 /\
  (isUserRejected err = true ->
   LowLevelRebalanceHandler.error final = Some "Transaction canceled by user."%string /\
   LowLevelRebalanceHandler.console final = LowLevelRebalanceHandler.console s1) /\
  (isUserRejected err = false ->
   LowLevelRebalanceHandler.error final =
     Some "Failed to execute low level rebalance."%string /\
   LowLevelRebalanceHandler.console final =
     LowLevelRebalanceHandler.console s1 ++
     [Log "Failed to execute low level rebalance:"%string (Some err)]).
Proof.
  intros Hv Hl Ha Ham Hnz Htry.
  destruct s as [iv am lo er su ia ae pd co tx].
  cbn [LowLevelRebalanceHandler.amount] in Ham. subst am.
  cbv beta iota zeta delta
    [LowLevelRebalanceHandler.handleSubmit_reset
     LowLevelRebalanceHandler.setLoading LowLevelRebalanceHandler.setError
     LowLevelRebalanceHandler.setSuccess LowLevelRebalanceHandler.setApprovalError
     bind set snd
     LowLevelRebalanceHandler.inputValue LowLevelRebalanceHandler.amount
     LowLevelRebalanceHandler.loading LowLevelRebalanceHandler.error
     LowLevelRebalanceHandler.success LowLevelRebalanceHandler.isApproving
     LowLevelRebalanceHandler.approvalError LowLevelRebalanceHandler.previewData
     LowLevelRebalanceHandler.console LowLevelRebalanceHandler.txs] in Htry.
  cbv beta iota zeta delta
    [LowLevelRebalanceHandler.handleSubmit LowLevelRebalanceHandler.handleSubmit_reset
     LowLevelRebalanceHandler.handleSubmit_catch
     LowLevelRebalanceHandler.setLoading LowLevelRebalanceHandler.setError
     LowLevelRebalanceHandler.setSuccess LowLevelRebalanceHandler.setApprovalError
     LowLevelRebalanceHandler.console_error
     bind get set earlyReturn tryCatchFinally snd
     LowLevelRebalanceHandler.inputValue LowLevelRebalanceHandler.amount
     LowLevelRebalanceHandler.loading LowLevelRebalanceHandler.error
     LowLevelRebalanceHandler.success LowLevelRebalanceHandler.isApproving
     LowLevelRebalanceHandler.approvalError LowLevelRebalanceHandler.previewData
     LowLevelRebalanceHandler.console LowLevelRebalanceHandler.txs].
  rewrite Hv, Hl, Ha. cbn [negb orb].
  destruct (Z.eqb_spec a 0); [contradiction|].
  rewrite Htry. cbv beta iota.
  unfold LowLevelRebalanceHandler.errorShown.
  destruct s1 as [iv1 am1 lo1 er1 su1 ia1 ae1 pd1 co1 tx1].
  destruct (isUserRejected err); cbn; rewrite ?orb_true_r;
    repeat split; intros; try discriminate; auto.
Qed.

End SubmitFailure.

(** ** Flash-loan minimum amounts *)

Section FlashLoanMin.
Import NumericUtils FlashLoan.

(** C8, the claim as stated fails on the redeem side: for an imbalance of
    -10000 shares the minimum redeem set is [10000 * 10001 / 10000 = 10001],
    below [max (10000 * 1.01, 10000 + 5 c) >= 10100] whatever the
    correction [c] is. *)
Lemma loadMinAvailable_redeem_side_formula :
  previewLowLevelRebalanceBorrow0 redeemSideEnv = Some (-10000) /\
  debtPrecisionCorrection redeemSideEnv = Some 0 /\
  loadMinAvailable redeemSideEnv (mkMin None None) = mkMin (Some 0) (Some 10001) /\
  forall c : Z,
    minDown (loadMinAvailable redeemSideEnv (mkMin None None)) <>
    Some (maxBigInt (Z.quot (10000 * 101) 100) (10000 + 5 * c)).
Proof.
  repeat split; try reflexivity.
  intros c. rewrite maxBigInt_max. vm_compute (Z.quot _ _).
  change (minDown (loadMinAvailable redeemSideEnv (mkMin None None))) with (Some 10001).
  intros E. injection E as E. lia.
Qed.

(** C8, amended: the imbalance [d] is the share delta of the zero-amount
    rebalance preview.  For [d > 0] the minimum redeem is zero and, once the
    debt read and its conversion resolve to the debt-precision correction
    [c], the minimum mint is [max (d * 101 / 100, d + 5 c)]; for [d < 0] the
    minimum redeem is [|d| * 10001 / 10000] and the minimum mint is zero, and
    for [d = 0] both are zero, the debt not being read in either case.  The
    deposit/withdraw handler sets the same amounts converted to assets and
    multiplied by [10001 / 10000]. *)
Theorem loadMinAvailable_rule
    (env : Env) (s : MinState) (d : Z)
    (Hready : ready env = true)
    (Hd : previewLowLevelRebalanceBorrow0 env = Some d) :
  let s' := loadMinAvailable env s in
  let t' := loadMinAvailable_depositWithdraw env s in
  (0 < d ->
   minDown s' = Some 0 /\ minDown t' = Some 0 /\
   forall c, debtPrecisionCorrection env = Some c ->
     minUp s' = Some (Z.max (Z.quot (d * 101) 100) (d + 5 * c)) /\
     forall assets,
       convertToAssets env (Z.max (Z.quot (d * 101) 100) (d + 5 * c)) = Some assets ->
       minUp t' = Some (Z.quot (assets * 10001) 10000)) /\
  (d < 0 ->
   minDown s' = Some (Z.quot (Z.abs d * 10001) 10000) /\ minUp s' = Some 0 /\
   minUp t' = Some 0 /\
   forall assets,
     convertToAssets env (Z.quot (Z.abs d * 10001) 10000) = Some assets ->
     minDown t' = Some (Z.quot (assets * 10001) 10000)) /\
  (d = 0 -> s' = mkMin (Some 0) (Some 0) /\ t' = mkMin (Some 0) (Some 0)).
Proof.
  cbv zeta. unfold loadMinAvailable, loadMinAvailable_depositWithdraw,
    debtPrecisionCorrection.
  rewrite Hready, Hd. cbn [negb]. rewrite Z.gtb_ltb.
  destruct (Z.ltb_spec 0 d); destruct (Z.ltb_spec d 0); try lia.
  - split; [|split]; intros; try lia.
    destruct (variableDebtToken_balanceOf env) as [debt|];
      [|repeat split; intros; discriminate].
    destruct (convertToShares env debt) as [debtShares|];
      [|repeat split; intros; discriminate].
    cbv zeta. rewrite !maxBigInt_max.
    split; [reflexivity|]. split.
    + destruct (convertToAssets env _); reflexivity.
    + intros c E. injection E as <-. split; [reflexivity|].
      intros assets ->. reflexivity.
  - replace (- d) with (Z.abs d) by lia.
    split; [|split]; intros; try lia.
    cbv zeta. split; [|split; [|split]]; try reflexivity.
    + destruct (convertToAssets env _); reflexivity.
    + intros assets ->. reflexivity.
  - split; [|split]; intros; try lia. split; reflexivity.
Qed.

Lemma loadMinAvailable_rule_witness :
  FlashLoan.minUp (FlashLoan.loadMinAvailable mintSideEnv (FlashLoan.mkMin None None)) =
    Some (Z.max (Z.quot (10000 * 101) 100) (10000 + 5 * 60)) /\
  FlashLoan.minDown
    (FlashLoan.loadMinAvailable debtReadFailsEnv (FlashLoan.mkMin None None)) =
    Some (Z.quot (Z.abs (-10000) * 10001) 10000).
Proof.
  split.
  - destruct (loadMinAvailable_rule mintSideEnv (FlashLoan.mkMin None None) 10000
                eq_refl eq_refl) as (H & _).
    destruct (H ltac:(lia)) as (_ & _ & Hc).
    apply (Hc 60 eq_refl).
  - destruct (loadMinAvailable_rule debtReadFailsEnv (FlashLoan.mkMin None None) (-10000)
                eq_refl eq_refl) as (_ & H & _).
    apply H. lia.
Defined.

End FlashLoanMin.

(** ** Auction *)

Section Auction.
Import Units AuctionHandler.




End Auction.

(** ** The re-check of a max redeem or withdraw *)

Section MaxRecheck.
Import Effects.

(** C6, the claim as stated fails.  With the form at 5.0 and the chain
    reporting a maximum of zero, the submission is aborted with the
    re-fetch error, not with "Amount higher than available."; and in the
    safe-helper handler, with the maximum fallen to 4.5, the shares
    approval has been handed to the signer before the re-check aborts. *)
Lemma stale_max_other_error_and_approval_sent :
  let final :=
    snd (ActionHandler.handleSubmit isUserRejected_example applyGasSlippage_example
           (submitEnv 0 (Ok tt)) formState) in
  let sfinal :=
    snd (SafeActionHandler.handleSubmit isUserRejected_example applyGasSlippage_example
           (safeSubmitEnv 4500000000000000000) safeFormState) in
  ActionHandler.trueMax (submitEnv 0 (Ok tt)) = Some 0 /\
  ActionHandler.parseUnits (submitEnv 0 (Ok tt)) (Form.amount formState) =
    Ok 5000000000000000000 /\
  Form.error final = Some "Error refetching max amount before tx."%string /\
  Form.error final <> Some "Amount higher than available."%string /\
  SafeActionHandler.trueMax (safeSubmitEnv 4500000000000000000) =
    Some 4500000000000000000 /\
  Form.error sfinal = Some "Amount higher than available."%string /\
  Form.txs sfinal = [SafeActionHandler.TxApproveShares 5025000000000000000] /\
  Form.txs sfinal <> Form.txs safeFormState.
Proof. vm_compute. repeat split; discriminate. Qed.

(** C6, amended: when the user selected the maximum for a redeem or a
    withdraw, the maximum is fetched again before the redeem or withdraw
    transaction is requested.  If the fresh maximum is not zero and smaller
    than the committed amount, the submission is aborted with "Amount
    higher than available."; if it is zero or cannot be fetched, with
    "Error refetching max amount before tx.".  In both cases the plain
    handler requests no transaction at all and the safe-helper handler
    requests no helper transaction (its shares approval comes before the
    re-check).  Otherwise the plain handler submits the fresh maximum. *)
Theorem max_refetch_guard
    {Err : Type} (isUserRejected : Err -> bool) (applyGasSlippage : Z -> Z)
    (env : @ActionHandler.Env Err) (s : @ActionHandler.State Err)
    (senv : @SafeActionHandler.Env Err) (ss : @SafeActionHandler.State Err)
    (committed scommitted : Z)
    (Hv : ActionHandler.vault env = true)
    (Ha : ActionHandler.address env = true)
    (Hl : ActionHandler.vaultLens env = true)
    (Hmax : ActionHandler.isMaxSelected env = true)
    (Hrw : isRedeemOrWithdraw (ActionHandler.actionType env) = true)
    (Hparse : ActionHandler.parseUnits env (Form.amount s) = Ok committed)
    (Hsmax : SafeActionHandler.isMaxSelected senv = true)
    (Hsrw : isRedeemOrWithdraw (SafeActionHandler.actionType senv) = true)
    (Hsparse : SafeActionHandler.parseUnits senv (Form.amount ss) = Ok scommitted) :
  let final := snd (ActionHandler.handleSubmit isUserRejected applyGasSlippage env s) in
  let sfinal :=
    snd (SafeActionHandler.handleSubmit isUserRejected applyGasSlippage senv ss) in
  (forall m, ActionHandler.trueMax env = Some m -> m <> 0 -> m < committed ->
     Form.error final = Some "Amount higher than available."%string /\
     Form.txs final = Form.txs s /\ Form.loading final = false) /\
  (ActionHandler.trueMax env = Some 0 \/ ActionHandler.trueMax env = None ->
     Form.error final = Some "Error refetching max amount before tx."%string /\
     Form.txs final = Form.txs s /\ Form.loading final = false) /\
  (forall m g, ActionHandler.trueMax env = Some m -> m <> 0 -> committed <= m ->
     ActionHandler.estimateGas env (ActionHandler.actionType env)
       (ActionHandler.isBorrow env) m = Ok g ->
     Form.txs final =
       Form.txs s ++
       [ActionHandler.TxVault (ActionHandler.actionType env) (ActionHandler.isBorrow env)
          m (applyGasSlippage g)]) /\
  ((exists m, SafeActionHandler.trueMax senv = Some m /\ m < scommitted) \/
   SafeActionHandler.trueMax senv = Some 0 \/ SafeActionHandler.trueMax senv = None ->
   filter SafeActionHandler.isTxSafe (Form.txs sfinal) =
   filter SafeActionHandler.isTxSafe (Form.txs ss)) /\
  (forall expected factor allowance,
     SafeActionHandler.vault senv = true -> SafeActionHandler.address senv = true ->
     SafeActionHandler.safeHelper senv = true ->
     SafeActionHandler.vaultLens senv = true ->
     SafeActionHandler.helperAddress senv = true ->
     SafeActionHandler.publicProvider senv = true ->
     SafeActionHandler.slippageValid senv = true ->
     match SafeActionHandler.actionType senv with
     | withdraw =>
         SafeActionHandler.previewWithdraw senv scommitted = Ok expected /\
         SafeActionHandler.slippageUp senv = Ok factor
     | _ =>
         SafeActionHandler.previewRedeem senv scommitted = Ok expected /\
         SafeActionHandler.slippageDown senv = Ok factor
     end ->
     SafeActionHandler.vaultLens_allowance senv = Ok allowance ->
     (forall n, SafeActionHandler.vault_approve senv n = Ok tt) ->
     SafeActionHandler.approveTx_wait senv = Ok tt ->
     (forall m, SafeActionHandler.trueMax senv = Some m -> m <> 0 -> m < scommitted ->
        Form.error sfinal = Some "Amount higher than available."%string /\
        Form.loading sfinal = false) /\
     (SafeActionHandler.trueMax senv = Some 0 \/ SafeActionHandler.trueMax senv = None ->
        Form.error sfinal = Some "Error refetching max amount before tx."%string /\
        Form.loading sfinal = false)).
Proof.
  cbv zeta.
  pose proof (handleSubmit_max_guard isUserRejected applyGasSlippage env s committed
                Hv Ha Hl Hmax Hrw Hparse) as (G1 & G2 & G3).
  split; [exact G1|]. split; [exact G2|]. split; [exact G3|]. split.
  - intros Hstale.
    exact (safe_handleSubmit_stale_max_no_tx isUserRejected applyGasSlippage senv ss
             scommitted Hsmax Hsrw Hsparse Hstale).
  - intros expected factor allowance H1 H2 H3 H4 H5 H6 H7 H8 H9 H10 H11.
    exact (safe_handleSubmit_stale_max_error isUserRejected applyGasSlippage senv ss
             scommitted expected factor allowance
             H1 H2 H3 H4 H5 H6 H7 Hsmax Hsrw Hsparse H8 H9 H10 H11).
Qed.

Lemma max_refetch_guard_witness :
  let final :=
    snd (ActionHandler.handleSubmit isUserRejected_example applyGasSlippage_example
           (submitEnv 4500000000000000000 (Ok tt)) formState) in
  let sfinal :=
    snd (SafeActionHandler.handleSubmit isUserRejected_example applyGasSlippage_example
           (safeSubmitEnv 4500000000000000000) safeFormState) in
  (Form.error final = Some "Amount higher than available."%string /\
   Form.txs final = Form.txs formState /\ Form.loading final = false) /\
  filter SafeActionHandler.isTxSafe (Form.txs sfinal) =
  filter SafeActionHandler.isTxSafe (Form.txs safeFormState).
Proof.
  cbv zeta.
  destruct (max_refetch_guard isUserRejected_example applyGasSlippage_example
              (submitEnv 4500000000000000000 (Ok tt)) formState
              (safeSubmitEnv 4500000000000000000) safeFormState
              5000000000000000000 5000000000000000000
              eq_refl eq_refl eq_refl eq_refl eq_refl eq_refl eq_refl eq_refl eq_refl)
    as (G1 & _ & _ & G4 & _).
  split.
  - apply (G1 4500000000000000000); [reflexivity | lia | lia].
  - apply G4. left. exists 4500000000000000000. split; [reflexivity | lia].
Defined.

End MaxRecheck.

(** ** A declined signature *)

Section DeclinedSignature.
Import Effects.

(** C7, the claim as stated fails: when the signer declines the vault
    call, both handlers set the error message "Transaction canceled by
    user.", which is on screen afterwards. *)
Lemma user_rejection_sets_error_message :
  let final :=
    snd (ActionHandler.handleSubmit isUserRejected_example applyGasSlippage_example
           (submitEnv 5000000000000000000 (Fail rejectedBySigner)) formState) in
  let rfinal :=
    snd (LowLevelRebalanceHandler.handleSubmit isUserRejected_example
           applyGasSlippage_example (rebalanceEnv (Fail rejectedBySigner))
           rebalanceState) in
  isUserRejected_example rejectedBySigner = true /\
  Form.error final = Some "Transaction canceled by user."%string /\
  Form.errorShown final = true /\
  LowLevelRebalanceHandler.error rfinal = Some "Transaction canceled by user."%string /\
  LowLevelRebalanceHandler.errorShown rfinal = true.
Proof. vm_compute. repeat split. Qed.

End DeclinedSignature.
(** * Further properties of the code *)

(** ** Low-level rebalance: the preview and the entered amount *)

Section RebalancePreviewMore.
Import LowLevelRebalanceHandler.

Ltac sign_cases v :=
  destruct (Z.eqb_spec v 0); [subst v|];
  rewrite ?Z.gtb_ltb;
  try (destruct (Z.ltb_spec v 0); destruct (Z.ltb_spec 0 v); try lia).

(** X1: in every preview of a low-level rebalance, whatever the type, the
    entered amount and the deltas, each leg carries a strictly positive
    amount and no token has more than one leg over both lists. *)
Theorem getReceiveAndProvide_legs_positive_distinct :
  forall (rebalanceType : TokenType) (amount : option Z)
         (previewData : option PreviewData) (t : TokenType),
    let r := getReceiveAndProvide rebalanceType amount previewData in
    Forall (fun l => 0 < PreviewBox.amount l) (receive r ++ provide r) /\
    (List.length (legsOf t (receive r ++ provide r)) <= 1)%nat.
Proof.
  intros rebalanceType amount previewData t.
  destruct previewData as [[dc db ds]|]; [|cbn; split; [constructor | lia]].
  unfold getReceiveAndProvide, addToList. cbv zeta.
  cbn [deltaCollateral deltaBorrow deltaShares].
  destruct rebalanceType.
  all: destruct amount as [a|]; [sign_cases a|].
  all: try (destruct dc as [c|]; [sign_cases c|]).
  all: try (destruct db as [b|]; [sign_cases b|]).
  all: try (destruct ds as [d|]; [sign_cases d|]).
  all: cbn; split;
    [ repeat constructor; cbn; lia
    | destruct t; cbn; lia ].
Qed.

(** X2: a positive entered value, signed by [handleInputChange], comes back
    in the preview as the one leg of the rebalanced token, with the entered
    magnitude, on the side the action names: under Give for provide (and
    burn), under Receive for receive (and mint). *)
Theorem entered_amount_shown_on_action_side
    (rebalanceType : TokenType) (actionType : ActionType) (p : Z)
    (pd : PreviewData) (Hp : 0 < p) :
  let amount := handleInputChange rebalanceType actionType (Some p) in
  let r := getReceiveAndProvide rebalanceType amount (Some pd) in
  legsOf rebalanceType (provide r) =
    (if userGives rebalanceType actionType then [mkLeg p rebalanceType] else []) /\
  legsOf rebalanceType (receive r) =
    (if userGives rebalanceType actionType then [] else [mkLeg p rebalanceType]).
Proof.
  destruct pd as [dc db ds].
  unfold handleInputChange, getReceiveAndProvide, addToList, getAmountSign, userGives.
  cbv zeta. cbn [deltaCollateral deltaBorrow deltaShares].
  destruct rebalanceType, actionType; cbn [isProvide].
  all: rewrite ?Z.mul_1_r;
       replace (p * -1) with (- p) by lia;
       rewrite ?Z.gtb_ltb;
       repeat match goal with
              | |- context [?a =? 0] => destruct (Z.eqb_spec a 0); [lia|]
              | |- context [?a <? ?b] => destruct (Z.ltb_spec a b); try lia
              end;
       rewrite ?Z.opp_involutive.
  all: try (destruct dc as [c|]; [sign_cases c|]).
  all: try (destruct db as [b|]; [sign_cases b|]).
  all: try (destruct ds as [d|]; [sign_cases d|]).
  all: cbn; split; reflexivity.
Qed.

Lemma entered_amount_shown_on_action_side_witness :
  legsOf borrow
    (provide (getReceiveAndProvide borrow (handleInputChange borrow act_provide (Some 7))
                (Some (mkPreview (Some 3) None (Some (-2)))))) =
    [mkLeg 7 borrow] /\
  legsOf borrow
    (receive (getReceiveAndProvide borrow (handleInputChange borrow act_provide (Some 7))
                (Some (mkPreview (Some 3) None (Some (-2)))))) = [].
Proof.
  apply (entered_amount_shown_on_action_side borrow act_provide 7
           (mkPreview (Some 3) None (Some (-2)))).
  lia.
Defined.

(** X3: on the borrow and collateral side the maximum [loadMaxValue] sets
    never exceeds, in magnitude, the user's balance or the vault's own
    maximum, and a click on MAX enters exactly that magnitude with the sign
    of the action. *)
Theorem loadMaxValue_within_balance_and_vault
    (env : MaxEnv) (rebalanceType : TokenType) (actionType : ActionType)
    (old amount : option Z) (vaultMax userBalance : Z)
    (Hlens : vaultLens env = true)
    (Hside : rebalanceType <> shares)
    (Hread : vaultMaxOf env rebalanceType = Some vaultMax)
    (Hparse : userBalanceOf env rebalanceType = Some userBalance)
    (Hbal : 0 <= userBalance) :
  exists m,
    loadMaxValue env rebalanceType actionType old = Some m /\
    Z.abs m <= userBalance /\ Z.abs m <= Z.abs vaultMax /\
    (m = 0 \/ (m < 0 <-> vaultMax < 0)) /\
    handleMaxClick rebalanceType actionType (Some m) amount =
      Some (Z.abs m * getAmountSign rebalanceType actionType).
Proof.
  unfold loadMaxValue, handleMaxClick. rewrite Hlens. cbn [negb].
  destruct rebalanceType; [congruence| |]; cbn in Hread, Hparse;
    rewrite Hread, Hparse; cbv zeta.
  all: rewrite Z.gtb_ltb;
       destruct (Bool.eqb (vaultMax <? 0) (isProvide actionType)); cbn [negb];
       [ destruct (Z.ltb_spec vaultMax 0);
         [ destruct (Z.ltb_spec (- userBalance) vaultMax)
         | destruct (Z.ltb_spec vaultMax userBalance) ]
       | ];
       eexists; (split; [reflexivity|]);
       repeat split; try lia;
       try (right; lia);
       match goal with
       | |- context [?m <? 0] => destruct (Z.ltb_spec m 0)
       end; f_equal; f_equal; lia.
Qed.

Lemma loadMaxValue_within_balance_and_vault_witness :
  exists m,
    loadMaxValue maxEnv_example borrow act_provide None = Some m /\
    Z.abs m <= 25 /\ Z.abs m <= Z.abs (-40) /\
    (m = 0 \/ (m < 0 <-> -40 < 0)) /\
    handleMaxClick borrow act_provide (Some m) None =
      Some (Z.abs m * getAmountSign borrow act_provide).
Proof.
  apply (loadMaxValue_within_balance_and_vault maxEnv_example borrow act_provide
           None None (-40) 25);
    [reflexivity | discriminate | reflexivity | reflexivity | lia].
Defined.

End RebalancePreviewMore.
(** ** Low-level rebalance: approvals and submission *)

Section RebalanceApprovals.
Import Effects LowLevelRebalanceHandler.
Context {Err : Type}.
Variable isUserRejected : Err -> bool.
Variable applyGasSlippage : Z -> Z.
Variable env : @Env Err.

Lemma approvalsOnly_refl (s : @State Err) : approvalsOnly s s.
Proof.
  unfold approvalsOnly. repeat split. exists []. rewrite app_nil_r. auto.
Qed.

Lemma approvalsOnly_trans (s1 s2 s3 : @State Err) :
  approvalsOnly s1 s2 -> approvalsOnly s2 s3 -> approvalsOnly s1 s3.
Proof.
  intros (A1 & A2 & A3 & A4 & A5 & l & Al & Hl) (B1 & B2 & B3 & B4 & B5 & k & Bk & Hk).
  unfold approvalsOnly. repeat split; try congruence.
  exists (l ++ k). rewrite Bk, Al, app_assoc. split; [reflexivity|].
  rewrite forallb_app, Hl, Hk. reflexivity.
Qed.

Lemma keeps_ret {A} (a : A) : keeps (@ret Err State A a).
Proof. intros s. apply approvalsOnly_refl. Qed.

Lemma keeps_await {A} (r : Result Err A) : keeps (@await Err State A r).
Proof. intros s. unfold await. destruct r; apply approvalsOnly_refl. Qed.

Lemma keeps_get : keeps (@get Err State).
Proof. intros s. apply approvalsOnly_refl. Qed.

Lemma keeps_earlyReturn {A} : keeps (@earlyReturn Err State A).
Proof. intros s. apply approvalsOnly_refl. Qed.

Lemma keeps_bind {A B} (c : M Err State A) (k : A -> M Err State B) :
  keeps c -> (forall a, keeps (k a)) -> keeps (bind c k).
Proof.
  intros Hc Hk s. unfold bind. specialize (Hc s).
  destruct (c s) as [[a| |e] s1]; cbn [snd] in *; auto.
  eapply approvalsOnly_trans; [exact Hc|]. apply Hk.
Qed.

Lemma keeps_tryCatchFinally (body : M Err State unit) handler fin :
  keeps body -> (forall e, keeps (handler e)) -> keeps fin ->
  keeps (tryCatchFinally body handler fin).
Proof.
  intros Hb Hh Hf s. unfold tryCatchFinally. specialize (Hb s).
  destruct (body s) as [[u| |e] s1]; cbn [snd] in Hb.
  - eapply approvalsOnly_trans; [exact Hb|]. apply Hf.
  - specialize (Hf s1). destruct (fin s1) as [[u| |e] s2]; cbn [snd] in *;
      eapply approvalsOnly_trans; eauto.
  - specialize (Hh e s1). destruct (handler e s1) as [[u| |e'] s2]; cbn [snd] in Hh;
      specialize (Hf s2); destruct (fin s2) as [[u'| |e''] s3]; cbn [snd] in *;
      eapply approvalsOnly_trans; eauto; eapply approvalsOnly_trans; eauto.
Qed.

Lemma keeps_call (body : M Err State unit) : keeps body -> keeps (call body).
Proof.
  intros Hb s. unfold call. specialize (Hb s).
  destruct (body s) as [[u| |e] s1]; exact Hb.
Qed.

Lemma keeps_setSuccess m : keeps (@setSuccess Err m).
Proof. intros s. cbn. repeat split. exists []. rewrite app_nil_r. auto. Qed.

Lemma keeps_setApprovalError m : keeps (@setApprovalError Err m).
Proof. intros s. cbn. repeat split. exists []. rewrite app_nil_r. auto. Qed.

Lemma keeps_setIsApproving b : keeps (@setIsApproving Err b).
Proof. intros s. cbn. repeat split. exists []. rewrite app_nil_r. auto. Qed.

Lemma keeps_console_error msg e : keeps (@console_error Err msg e).
Proof. intros s. cbn. repeat split. exists []. rewrite app_nil_r. auto. Qed.

Lemma keeps_request_approval t a : keeps (@request Err (TxApprove t a)).
Proof. intros s. cbn. repeat split. exists [TxApprove t a]. auto. Qed.

Lemma keeps_approveEach (items : list Leg) :
  forall any all, keeps (approveEach env items any all).
Proof.
  induction items as [|item rest IH]; intros any all; cbn [approveEach].
  - apply keeps_ret.
  - assert (Hstep : forall t,
      keeps
        (if tokenOf env t then
           bind (await (token_allowance env t)) (fun currentAllowance =>
             if currentAllowance <? PreviewBox.amount item then
               bind (request (TxApprove t (PreviewBox.amount item))) (fun _ =>
               bind (await (token_approve env t (PreviewBox.amount item))) (fun _ =>
               bind (await (approveTx_wait env)) (fun _ =>
               bind (setSuccess
                       (Some ("Successfully approved " ++ symbolOf env t ++ ".")%string))
                 (fun _ => approveEach env rest true false))))
             else approveEach env rest any all)
         else approveEach env rest any all)).
    { intros t. destruct (tokenOf env t); [|apply IH].
      apply keeps_bind; [apply keeps_await|]. intros al.
      destruct (al <? PreviewBox.amount item); [|apply IH].
      apply keeps_bind; [apply keeps_request_approval|]. intros _.
      apply keeps_bind; [apply keeps_await|]. intros _.
      apply keeps_bind; [apply keeps_await|]. intros _.
      apply keeps_bind; [apply keeps_setSuccess|]. intros _. apply IH. }
    destruct (tokenType item); [apply IH | exact (Hstep borrow) | exact (Hstep collateral)].
Qed.

Lemma keeps_checkAndApprove :
  keeps (checkAndApproveRequiredAssets isUserRejected env).
Proof.
  unfold checkAndApproveRequiredAssets.
  apply keeps_call. apply keeps_bind; [apply keeps_get|]. intros s.
  destruct (previewData s); [|apply keeps_earlyReturn].
  destruct (negb (address env) || negb (vaultAddress env)); [apply keeps_earlyReturn|].
  apply keeps_bind; [apply keeps_setIsApproving|]. intros _.
  apply keeps_bind; [apply keeps_setApprovalError|]. intros _.
  apply keeps_tryCatchFinally.
  - apply keeps_bind; [apply keeps_get|]. intros s'. cbv zeta.
    destruct (provide _); [apply keeps_earlyReturn|].
    apply keeps_bind; [apply keeps_approveEach|]. intros flags.
    destruct (snd flags && negb (fst flags)); [apply keeps_setSuccess | apply keeps_ret].
  - intros e. destruct (isUserRejected e); [apply keeps_setApprovalError|].
    apply keeps_bind; [apply keeps_setApprovalError|]. intros _. apply keeps_console_error.
  - apply keeps_setIsApproving.
Qed.

Lemma settles_bind {A} (c : M Err (@State Err) A) (k : A -> M Err (@State Err) unit) :
  (forall s, exists a, fst (c s) = Done a) ->
  (forall a s, fst (k a s) = Done tt \/ fst (k a s) = Returned) ->
  forall s, fst (bind c k s) = Done tt \/ fst (bind c k s) = Returned.
Proof.
  intros Hc Hk s. unfold bind. destruct (Hc s) as [a Ha].
  destruct (c s) as [o s1]. cbn [fst] in Ha. subst o. apply Hk.
Qed.

Lemma settles_tryCatchFinally (body : M Err (@State Err) unit) handler fin :
  (forall e s, fst (handler e s) = Done tt) -> (forall s, fst (fin s) = Done tt) ->
  forall s, fst (tryCatchFinally body handler fin s) = Done tt \/
            fst (tryCatchFinally body handler fin s) = Returned.
Proof.
  intros Hh Hf s. unfold tryCatchFinally.
  destruct (body s) as [[u| |e] s1].
  - left. rewrite Hf. reflexivity.
  - specialize (Hf s1). destruct (fin s1) as [o s2]. cbn [fst] in Hf. subst o. auto.
  - specialize (Hh e s1). destruct (handler e s1) as [o s2]. cbn [fst] in Hh. subst o.
    left. apply Hf.
Qed.

(** [checkAndApproveRequiredAssets] contains every failure of its own. *)
Lemma checkAndApprove_done (s : @State Err) :
  fst (checkAndApproveRequiredAssets isUserRejected env s) = Done tt.
Proof.
  unfold checkAndApproveRequiredAssets, call.
  match goal with
  | |- fst (match ?c s with _ => _ end) = _ =>
      assert (H : fst (c s) = Done tt \/ fst (c s) = Returned);
      [|destruct (c s) as [[[]| |e] s1]; cbn [fst] in *; destruct H; congruence]
  end.
  revert s. apply settles_bind; [intros s; exists s; reflexivity|]. intros s0.
  destruct (previewData s0); [|intros s; right; reflexivity].
  destruct (negb (address env) || negb (vaultAddress env)); [intros s; right; reflexivity|].
  apply settles_bind; [intros s; exists tt; reflexivity|]. intros _.
  apply settles_bind; [intros s; exists tt; reflexivity|]. intros _.
  apply settles_tryCatchFinally.
  - intros e s. destruct (isUserRejected e); reflexivity.
  - intros s. reflexivity.
Qed.

Section Resolved.
Hypothesis Hal : forall t, exists a, token_allowance env t = Ok a.
Hypothesis Happ : forall t n, token_approve env t n = Ok tt.
Hypothesis Hwait : approveTx_wait env = Ok tt.

Lemma approveEach_cons_skip item rest any all (s : @State Err) :
  shortOfAllowance env item = false ->
  approveEach env (item :: rest) any all s = approveEach env rest any all s.
Proof.
  unfold shortOfAllowance. cbn [approveEach].
  destruct (tokenType item); [reflexivity| |].
  - destruct (tokenOf env borrow); [|reflexivity].
    destruct (Hal borrow) as [al ->]. unfold bind, await. cbn [andb].
    intros ->. reflexivity.
  - destruct (tokenOf env collateral); [|reflexivity].
    destruct (Hal collateral) as [al ->]. unfold bind, await. cbn [andb].
    intros ->. reflexivity.
Qed.

Lemma approveEach_cons_short item rest any all (s : @State Err) :
  shortOfAllowance env item = true ->
  exists s0,
    approveEach env (item :: rest) any all s = approveEach env rest true false s0 /\
    txs s0 = txs s ++ [approvalOf item] /\ isApproving s0 = isApproving s.
Proof.
  unfold shortOfAllowance, approvalOf. cbn [approveEach].
  destruct (tokenType item); [discriminate| |].
  - destruct (tokenOf env borrow); [|discriminate].
    destruct (Hal borrow) as [al ->]. cbn [andb]. intros Hlt.
    unfold bind, await, request, setSuccess, set. rewrite Hlt, Happ, Hwait.
    eexists. split; [reflexivity|]. cbn. auto.
  - destruct (tokenOf env collateral); [|discriminate].
    destruct (Hal collateral) as [al ->]. cbn [andb]. intros Hlt.
    unfold bind, await, request, setSuccess, set. rewrite Hlt, Happ, Hwait.
    eexists. split; [reflexivity|]. cbn. auto.
Qed.

(** The loop, when every read and every approval resolves. *)
Lemma approveEach_resolved (items : list Leg) :
  forall any all (s : @State Err),
  exists s',
    approveEach env items any all s =
      (Done (any || existsb (shortOfAllowance env) items,
             all && negb (existsb (shortOfAllowance env) items)), s') /\
    txs s' = txs s ++ map approvalOf (filter (shortOfAllowance env) items) /\
    isApproving s' = isApproving s /\
    (existsb (shortOfAllowance env) items = false -> s' = s).
Proof.
  induction items as [|item rest IH]; intros any all s.
  - exists s. cbn. rewrite orb_false_r, andb_true_r, app_nil_r. auto.
  - cbn [existsb filter]. destruct (shortOfAllowance env item) eqn:Hs.
    + destruct (approveEach_cons_short item rest any all s Hs) as (s0 & E0 & Etx0 & Eia0).
      destruct (IH true false s0) as (s' & E & Etx & Eia & _).
      exists s'. rewrite E0, E. cbn [orb andb negb map].
      rewrite orb_true_r, andb_false_r.
      repeat split; try discriminate; try congruence.
      rewrite Etx, Etx0, <- app_assoc. reflexivity.
    + rewrite (approveEach_cons_skip item rest any all s Hs). cbn [orb]. apply IH.
Qed.

(** X4: when its reads and approvals resolve,
    [checkAndApproveRequiredAssets] asks the signer for exactly one approval
    per Give leg of a held token whose allowance is below the leg's amount,
    for exactly that amount and in the order of the preview; it asks for
    nothing for shares, and when no leg is short it requests nothing and
    reports "All tokens already approved.". *)
Theorem checkAndApprove_requests_exact_shortfalls
    (s : @State Err) (pd : PreviewData)
    (Hpd : previewData s = Some pd)
    (Haddr : address env = true) (Hvault : vaultAddress env = true) :
  let items :=
    provide (getReceiveAndProvide (rebalanceType env) (amount s) (previewData s)) in
  let final := snd (checkAndApproveRequiredAssets isUserRejected env s) in
  txs final = txs s ++ map approvalOf (filter (shortOfAllowance env) items) /\
  isApproving final = false /\
  forallb (fun t => negb (TokenType_eqb (tokenType t) shares))
    (filter (shortOfAllowance env) items) = true /\
  (items <> [] -> filter (shortOfAllowance env) items = [] ->
   success final = Some "All tokens already approved."%string).
Proof.
  cbv zeta. destruct s as [iv am lo er su ia ae pd0 co tx].
  cbn [previewData amount txs] in *. subst pd0.
  assert (Hshares : forall items,
            forallb (fun t => negb (TokenType_eqb (tokenType t) shares))
              (filter (shortOfAllowance env) items) = true).
  { intros items. apply forallb_forall. intros x Hx. apply filter_In in Hx. destruct Hx as [_ Hx].
    unfold shortOfAllowance in Hx. destruct (tokenType x); [discriminate|reflexivity|reflexivity]. }
  remember (checkAndApproveRequiredAssets isUserRejected env
              {| inputValue := iv; amount := am; loading := lo; error := er;
                 success := su; isApproving := ia; approvalError := ae;
                 previewData := Some pd; console := co; txs := tx |}) as res eqn:Eres.
  unfold checkAndApproveRequiredAssets, call, bind at 1, get in Eres.
  cbn [previewData] in Eres. rewrite Haddr, Hvault in Eres. cbn [negb orb] in Eres.
  unfold bind at 1 in Eres. unfold setIsApproving at 1, set in Eres. cbv beta iota in Eres.
  unfold bind at 1 in Eres. unfold setApprovalError at 1, set in Eres.
  cbv beta iota in Eres.
  cbn [inputValue amount loading error success isApproving approvalError
       previewData console txs] in Eres.
  unfold tryCatchFinally in Eres. unfold bind at 1 in Eres. unfold get in Eres.
  cbv beta iota zeta in Eres. cbn [previewData amount] in Eres.
  match goal with
  | |- context [provide ?x] => generalize dependent (provide x); intros items Eres
  end.
  destruct items as [|i0 rest].
  - unfold earlyReturn, setIsApproving, set in Eres. cbn in Eres. subst res.
    cbn. rewrite app_nil_r.
    split; [reflexivity|]. split; [reflexivity|]. split; [reflexivity|].
    intros H; contradiction.
  - unfold bind at 1 in Eres.
    match type of Eres with
    | context [approveEach env (i0 :: rest) false true ?s0] =>
        destruct (approveEach_resolved (i0 :: rest) false true s0)
          as (s' & E & Etx & Eia & Esame)
    end.
    rewrite E in Eres.
    cbn [txs isApproving] in Etx, Eia. cbn [snd fst orb andb] in Eres.
    destruct (existsb (shortOfAllowance env) (i0 :: rest)) eqn:Hex; cbn [negb andb] in Eres.
    + unfold ret, setIsApproving, set in Eres. cbn in Eres. subst res.
      cbn [snd fst txs isApproving success].
      split; [exact Etx|]. split; [reflexivity|]. split; [apply Hshares|].
      intros _ Hnil. exfalso.
      apply existsb_exists in Hex. destruct Hex as (x & Hin & Hx).
      assert (In x (filter (shortOfAllowance env) (i0 :: rest)))
        by (apply filter_In; auto).
      rewrite Hnil in H. contradiction.
    + rewrite (Esame eq_refl) in Eres. unfold setSuccess, setIsApproving, set in Eres.
      cbn in Eres. subst res.
      rewrite (Esame eq_refl) in Etx. cbn [txs] in Etx.
      cbn [snd fst txs isApproving success].
      split; [exact Etx|]. split; [reflexivity|]. split; [apply Hshares|].
      intros _ _. reflexivity.
Qed.

End Resolved.

(** X5: whatever the reads and the signer answer,
    [checkAndApproveRequiredAssets] neither throws nor ends its caller: it
    settles its own failures in [approvalError].  It asks the signer for
    approvals only and leaves the amount, the input, the preview, the
    error message and the loading flag as they were. *)
Theorem checkAndApprove_contains_its_failures (s : @State Err) :
  fst (checkAndApproveRequiredAssets isUserRejected env s) = Done tt /\
  approvalsOnly s (snd (checkAndApproveRequiredAssets isUserRejected env s)).
Proof.
  split; [apply checkAndApprove_done | apply keeps_checkAndApprove].
Qed.

(** X6: a rebalance by borrow or collateral amount first previews the share
    delta.  If the preview resolves without a delta, or with a zero delta,
    no rebalance transaction is requested and the error "Failed to preview
    leveraged tokens delta" is set; otherwise the one rebalance transaction
    requested carries the entered amount and the hint [deltaShares >= 0]. *)
Theorem handleSubmit_hint_follows_previewed_delta
    (s : @State Err) (a : Z)
    (Hside : rebalanceType env <> shares)
    (Hv : vault env = true) (Hl : vaultLens_present env = true)
    (Ha : address env = true)
    (Ham : amount s = Some a) (Hnz : a <> 0) :
  let final := snd (handleSubmit isUserRejected applyGasSlippage env s) in
  (forall d, previewOf env (rebalanceType env) a = Ok d -> noDelta d = true ->
     filter isRebalanceTx (txs final) = filter isRebalanceTx (txs s) /\
     error final = Some "Failed to preview leveraged tokens delta"%string /\
     loading final = false) /\
  (forall d g, previewOf env (rebalanceType env) a = Ok (Some d) -> d <> 0 ->
     estimateOf env (rebalanceType env) a (d >=? 0) = Ok g ->
     filter isRebalanceTx (txs final) =
       filter isRebalanceTx (txs s) ++
       [hintTx (rebalanceType env) a (d >=? 0) (applyGasSlippage g)]).
Proof.
  cbv zeta.
  remember (handleSubmit isUserRejected applyGasSlippage env s) as res eqn:Eres.
  unfold handleSubmit, bind at 1, get in Eres.
  rewrite Hv, Hl, Ha, Ham in Eres. cbn [negb orb] in Eres.
  destruct (Z.eqb_spec a 0); [contradiction|].
  unfold bind at 1 in Eres.
  destruct (handleSubmit_reset s) as [o0 s0] eqn:Ereset.
  assert (Hs0 : o0 = Done tt /\ txs s0 = txs s).
  { destruct s. cbv in Ereset. injection Ereset as <- <-. auto. }
  destruct Hs0 as [-> Htx0].
  unfold tryCatchFinally, handleSubmit_try, bind at 1 in Eres.
  pose proof (checkAndApprove_done s0) as Hdone. pose proof (keeps_checkAndApprove s0) as Hkeep.
  destruct (checkAndApproveRequiredAssets isUserRejected env s0) as [o1 s1].
  cbn [fst snd] in Hdone, Hkeep. subst o1.
  destruct Hkeep as (_ & _ & _ & _ & _ & l & El & Hl').
  assert (Hf1 : filter isRebalanceTx (txs s1) = filter isRebalanceTx (txs s)).
  { rewrite El, Htx0, filter_app.
    replace (filter isRebalanceTx l) with (@nil Tx); [apply app_nil_r|].
    clear El. induction l as [|x l IH]; [reflexivity|].
    cbn in Hl'. apply andb_true_iff in Hl'. destruct Hl' as [Hx Hl'].
    cbn. unfold isRebalanceTx at 1. rewrite Hx. cbn. apply IH, Hl'. }
  clear El Hl' l Ereset Htx0.
  destruct s1 as [iv am lo er su ia ae pd co tx]. cbn [txs] in Hf1.
  unfold previewOf, estimateOf, hintTx.
  destruct (rebalanceType env); [congruence| |].
  all: unfold bind at 1 in Eres; unfold bind at 1 in Eres; unfold await at 1 in Eres.
  all: split.
  all: try (intros d Hd Hno; rewrite Hd, Hno in Eres;
            cbv in Eres; subst res; cbn [snd txs error loading]; auto).
  all: intros d g Hd Hdz Hg; rewrite Hd in Eres; cbn [noDelta] in Eres;
       destruct (Z.eqb_spec d 0); [contradiction|];
       unfold bind at 1 in Eres; rewrite Hg in Eres; unfold await at 1 in Eres;
       unfold ret at 1 in Eres; unfold bind at 1 in Eres;
       unfold request at 1, set in Eres; cbv beta iota in Eres;
       cbn [inputValue amount loading error success isApproving approvalError
            previewData console txs] in Eres;
       unfold bind at 1 in Eres; unfold await at 1 in Eres.
  all: destruct (vault_execute env _) as [u|e]; cbv beta iota in Eres;
       [ unfold bind at 1 in Eres; unfold await at 1 in Eres;
         destruct (tx_wait env) as [u'|e]; cbv beta iota in Eres |];
       unfold handleSubmit_catch in Eres;
       try destruct (isUserRejected e);
       unfold bind, await, setError, setLoading, setInputValue, setAmount, setSuccess,
         console_error, set in Eres;
       cbv beta iota in Eres;
       cbn [inputValue amount loading error success isApproving approvalError
            previewData console txs] in Eres;
       subst res; cbn [snd txs];
       rewrite filter_app, Hf1; reflexivity.
Qed.

End RebalanceApprovals.

Lemma checkAndApprove_requests_exact_shortfalls_witness :
  LowLevelRebalanceHandler.txs
    (snd (LowLevelRebalanceHandler.checkAndApproveRequiredAssets isUserRejected_example
            (rebalanceEnv (Effects.Ok tt)) previewState)) =
  [] ++ [LowLevelRebalanceHandler.TxApprove collateral 30;
         LowLevelRebalanceHandler.TxApprove borrow 20].
Proof.
  apply (checkAndApprove_requests_exact_shortfalls isUserRejected_example
           (rebalanceEnv (Effects.Ok tt))
           (fun t => ex_intro _ 0 eq_refl) (fun t n => eq_refl) eq_refl
           previewState (LowLevelRebalanceHandler.mkPreview (Some 30) (Some (-20)) None)
           eq_refl eq_refl eq_refl).
Defined.

Lemma handleSubmit_hint_follows_previewed_delta_witness :
  filter LowLevelRebalanceHandler.isRebalanceTx
    (LowLevelRebalanceHandler.txs
       (snd (LowLevelRebalanceHandler.handleSubmit isUserRejected_example
               applyGasSlippage_example (borrowRebalanceEnv (Some (-3))) rebalanceState))) =
  [] ++ [LowLevelRebalanceHandler.TxRebalanceBorrowHint 100 false 120000].
Proof.
  destruct (handleSubmit_hint_follows_previewed_delta isUserRejected_example
              applyGasSlippage_example (borrowRebalanceEnv (Some (-3))) rebalanceState 100
              ltac:(discriminate) eq_refl eq_refl eq_refl eq_refl ltac:(discriminate))
    as [_ H].
  apply (H (-3) 100000); [reflexivity | discriminate | reflexivity].
Defined.
(** ** Vault context: the remaining maxima and the limit refresh *)

Section MaxValuesMore.
Import NumericUtils VaultContext.

Ltac invert_run Hrun :=
  unfold calculateMaxValues in Hrun;
  repeat match type of Hrun with
         | (if negb ?b then _ else _) = _ => destruct b; cbn [negb] in Hrun;
                                             [|discriminate Hrun]
         | obind ?o _ = _ => destruct o eqn:?; cbn [obind] in Hrun;
                             [|discriminate Hrun]
         | (let _ := _ in _) = _ => cbv zeta in Hrun
         end;
  injection Hrun as <-.

(** X7: whenever [calculateMaxValues] completes, none of the eight maxima
    it sets exceeds the vault's own limit for that action, and the deposit
    and redeem maxima do not exceed what the user holds (token balance plus
    wrappable native balance, shares balance). *)
Theorem calculateMaxValues_within_limits_and_holdings
    (c : MaxInputs) (r : MaxValues) (Hrun : calculateMaxValues c = Some r) :
  (forall l, vaultMaxDeposit c = Some l -> maxDeposit r <= l) /\
  (forall l, vaultMaxRedeem c = Some l -> maxRedeem r <= l) /\
  (forall l, vaultMaxMint c = Some l -> maxMint r <= l) /\
  (forall l, vaultMaxWithdraw c = Some l -> maxWithdraw r = l) /\
  (forall l, vaultMaxDepositCollateral c = Some l -> maxDepositCollateral r <= l) /\
  (forall l, vaultMaxRedeemCollateral c = Some l -> maxRedeemCollateral r <= l) /\
  (forall l, vaultMaxMintCollateral c = Some l -> maxMintCollateral r <= l) /\
  (forall l, vaultMaxWithdrawCollateral c = Some l -> maxWithdrawCollateral r = l) /\
  (forall eth bal, ethBalance (userBalances c) = Some eth ->
     borrowTokenBalance (userBalances c) = Some bal ->
     maxDeposit r <= bal + availableEth (isBorrowTokenWeth c) eth) /\
  (forall eth col, ethBalance (userBalances c) = Some eth ->
     collateralTokenBalance (userBalances c) = Some col ->
     maxDepositCollateral r <= col + availableEth (isCollateralTokenWeth c) eth) /\
  (forall sh, sharesBalance (userBalances c) = Some sh ->
     maxRedeem r <= sh /\ maxRedeemCollateral r <= sh).
Proof.
  invert_run Hrun.
  cbn [maxDeposit maxRedeem maxMint maxWithdraw maxDepositCollateral
       maxRedeemCollateral maxMintCollateral maxWithdrawCollateral].
  unfold availableEth. rewrite !minBigInt_min, !clampToPositive_max.
  repeat match goal with |- _ /\ _ => split end; intros;
    repeat match goal with
           | H : Some _ = Some _ |- _ => injection H as H; subst
           end;
    try lia.
  - destruct (isBorrowTokenWeth c); lia.
  - destruct (isCollateralTokenWeth c); lia.
Qed.

Lemma calculateMaxValues_within_limits_and_holdings_witness :
  maxDeposit (mkMaxValues 3 2 3 10 3 3 3 12) <= 100 /\
  maxWithdraw (mkMaxValues 3 2 3 10 3 3 3 12) = 10.
Proof.
  pose proof (calculateMaxValues_within_limits_and_holdings withdrawScenario
                (mkMaxValues 3 2 3 10 3 3 3 12) eq_refl) as (H1 & _ & _ & H4 & _).
  split; [apply H1 | apply H4]; reflexivity.
Defined.

(** X8: whenever [calculateMaxValues] completes, the mint maximum is the
    smaller of the vault's mint limit and the shares previewed for the token
    balance plus, for a wrapped-native token only, the shares previewed for
    the native balance above the gas reserve; the collateral deposit maximum
    follows the same gas-reserve rule as the borrow-side one. *)
Theorem calculateMaxValues_mint_and_collateral
    (c : MaxInputs) (r : MaxValues)
    (eth bal col lm ldc lmc sharesForToken sharesForCollateral : Z)
    (Heth : ethBalance (userBalances c) = Some eth)
    (Hbal : borrowTokenBalance (userBalances c) = Some bal)
    (Hcol : collateralTokenBalance (userBalances c) = Some col)
    (Hlm : vaultMaxMint c = Some lm)
    (Hldc : vaultMaxDepositCollateral c = Some ldc)
    (Hlmc : vaultMaxMintCollateral c = Some lmc)
    (Hp1 : previewDeposit c bal = Some sharesForToken)
    (Hp2 : previewDepositCollateral c col = Some sharesForCollateral)
    (Hrun : calculateMaxValues c = Some r) :
  (exists sharesForEth,
     (if isBorrowTokenWeth c
      then previewDeposit c (availableEth true eth) = Some sharesForEth
      else sharesForEth = 0) /\
     maxMint r = Z.min lm (sharesForToken + sharesForEth)) /\
  maxDepositCollateral r = Z.min ldc (col + availableEth (isCollateralTokenWeth c) eth) /\
  (exists sharesForEth,
     (if isCollateralTokenWeth c
      then previewDepositCollateral c (availableEth true eth) = Some sharesForEth
      else sharesForEth = 0) /\
     maxMintCollateral r = Z.min lmc (sharesForCollateral + sharesForEth)).
Proof.
  invert_run Hrun.
  repeat match goal with
         | H : Some _ = Some _ |- _ => injection H as H; subst
         end.
  repeat match goal with
         | H : ?x = Some _, H' : ?x = Some _ |- _ =>
             rewrite H in H'; injection H' as H'; subst
         end.
  cbn [maxMint maxDepositCollateral maxMintCollateral].
  unfold availableEth. rewrite !minBigInt_min.
  repeat match goal with
         | H : context [clampToPositive] |- _ => rewrite !clampToPositive_max in H
         end.
  rewrite ?clampToPositive_max.
  split; [|split].
  - destruct (isBorrowTokenWeth c).
    + eexists. split; [eassumption|]. lia.
    + exists 0. split; [reflexivity|].
      match goal with H : Some 0 = Some _ |- _ => injection H as <- end. lia.
  - destruct (isCollateralTokenWeth c); lia.
  - destruct (isCollateralTokenWeth c).
    + eexists. split; [eassumption|]. lia.
    + exists 0. split; [reflexivity|].
      match goal with H : Some 0 = Some _ |- _ => injection H as <- end. lia.
Qed.

Lemma calculateMaxValues_mint_and_collateral_witness :
  maxDepositCollateral
    (mkMaxValues 100000000000000000 5 300000000000000000 11
       4998000000000000000 7 9000000000000000000 13) =
  Z.min 6000000000000000000
    (4000000000000000000 + availableEth true 1000000000000000000).
Proof.
  apply (calculateMaxValues_mint_and_collateral collateralScenario
           (mkMaxValues 100000000000000000 5 300000000000000000 11
              4998000000000000000 7 9000000000000000000 13)
           1000000000000000000 500000000000000000 4000000000000000000
           300000000000000000 6000000000000000000 9000000000000000000
           500000000000000000 8000000000000000000);
    reflexivity.
Defined.



End MaxValuesMore.

Section LimitRefresh.
Import VaultContext.

(** X10: a limit refresh either replaces all ten limit states by the ten
    values read, when every read resolves, or leaves all ten as they were:
    one rejected read among the ten, or a failed guard, changes nothing. *)
Theorem loadVaultLimits_all_or_nothing
    (ready : bool) (reads s : VaultLimits) :
  (ready = true -> ~ In None (limitReads reads) ->
   loadVaultLimits ready reads s = reads) /\
  (ready = false \/ In None (limitReads reads) ->
   loadVaultLimits ready reads s = s).
Proof.
  unfold loadVaultLimits, limitReads. destruct reads as [r1 r2 r3 r4 r5 r6 r7 r8 r9 r10].
  cbn [limMaxDeposit limMaxRedeem limMaxMint limMaxWithdraw limMaxDepositCollateral
       limMaxRedeemCollateral limMaxMintCollateral limMaxWithdrawCollateral
       limMaxLowLevelRebalanceShares limTotalAssets].
  split.
  - intros -> Hin. cbn [negb].
    destruct r1, r2, r3, r4, r5, r6, r7, r8, r9, r10;
      try reflexivity; exfalso; apply Hin; cbn; repeat (first [left; reflexivity | right]).
  - intros [-> | Hin]; [reflexivity|]. destruct ready; [|reflexivity]. cbn [negb].
    destruct r1, r2, r3, r4, r5, r6, r7, r8, r9, r10;
      try reflexivity; exfalso; cbn in Hin; intuition discriminate.
Qed.

Lemma loadVaultLimits_all_or_nothing_witness :
  loadVaultLimits true limitReadsOneFails loadedLimits = loadedLimits.
Proof.
  apply (loadVaultLimits_all_or_nothing true limitReadsOneFails loadedLimits).
  right. cbn. auto 10.
Defined.

End LimitRefresh.

(** ** ActionHandler: approvals, deposits and the loading flag *)

Section ActionHandlerMore.
Import Effects Form ActionHandler.
Context {Err : Type}.
Variable isUserRejected : Err -> bool.
Variable applyGasSlippage : Z -> Z.

Ltac run_action_handler :=
  cbv beta iota zeta delta
    [handleSubmit handleSubmit_try handleSubmit_catch refetchMaxBeforeTx
     executeVaultMethod handleApproval handleWrapIfNeeded
     bind get await ret set earlyReturn tryCatchFinally tryCatch
     setLoading setError setSuccess setAmount console_error request
     snd fst loading error success amount console txs].

(** X11: [handleApproval] never asks for an approval the allowance already
    covers, and otherwise asks once, for exactly the amount needed. *)
Theorem handleApproval_only_the_shortfall
    (env : @Env Err) (s : @State Err) (needed allowance : Z)
    (Htoken : token env = true) (Hlens : tokenLens env = true)
    (Haddr : address env = true)
    (Hal : tokenLens_allowance env = Ok allowance) :
  (needed <= allowance ->
   handleApproval env needed s =
     (Done true,
      mkState (loading s) (error s)
        (Some ("Already approved " ++ tokenSymbol env ++ ".")%string)
        (amount s) (console s) (txs s))) /\
  (allowance < needed ->
   txs (snd (handleApproval env needed s)) = txs s ++ [TxApprove needed] /\
   (token_approve env needed = Ok tt -> approveTx_wait env = Ok tt ->
    handleApproval env needed s =
      (Done true,
       mkState (loading s) (error s)
         (Some ("Successfully approved " ++ tokenSymbol env ++ ".")%string)
         (amount s) (console s) (txs s ++ [TxApprove needed])))).
Proof.
  destruct s as [lo er su am co tx].
  run_action_handler. rewrite Htoken, Hlens, Haddr, Hal. cbn [negb orb]. cbv beta iota.
  split; intros H.
  - destruct (Z.ltb_spec allowance needed); [lia|]. reflexivity.
  - destruct (Z.ltb_spec allowance needed); [|lia]. split.
    + destruct (token_approve env needed); cbv beta iota; [|reflexivity].
      destruct (approveTx_wait env); reflexivity.
    + intros -> ->. reflexivity.
Qed.

(** X13: a deposit or mint that needs more tokens than the user holds, of
    a token that is not the wrapped-native asset, is stopped before anything
    is handed to the signer, with "Not enough tokens to <action>.". *)
Theorem handleSubmit_not_enough_tokens
    (env : @Env Err) (s : @State Err) (parsed needed balance : Z)
    (Hflags : vault env = true /\ address env = true /\ publicProvider env = true /\
              tokenLens env = true /\ token env = true /\ vaultLens env = true /\
              currentNetwork env = true)
    (Hact : needsApproval (ACTION_CONFIGS (actionType env)) = true)
    (Hparse : parseUnits env (amount s) = Ok parsed)
    (Hneeded :
       match actionType env with
       | mint => (if isBorrow env then previewMint env parsed
                  else previewMintCollateral env parsed) = Ok needed
       | _ => needed = parsed
       end)
    (Hbal : tokenLens_balanceOf env = Ok balance)
    (Hshort : balance < needed)
    (Hweth : isWETHAddress env = false) :
  let final := snd (handleSubmit isUserRejected applyGasSlippage env s) in
  txs final = txs s /\
  error final =
    Some ("Not enough tokens to " ++ actionName (actionType env) ++ ".")%string /\
  loading final = false.
Proof.
  destruct Hflags as (Hv & Ha & Hpp & Htl & Ht & Hvl & Hcn).
  destruct s as [lo er su am co tx]. cbn [amount] in Hparse.
  cbv zeta. run_action_handler.
  rewrite Hv, Ha. cbn [negb orb]. rewrite Hparse. cbv beta iota.
  rewrite Hact, Hpp, Htl, Ht, Hvl, Hbal, Hcn, Hweth. cbn [negb orb]. cbv beta iota.
  destruct (actionType env); try discriminate Hact.
  - subst needed. cbv beta iota.
    destruct (Z.geb_spec balance parsed); [lia|]. cbn. auto.
  - rewrite Hneeded. cbv beta iota.
    destruct (Z.geb_spec balance needed); [lia|]. cbn. auto.
Qed.

(** X12: a deposit or mint for which the user holds enough tokens sends the
    approval first (only when the allowance is short, and for exactly the
    tokens needed), then the vault call for the entered amount with the padded
    gas estimate; it then clears the field and reports success. *)
Theorem handleSubmit_deposit_approves_then_calls_vault
    (env : @Env Err) (s : @State Err) (parsed needed balance allowance gas : Z)
    (Hflags : vault env = true /\ address env = true /\ publicProvider env = true /\
              tokenLens env = true /\ token env = true /\ vaultLens env = true)
    (Hact : needsApproval (ACTION_CONFIGS (actionType env)) = true)
    (Hparse : parseUnits env (amount s) = Ok parsed)
    (Hneeded :
       match actionType env with
       | mint => (if isBorrow env then previewMint env parsed
                  else previewMintCollateral env parsed) = Ok needed
       | _ => needed = parsed
       end)
    (Hbal : tokenLens_balanceOf env = Ok balance)
    (Henough : needed <= balance)
    (Hal : tokenLens_allowance env = Ok allowance)
    (Happrove : token_approve env needed = Ok tt)
    (Hwait : approveTx_wait env = Ok tt)
    (Hgas : estimateGas env (actionType env) (isBorrow env) parsed = Ok gas)
    (Hcall : vault_call env (actionType env) (isBorrow env) parsed
               (applyGasSlippage gas) = Ok tt)
    (Htx : tx_wait env = Ok tt) :
  handleSubmit isUserRejected applyGasSlippage env s =
    (Done tt,
     mkState false None
       (Some (actionNameCapitalized (actionType env) ++ " successful!")%string)
       ""%string (console s)
       (txs s ++ (if allowance <? needed then [TxApprove needed] else [])
              ++ [TxVault (actionType env) (isBorrow env) parsed
                    (applyGasSlippage gas)])).
Proof.
  destruct Hflags as (Hv & Ha & Hpp & Htl & Ht & Hvl).
  destruct s as [lo er su am co tx]. cbn [amount] in Hparse.
  run_action_handler.
  rewrite Hv, Ha. cbn [negb orb]. rewrite Hparse. cbv beta iota.
  rewrite Hact, Hpp, Htl, Ht, Hvl, Hbal. cbn [negb orb]. cbv beta iota.
  assert (Hmax : isMaxSelected env && isRedeemOrWithdraw (actionType env) = false).
  { destruct (actionType env); try discriminate Hact; cbn; apply andb_false_r. }
  rewrite Hmax.
  assert (Hsplit : actionType env = deposit /\ needed = parsed \/
                   actionType env = mint /\
                   (if isBorrow env then previewMint env parsed
                    else previewMintCollateral env parsed) = Ok needed).
  { destruct (actionType env); try discriminate Hact; auto. }
  destruct Hsplit as [[Hat Hn]|[Hat Hn]]; rewrite Hat in *; cbv beta iota.
  - rewrite Hn in *.
    destruct (Z.geb_spec balance parsed); [|lia]. cbv beta iota.
    rewrite Hal. cbv beta iota.
    destruct (allowance <? parsed);
      repeat (progress (run_action_handler; cbn [negb orb];
                        rewrite ?Happrove, ?Hwait, ?Hgas, ?Hcall, ?Htx, ?Hv, ?Hvl, ?Ha));
      rewrite <- ?app_assoc; reflexivity.
  - rewrite Hn. cbv beta iota.
    destruct (Z.geb_spec balance needed); [|lia]. cbv beta iota.
    rewrite Hal. cbv beta iota.
    destruct (allowance <? needed);
      repeat (progress (run_action_handler; cbn [negb orb];
                        rewrite ?Happrove, ?Hwait, ?Hgas, ?Hcall, ?Htx, ?Hv, ?Hvl, ?Ha));
      rewrite <- ?app_assoc; reflexivity.
Qed.

(** X14: whatever the calls answer, [handleSubmit] ends with the loading
    flag cleared when the vault and the address are there; when one is
    missing it returns before the [try], and the flag it has just raised
    stays up. *)
Theorem handleSubmit_loading_flag (env : @Env Err) (s : @State Err) :
  loading (snd (handleSubmit isUserRejected applyGasSlippage env s)) =
  negb (vault env && address env).
Proof.
  unfold handleSubmit, bind, setLoading, setError, setSuccess, set, earlyReturn.
  cbv beta iota.
  destruct (vault env), (address env); cbn [negb orb andb]; try reflexivity.
  unfold tryCatchFinally.
  match goal with |- context [handleSubmit_try ?a ?b ?c] =>
    destruct (handleSubmit_try a b c) as [[u| |e] s1] end;
    try reflexivity.
  match goal with |- context [handleSubmit_catch ?a ?b ?c ?d] =>
    destruct (handleSubmit_catch a b c d) as [[u| |e'] s2] end; reflexivity.
Qed.

(** X15: a withdraw or redeem never asks for a token approval: it hands the
    signer nothing, or one vault call of its own kind; without Max selected
    that call carries the entered amount. *)
Theorem handleSubmit_withdraw_needs_no_approval
    (env : @Env Err) (s : @State Err)
    (Hact : isRedeemOrWithdraw (actionType env) = true) :
  let final := snd (handleSubmit isUserRejected applyGasSlippage env s) in
  txs final = txs s \/
  exists sent gas,
    txs final = txs s ++ [TxVault (actionType env) (isBorrow env) sent
                            (applyGasSlippage gas)] /\
    estimateGas env (actionType env) (isBorrow env) sent = Ok gas /\
    (isMaxSelected env = false -> parseUnits env (amount s) = Ok sent).
Proof.
  destruct s as [lo er su am co tx]. cbv zeta.
  run_action_handler.
  destruct (vault env) eqn:Hv, (address env) eqn:Ha; cbn [negb orb];
    try (left; reflexivity).
  destruct (parseUnits env am) as [parsed|e] eqn:Hp; cbv beta iota;
    [|destruct (isUserRejected e); left; reflexivity].
  assert (Hcfg : needsApproval (ACTION_CONFIGS (actionType env)) = false)
    by (destruct (actionType env); try discriminate Hact; reflexivity).
  rewrite Hcfg, Hact, andb_true_r. cbv beta iota.
  destruct (isMaxSelected env) eqn:Hmax.
  - destruct (vaultLens env) eqn:Hvl; cbn [negb orb]; cbv beta iota.
    2:{ cbn. left; reflexivity. }
    destruct (actionType env) eqn:Hat; try discriminate Hact.
    + destruct (if isBorrow env then maxWithdraw env else maxWithdrawCollateral env)
        as [m|e]; cbv beta iota; [|left; reflexivity].
      destruct (m =? 0); cbv beta iota; [left; reflexivity|].
      destruct (m <? parsed); cbv beta iota; [left; reflexivity|].
      destruct (estimateGas env withdraw (isBorrow env) m) as [g|e] eqn:Hg;
        cbv beta iota; [|destruct (isUserRejected e); left; reflexivity].
      right. exists m, g. split; [|split; [exact Hg | discriminate]].
      destruct (vault_call env withdraw (isBorrow env) m (applyGasSlippage g)) as [[]|e];
        cbv beta iota; [|destruct (isUserRejected e); reflexivity].
      destruct (tx_wait env) as [[]|e]; cbv beta iota;
        [|destruct (isUserRejected e)]; reflexivity.
    + destruct (vaultLens_balanceOf env) as [b|e]; cbv beta iota; [|left; reflexivity].
      destruct (if isBorrow env then maxRedeem env else maxRedeemCollateral env)
        as [m|e]; cbv beta iota; [|left; reflexivity].
      set (mx := if b <? m then b else m).
      destruct (mx =? 0); cbv beta iota; [left; reflexivity|].
      destruct (mx <? parsed); cbv beta iota; [left; reflexivity|].
      destruct (estimateGas env redeem (isBorrow env) mx) as [g|e] eqn:Hg;
        cbv beta iota; [|destruct (isUserRejected e); left; reflexivity].
      right. exists mx, g. split; [|split; [exact Hg | discriminate]].
      destruct (vault_call env redeem (isBorrow env) mx (applyGasSlippage g)) as [[]|e];
        cbv beta iota; [|destruct (isUserRejected e); reflexivity].
      destruct (tx_wait env) as [[]|e]; cbv beta iota;
        [|destruct (isUserRejected e)]; reflexivity.
  - destruct (vaultLens env) eqn:Hvl; cbn [negb orb]; cbv beta iota.
    2:{ left; reflexivity. }
    destruct (estimateGas env (actionType env) (isBorrow env) parsed) as [g|e] eqn:Hg;
      cbv beta iota; [|destruct (isUserRejected e); left; reflexivity].
    right. exists parsed, g. split; [|split; [exact Hg | reflexivity]].
    destruct (vault_call env (actionType env) (isBorrow env) parsed (applyGasSlippage g))
      as [[]|e]; cbv beta iota; [|destruct (isUserRejected e); reflexivity].
    destruct (tx_wait env) as [[]|e]; cbv beta iota;
      [|destruct (isUserRejected e)]; reflexivity.
Qed.

End ActionHandlerMore.

Lemma handleApproval_only_the_shortfall_witness :
  (7 <= 3 ->
   ActionHandler.handleApproval (depositEnv deposit 10 3) 7 formState =
     (Effects.Done true,
      Form.mkState (Form.loading formState) (Form.error formState)
        (Some ("Already approved " ++
               ActionHandler.tokenSymbol (depositEnv deposit 10 3) ++ ".")%string)
        (Form.amount formState) (Form.console formState) (Form.txs formState))) /\
  (3 < 7 ->
   Form.txs (snd (ActionHandler.handleApproval (depositEnv deposit 10 3) 7 formState)) =
     Form.txs formState ++ [ActionHandler.TxApprove 7] /\
   (ActionHandler.token_approve (depositEnv deposit 10 3) 7 = Effects.Ok tt ->
    ActionHandler.approveTx_wait (depositEnv deposit 10 3) = Effects.Ok tt ->
    ActionHandler.handleApproval (depositEnv deposit 10 3) 7 formState =
      (Effects.Done true,
       Form.mkState (Form.loading formState) (Form.error formState)
         (Some ("Successfully approved " ++
                ActionHandler.tokenSymbol (depositEnv deposit 10 3) ++ ".")%string)
         (Form.amount formState) (Form.console formState)
         (Form.txs formState ++ [ActionHandler.TxApprove 7])))).
Proof.
  apply (handleApproval_only_the_shortfall (depositEnv deposit 10 3) formState 7 3
           eq_refl eq_refl eq_refl eq_refl).
Defined.

Lemma handleSubmit_deposit_approves_then_calls_vault_witness :
  ActionHandler.handleSubmit isUserRejected_example applyGasSlippage_example
    (depositEnv mint 20000000000000000000 0) formState =
  (Effects.Done tt,
   Form.mkState false None (Some "Mint successful!"%string) ""%string []
     [ActionHandler.TxApprove 10000000000000000000;
      ActionHandler.TxVault mint true 5000000000000000000 120000]).
Proof.
  apply (handleSubmit_deposit_approves_then_calls_vault isUserRejected_example
           applyGasSlippage_example (depositEnv mint 20000000000000000000 0) formState
           5000000000000000000 10000000000000000000 20000000000000000000 0 100000
           (conj eq_refl (conj eq_refl (conj eq_refl
              (conj eq_refl (conj eq_refl eq_refl)))))
           eq_refl eq_refl eq_refl eq_refl ltac:(lia) eq_refl eq_refl eq_refl
           eq_refl eq_refl eq_refl).
Defined.

Lemma handleSubmit_not_enough_tokens_witness :
  let final :=
    snd (ActionHandler.handleSubmit isUserRejected_example applyGasSlippage_example
           (depositEnv deposit 1 0) formState) in
  Form.txs final = [] /\
  Form.error final = Some "Not enough tokens to deposit."%string /\
  Form.loading final = false.
Proof.
  apply (handleSubmit_not_enough_tokens isUserRejected_example
           applyGasSlippage_example (depositEnv deposit 1 0) formState
           5000000000000000000 5000000000000000000 1
           (conj eq_refl (conj eq_refl (conj eq_refl (conj eq_refl
              (conj eq_refl (conj eq_refl eq_refl))))))
           eq_refl eq_refl eq_refl eq_refl ltac:(lia) eq_refl).
Defined.

Lemma handleSubmit_withdraw_needs_no_approval_witness :
  let final :=
    snd (ActionHandler.handleSubmit isUserRejected_example applyGasSlippage_example
           (submitEnv 5000000000000000000 (Effects.Ok tt)) formState) in
  Form.txs final = Form.txs formState \/
  exists sent gas,
    Form.txs final =
      Form.txs formState ++ [ActionHandler.TxVault withdraw true sent
                               (applyGasSlippage_example gas)] /\
    ActionHandler.estimateGas (submitEnv 5000000000000000000 (Effects.Ok tt))
      withdraw true sent = Effects.Ok gas /\
    (ActionHandler.isMaxSelected (submitEnv 5000000000000000000 (Effects.Ok tt)) = false ->
     ActionHandler.parseUnits (submitEnv 5000000000000000000 (Effects.Ok tt))
       (Form.amount formState) = Effects.Ok sent).
Proof.
  apply (handleSubmit_withdraw_needs_no_approval isUserRejected_example
           applyGasSlippage_example (submitEnv 5000000000000000000 (Effects.Ok tt))
           formState eq_refl).
Defined.
(** ** SafeActionHandler: slippage bounds, approvals and the loading flag *)

Section SafeActionHandlerMore.
Import Effects Form SafeActionHandler.
Context {Err : Type}.
Variable isUserRejected : Err -> bool.
Variable applyGasSlippage : Z -> Z.

Ltac run_safe_handler :=
  cbv beta iota zeta delta
    [handleSubmit handleSubmit_try handleSubmit_catch refetchMaxBeforeTx
     executeSafeMethod handleApproval handleWrapIfNeeded calculateSlippageBound
     bind get await ret set earlyReturn tryCatchFinally tryCatch
     setLoading setError setSuccess setAmount console_error request
     snd fst loading error success amount console txs].

(** X16: a slippage bound is the previewed amount scaled by the tolerance
    factor: for a deposit or redeem (a minimum to get out) it never exceeds
    the preview, for a mint or withdraw (a maximum to put in) it never falls
    below it. *)
Theorem calculateSlippageBound_direction
    (env : @Env Err) (s s' : @State Err) (parsedAmount bound : Z)
    (Hrun : calculateSlippageBound env parsedAmount s = (Done (Some bound), s')) :
  s' = s /\
  exists expected factor,
    expectedOf env parsedAmount = Ok expected /\
    factorOf env = Ok factor /\
    bound = Z.quot (expected * factor) 10000 /\
    (0 <= expected ->
     match actionType env with
     | deposit | redeem => 0 <= factor <= 10000 -> 0 <= bound <= expected
     | mint | withdraw => 10000 <= factor -> expected <= bound
     end).
Proof.
  unfold expectedOf, factorOf.
  revert Hrun. run_safe_handler.
  destruct (vaultLens env), (helperAddress env); cbn [negb orb]; try discriminate.
  destruct (slippageValid env); cbn [negb]; try discriminate.
  assert (Hdown : forall e f, 0 <= e -> 0 <= f <= 10000 ->
                              0 <= Z.quot (e * f) 10000 <= e).
  { intros e f He Hf. split.
    - apply Z.quot_pos; nia.
    - apply Z.quot_le_upper_bound; nia. }
  assert (Hup : forall e f, 0 <= e -> 10000 <= f -> e <= Z.quot (e * f) 10000).
  { intros e f He Hf. apply Z.quot_le_lower_bound; nia. }
  destruct (actionType env).
  - destruct (previewDeposit env parsedAmount) as [ex|e]; cbv beta iota; try discriminate.
    destruct (slippageDown env) as [f|e]; cbv beta iota; try discriminate.
    intros H; injection H as <- <-. split; [reflexivity|].
    exists ex, f. repeat split; auto; apply Hdown; auto.
  - destruct (previewMint env parsedAmount) as [ex|e]; cbv beta iota; try discriminate.
    destruct (slippageUp env) as [f|e]; cbv beta iota; try discriminate.
    intros H; injection H as <- <-. split; [reflexivity|].
    exists ex, f. repeat split; auto.
  - destruct (previewWithdraw env parsedAmount) as [ex|e]; cbv beta iota; try discriminate.
    destruct (slippageUp env) as [f|e]; cbv beta iota; try discriminate.
    intros H; injection H as <- <-. split; [reflexivity|].
    exists ex, f. repeat split; auto.
  - destruct (previewRedeem env parsedAmount) as [ex|e]; cbv beta iota; try discriminate.
    destruct (slippageDown env) as [f|e]; cbv beta iota; try discriminate.
    intros H; injection H as <- <-. split; [reflexivity|].
    exists ex, f. repeat split; auto; apply Hdown; auto.
Qed.

(** X17: [calculateSlippageBound] never throws and never returns early: it
    answers with the bound exactly when the lens and the helper address are
    there, the tolerance is valid and both the preview and the factor
    compute; otherwise with null.  It sends nothing to the signer and sets no
    message. *)
Theorem calculateSlippageBound_total
    (env : @Env Err) (s : @State Err) (parsedAmount : Z) :
  exists r s',
    calculateSlippageBound env parsedAmount s = (Done r, s') /\
    txs s' = txs s /\ error s' = error s /\ success s' = success s /\
    loading s' = loading s /\
    (r <> None <->
     vaultLens env = true /\ helperAddress env = true /\ slippageValid env = true /\
     (exists expected, expectedOf env parsedAmount = Ok expected) /\
     (exists factor, factorOf env = Ok factor)).
Proof.
  unfold expectedOf, factorOf.
  destruct s as [lo er su am co tx]. run_safe_handler.
  assert (Hno : forall (P : Prop), (@None Z <> None <-> P) <-> ~ P).
  { intros P; split; [intros [_ H] p; now apply H | intros np; split; [congruence | tauto]]. }
  assert (Hyes : forall (z : Z) (P : Prop), P -> (Some z <> None <-> P)).
  { intros z P p; split; [auto | discriminate]. }
  destruct (vaultLens env); cbn [negb orb].
  2:{ do 2 eexists; repeat (split; [reflexivity|]). apply Hno. intros (H & _); discriminate. }
  destruct (helperAddress env); cbn [negb orb].
  2:{ do 2 eexists; repeat (split; [reflexivity|]). apply Hno. intros (_ & H & _); discriminate. }
  destruct (slippageValid env); cbn [negb orb].
  2:{ do 2 eexists; repeat (split; [reflexivity|]). apply Hno. intros (_ & _ & H & _); discriminate. }
  destruct (actionType env);
  match goal with |- context [match ?p with Ok _ => _ | Fail _ => _ end] =>
    destruct p as [ex|e]; cbv beta iota end;
  try (do 2 eexists; repeat (split; [reflexivity|]); apply Hno;
       intros (_ & _ & _ & [x Hx] & _); discriminate);
  match goal with |- context [match ?p with Ok _ => _ | Fail _ => _ end] =>
    destruct p as [f|e]; cbv beta iota end;
  try (do 2 eexists; repeat (split; [reflexivity|]); apply Hno;
       intros (_ & _ & _ & _ & [x Hx]); discriminate);
  do 2 eexists; repeat (split; [reflexivity|]); apply Hyes; eauto 10.
Qed.

(** X18: the safe handler always ends with the loading flag cleared, also on
    each of its early returns before the [try]. *)
Theorem safe_handleSubmit_clears_loading (env : @Env Err) (s : @State Err) :
  loading (snd (handleSubmit isUserRejected applyGasSlippage env s)) = false.
Proof.
  unfold handleSubmit, bind, setLoading, setError, setSuccess, set, earlyReturn.
  cbv beta iota.
  destruct (vault env), (address env); cbn [negb orb andb]; try reflexivity.
  destruct (safeHelper env); cbn [negb]; try reflexivity.
  unfold tryCatchFinally.
  match goal with |- context [handleSubmit_try ?a ?b ?c] =>
    destruct (handleSubmit_try a b c) as [[u| |e] s1] end;
    try reflexivity.
  match goal with |- context [handleSubmit_catch ?a ?b ?c ?d] =>
    destruct (handleSubmit_catch a b c d) as [[u| |e'] s2] end; reflexivity.
Qed.

(** X19: a safe withdraw or redeem without Max approves the helper for
    shares first, only when its allowance is short: the slippage bound for a
    withdraw, the entered shares for a redeem.  It then calls the helper with
    the entered amount, that bound and the padded gas estimate. *)
Theorem safe_handleSubmit_share_approval_then_helper
    (env : @Env Err) (s : @State Err) (parsed expected factor allowance gas : Z)
    (Hflags : vault env = true /\ address env = true /\ safeHelper env = true /\
              vaultLens env = true /\ helperAddress env = true /\
              publicProvider env = true /\ slippageValid env = true)
    (Hact : isRedeemOrWithdraw (actionType env) = true)
    (Hmax : isMaxSelected env = false)
    (Hparse : parseUnits env (amount s) = Ok parsed)
    (Hexp : expectedOf env parsed = Ok expected)
    (Hfac : factorOf env = Ok factor) :
  let bound := Z.quot (expected * factor) 10000 in
  let sharesNeeded := match actionType env with withdraw => bound | _ => parsed end in
  vaultLens_allowance env = Ok allowance ->
  vault_approve env sharesNeeded = Ok tt ->
  approveTx_wait env = Ok tt ->
  estimateGas env (actionType env) (isBorrow env) parsed bound = Ok gas ->
  safeHelper_call env (actionType env) (isBorrow env) parsed bound
    (applyGasSlippage gas) = Ok tt ->
  tx_wait env = Ok tt ->
  handleSubmit isUserRejected applyGasSlippage env s =
    (Done tt,
     mkState false None
       (Some (actionNameCapitalized (actionType env) ++ " successful!")%string)
       ""%string (console s)
       (txs s ++ (if allowance <? sharesNeeded then [TxApproveShares sharesNeeded] else [])
              ++ [TxSafe (actionType env) (isBorrow env) parsed bound
                    (applyGasSlippage gas)])).
Proof.
  destruct Hflags as (Hv & Ha & Hsh & Hvl & Hha & Hpp & Hsv).
  destruct s as [lo er su am co tx]. cbn [amount] in Hparse.
  unfold expectedOf, factorOf in *.
  cbv zeta. intros Hal Happrove Hwait Hgas Hcall Htx.
  run_safe_handler.
  rewrite Hv, Ha, Hsh. cbn [negb orb]. rewrite Hparse. cbv beta iota.
  rewrite Hsv, Hvl, Hha, Hmax. cbn [negb orb andb]. cbv beta iota.
  destruct (actionType env) eqn:Hat; try discriminate Hact;
    rewrite Hexp; cbv beta iota; rewrite Hfac; cbv beta iota;
    cbn [needsApproval SAFE_ACTION_CONFIGS isRedeemOrWithdraw];
    rewrite Hpp; cbn [negb orb]; cbv beta iota;
    rewrite Hal; cbv beta iota;
    match goal with |- context [allowance <? ?n] => destruct (allowance <? n) end;
    repeat (progress (run_safe_handler; cbn [negb orb];
                      rewrite ?Happrove, ?Hwait, ?Hgas, ?Hcall, ?Htx, ?Ha, ?Hsh));
    rewrite <- ?app_assoc; reflexivity.
Qed.

End SafeActionHandlerMore.

Lemma calculateSlippageBound_direction_witness :
  safeFormState = safeFormState /\
  exists expected factor,
    SafeActionHandler.expectedOf (safeEnv redeem 0) 5000000000000000000 =
      Effects.Ok expected /\
    SafeActionHandler.factorOf (safeEnv redeem 0) = Effects.Ok factor /\
    4975000000000000000 = Z.quot (expected * factor) 10000 /\
    (0 <= expected ->
     0 <= factor <= 10000 -> 0 <= 4975000000000000000 <= expected).
Proof.
  apply (calculateSlippageBound_direction (safeEnv redeem 0) safeFormState safeFormState
           5000000000000000000 4975000000000000000 eq_refl).
Defined.

Lemma safe_handleSubmit_share_approval_then_helper_witness :
  SafeActionHandler.handleSubmit isUserRejected_example applyGasSlippage_example
    (safeEnv withdraw 0) safeFormState =
  (Effects.Done tt,
   Form.mkState false None (Some "Withdraw successful!"%string) ""%string []
     [SafeActionHandler.TxApproveShares 5025000000000000000;
      SafeActionHandler.TxSafe withdraw true 5000000000000000000
        5025000000000000000 120000]).
Proof.
  apply (safe_handleSubmit_share_approval_then_helper isUserRejected_example
           applyGasSlippage_example (safeEnv withdraw 0) safeFormState
           5000000000000000000 5000000000000000000 10050 0 100000
           (conj eq_refl (conj eq_refl (conj eq_refl (conj eq_refl
              (conj eq_refl (conj eq_refl eq_refl))))))
           eq_refl eq_refl eq_refl eq_refl eq_refl
           eq_refl eq_refl eq_refl eq_refl eq_refl eq_refl).
Defined.
(** ** AuctionHandler: preview legs, submit and Max *)

Section AuctionMore.
Import Effects AuctionHandler AuctionSubmit.
Context {Err : Type}.
Variable isUserRejected : Err -> bool.
Variable applyGasSlippage : Z -> Z.

Ltac run_auction_handler :=
  cbv beta iota zeta delta
    [handleSubmit handleSubmit_try handleSubmit_catch checkAndApproveRequiredAssets
     bind get await ret set earlyReturn tryCatchFinally tryCatch call
     setLoading setError setSuccess setAmount setIsApproving setApprovalError
     setMaxValue console_error request
     snd fst loading error success amount console txs isApproving approvalError
     maxValue].

(** X20: the auction preview provides the entered amount of the auction's
    input token, as its only leg; it receives at most one leg, a positive
    amount of the other underlying token, and never without a provided leg;
    shares appear on neither side. *)
Theorem auction_getReceiveAndProvide_legs
    (a : AuctionType) (amt : option Z) (pd : option PreviewData) :
  let r := getReceiveAndProvide a amt pd in
  (forall l, In l (receive r) ->
     0 < PreviewBox.amount l /\ tokenType l <> inputTokenType a /\ tokenType l <> shares) /\
  (List.length (receive r) <= 1)%nat /\
  (forall l, In l (provide r) ->
     amt = Some (PreviewBox.amount l) /\ PreviewBox.amount l <> 0 /\
     tokenType l = inputTokenType a) /\
  (List.length (provide r) <= 1)%nat /\
  (receive r <> [] -> provide r <> []).
Proof.
  cbv zeta. unfold getReceiveAndProvide.
  destruct amt as [x|]; [|cbn; repeat split; try tauto; lia].
  destruct pd as [[db dc]|]; [|cbn; repeat split; try tauto; lia].
  destruct (Z.eqb_spec x 0); [cbn; repeat split; try tauto; lia|].
  cbn [receive provide deltaBorrow deltaCollateral].
  assert (Hleg : forall d t, t <> shares ->
            (forall l, In l (receiveLeg d t) -> 0 < PreviewBox.amount l /\ tokenType l = t) /\
            (List.length (receiveLeg d t) <= 1)%nat).
  { intros [d|] t Ht; unfold receiveLeg; [|cbn; split; [tauto|lia]].
    destruct (Z.eqb_spec d 0); cbn [negb andb]; [cbn; split; [tauto|lia]|].
    split; [|cbn; lia].
    intros l [<-|[]]. cbn. split; [|reflexivity].
    destruct (Z.ltb_spec d 0); lia. }
  split; [|split; [|split; [|split]]].
  - intros l Hl. destruct a; cbn [inputTokenType].
    + destruct (Hleg dc collateral ltac:(discriminate)) as [H _].
      destruct (H l Hl) as [H1 H2]. rewrite H2. repeat split; [exact H1 | |]; discriminate.
    + destruct (Hleg db borrow ltac:(discriminate)) as [H _].
      destruct (H l Hl) as [H1 H2]. rewrite H2. repeat split; [exact H1 | |]; discriminate.
  - destruct a; apply Hleg; discriminate.
  - intros l [<-|[]]. cbn. auto.
  - cbn. lia.
  - intros _. discriminate.
Qed.

(** X21: the preview shown for an entered amount is made of what the lens
    answers when asked with the signed amount of the auction (the amount
    itself when borrow is provided, its negation when collateral is): the
    receive leg is the absolute value of that answer, of the other token, and
    is absent when the answer is zero, the read rejects or the lens is
    missing. *)
Theorem auction_preview_receive_leg
    (lens : bool) (a : AuctionType) (pc pb : Z -> option Z) (amt : Z)
    (Hamt : amt <> 0) :
  receive (getReceiveAndProvide a (Some amt) (loadPreview lens a pc pb (Some amt))) =
  match (if lens
         then match a with
              | provide_borrow => pc (auctionArg a amt)
              | provide_collateral => pb (auctionArg a amt)
              end
         else None) with
  | Some answer =>
      if answer =? 0 then []
      else [mkLeg (Z.abs answer)
              (match a with provide_borrow => collateral | provide_collateral => borrow end)]
  | None => []
  end.
Proof.
  unfold getReceiveAndProvide, loadPreview, auctionArg.
  destruct lens; cbn [negb]; [|reflexivity].
  assert (Habs : forall d, (if d <? 0 then - d else d) = Z.abs d)
    by (intros d; destruct (Z.ltb_spec d 0); lia).
  destruct a.
  - destruct (pc amt) as [res|]; [|reflexivity].
    destruct (Z.eqb_spec amt 0); [contradiction|].
    cbn [receive deltaCollateral receiveLeg].
    destruct (Z.eqb_spec res 0); cbn [negb andb]; [reflexivity|]. now rewrite Habs.
  - destruct (pb (- amt)) as [res|]; [|reflexivity].
    destruct (Z.eqb_spec amt 0); [contradiction|].
    cbn [receive deltaBorrow receiveLeg].
    destruct (Z.eqb_spec res 0); cbn [negb andb]; [reflexivity|]. now rewrite Habs.
Qed.

(** X23: clicking Max with a maximum loaded makes that maximum the amount,
    and the submit button is then disabled only while loading or
    approving. *)
Theorem auction_handleMaxClick_enables_submit
    (s : @State Err) (m : Z) (Hmax : maxValue s = Some m) :
  amount (handleMaxClick s) = Some m /\
  txs (handleMaxClick s) = txs s /\
  submitDisabled (buttonState (handleMaxClick s)) = loading s || isApproving s.
Proof.
  unfold handleMaxClick, buttonState, submitDisabled. rewrite Hmax.
  cbn. split; [reflexivity|]. split; [reflexivity|].
  rewrite Z.gtb_ltb, Z.ltb_irrefl, !orb_false_r. reflexivity.
Qed.

(** X22: once its guards pass and the gas estimate resolves, the auction
    [handleSubmit] hands the signer the vault call for the signed amount of
    the auction with the padded estimate, whatever became of the approval
    before it: an approval is asked only for a positive amount above the
    allowance, for exactly that amount of the provided token, and its failure
    stays inside [checkAndApproveRequiredAssets].  The handler ends with the
    loading flag cleared; when the call and its receipt resolve the amount
    is cleared and the maximum reloaded. *)
Theorem auction_handleSubmit_sends_signed_amount
    (env : @Env Err) (s : @State Err) (amt gas : Z)
    (Hflags : vault env = true /\ AuctionHandler.vaultLens (base env) = true /\
              address env = true)
    (Hamount : amount s = Some amt)
    (Hnonzero : amt <> 0)
    (Hgas : estimateGas env (auctionTypeOf env) (auctionArg (auctionTypeOf env) amt)
              = Ok gas) :
  let final := snd (handleSubmit isUserRejected applyGasSlippage env s) in
  let execute :=
    TxExecuteAuction (auctionTypeOf env) (auctionArg (auctionTypeOf env) amt)
      (applyGasSlippage gas) in
  (txs final = txs s ++ [execute] \/
   txs final = txs s ++ [TxApprove (inputTokenType (auctionTypeOf env)) amt; execute] /\
   0 < amt /\
   exists allowance,
     token_allowance env (inputTokenType (auctionTypeOf env)) = Ok allowance /\
     allowance < amt) /\
  loading final = false /\
  (vault_execute env (auctionTypeOf env) (auctionArg (auctionTypeOf env) amt)
     (applyGasSlippage gas) = Ok tt ->
   tx_wait env = Ok tt ->
   amount final = None /\
   success final = Some "Auction executed successfully!"%string /\
   error final = None /\
   maxValue final = loadMaxValue (base env) (maxValue s)).
Proof.
  destruct Hflags as (Hv & Hvl & Ha).
  destruct s as [am lo er su ia ae mv co tx]. cbn [amount] in Hamount. subst am.
  cbv zeta. unfold auctionArg in *.
  run_auction_handler.
  rewrite Hv, Hvl, Ha. cbn [negb orb].
  destruct (Z.eqb_spec amt 0); [contradiction|].
  cbn [truthy]. destruct (Z.eqb_spec amt 0); [contradiction|]. cbn [negb orb].
  destruct (vaultAddress env); cbn [negb orb]; cbv beta iota.
  2:{ destruct (auctionTypeOf env); rewrite Hgas; cbv beta iota;
      match goal with |- context [vault_execute ?e ?a ?x ?g] =>
        destruct (vault_execute e a x g) as [[]|e1] end; cbv beta iota;
      try (destruct (isUserRejected e1));
      try (destruct (tx_wait env) as [[]|e2]; cbv beta iota;
           try (destruct (isUserRejected e2)));
      (split; [left; reflexivity | split; [reflexivity | intros; try discriminate; auto]]). }
  destruct (tokenOf env (inputTokenType (auctionTypeOf env)) && (amt >? 0)) eqn:Htok;
    cbv beta iota.
  2:{ destruct (auctionTypeOf env); rewrite Hgas; cbv beta iota;
      match goal with |- context [vault_execute ?e ?a ?x ?g] =>
        destruct (vault_execute e a x g) as [[]|e1] end; cbv beta iota;
      try (destruct (isUserRejected e1));
      try (destruct (tx_wait env) as [[]|e2]; cbv beta iota;
           try (destruct (isUserRejected e2)));
      (split; [left; reflexivity | split; [reflexivity | intros; try discriminate; auto]]). }
  apply andb_true_iff in Htok. destruct Htok as [_ Hpos].
  rewrite Z.gtb_ltb in Hpos. apply Z.ltb_lt in Hpos.
  destruct (token_allowance env (inputTokenType (auctionTypeOf env))) as [al|e0] eqn:Hal;
    cbv beta iota.
  2:{ destruct (isUserRejected e0); cbv beta iota;
      destruct (auctionTypeOf env); rewrite Hgas; cbv beta iota;
      match goal with |- context [vault_execute ?e ?a ?x ?g] =>
        destruct (vault_execute e a x g) as [[]|e1] end; cbv beta iota;
      try (destruct (isUserRejected e1));
      try (destruct (tx_wait env) as [[]|e2]; cbv beta iota;
           try (destruct (isUserRejected e2)));
      (split; [left; reflexivity | split; [reflexivity | intros; try discriminate; auto]]). }
  destruct (Z.ltb_spec al amt); cbv beta iota.
  2:{ destruct (auctionTypeOf env); rewrite Hgas; cbv beta iota;
      match goal with |- context [vault_execute ?e ?a ?x ?g] =>
        destruct (vault_execute e a x g) as [[]|e1] end; cbv beta iota;
      try (destruct (isUserRejected e1));
      try (destruct (tx_wait env) as [[]|e2]; cbv beta iota;
           try (destruct (isUserRejected e2)));
      (split; [left; reflexivity | split; [reflexivity | intros; try discriminate; auto]]). }
  assert (Hright : forall l : list Tx, l = l -> 0 < amt /\
            exists allowance, Ok (Err := Err) al = Ok allowance /\ allowance < amt).
  { intros _ _. split; [exact Hpos|]. exists al. auto. }
  destruct (token_approve env (inputTokenType (auctionTypeOf env)) amt) as [[]|e3];
    cbv beta iota;
    [destruct (approveTx_wait env) as [[]|e4]; cbv beta iota;
     [|destruct (isUserRejected e4); cbv beta iota]
    |destruct (isUserRejected e3); cbv beta iota];
    destruct (auctionTypeOf env); rewrite Hgas; cbv beta iota;
    match goal with |- context [vault_execute ?e ?a ?x ?g] =>
      destruct (vault_execute e a x g) as [[]|e1] end; cbv beta iota;
    try (destruct (isUserRejected e1));
    try (destruct (tx_wait env) as [[]|e2]; cbv beta iota;
         try (destruct (isUserRejected e2)));
    (split; [right; split; [rewrite <- ?app_assoc; reflexivity | apply (Hright []); reflexivity]
            | split; [reflexivity | intros; try discriminate; auto]]).
Qed.

End AuctionMore.

Lemma auction_preview_receive_leg_witness :
  receive (AuctionSubmit.getReceiveAndProvide AuctionHandler.provide_collateral (Some 30)
             (AuctionSubmit.loadPreview true AuctionHandler.provide_collateral
                (fun x => Some x) (fun x => Some (2 * x)) (Some 30))) =
  [mkLeg (Z.abs (2 * - 30)) borrow].
Proof.
  apply (auction_preview_receive_leg true AuctionHandler.provide_collateral
           (fun x => Some x) (fun x => Some (2 * x)) 30 ltac:(lia)).
Defined.

Lemma auction_handleMaxClick_enables_submit_witness :
  AuctionSubmit.amount (AuctionSubmit.handleMaxClick auctionState) = Some 90 /\
  AuctionSubmit.txs (AuctionSubmit.handleMaxClick auctionState) = [] /\
  AuctionHandler.submitDisabled
    (AuctionSubmit.buttonState (AuctionSubmit.handleMaxClick auctionState)) = false.
Proof.
  apply (auction_handleMaxClick_enables_submit auctionState 90 eq_refl).
Defined.

Lemma auction_handleSubmit_sends_signed_amount_witness :
  let final :=
    snd (AuctionSubmit.handleSubmit isUserRejected_example applyGasSlippage_example
           (collateralAuctionEnv (Effects.Fail rejectedBySigner)) auctionState) in
  AuctionSubmit.txs final =
    [AuctionSubmit.TxApprove collateral 30;
     AuctionSubmit.TxExecuteAuction AuctionHandler.provide_collateral (-30) 120000] /\
  AuctionSubmit.approvalError final = Some "Approval canceled by user."%string /\
  AuctionSubmit.amount final = None /\
  AuctionSubmit.success final = Some "Auction executed successfully!"%string.
Proof.
  destruct (auction_handleSubmit_sends_signed_amount isUserRejected_example
              applyGasSlippage_example
              (collateralAuctionEnv (Effects.Fail rejectedBySigner)) auctionState
              30 100000 (conj eq_refl (conj eq_refl eq_refl)) eq_refl ltac:(lia) eq_refl)
    as (Htxs & _ & Hdone).
  destruct (Hdone eq_refl eq_refl) as (Hamount & Hsuccess & _).
  split; [|split; [reflexivity | split; [exact Hamount | exact Hsuccess]]].
  destruct Htxs as [Htxs | [Htxs _]]; [discriminate Htxs | exact Htxs].
Defined.
(** ** Flash-loan handlers: maximum mint, minimum amounts, preview *)

Section FlashLoanMore.
Import NumericUtils.

(** X24: the maximum mint [setMaxMint] sets in a wstETH vault lies between
    zero and the vault's own limit, and within what the user's collateral
    and ETH convert to less the gas reserve; outside a wstETH vault, when the
    guard fails and when any of the three lens reads rejects, the maximum is
    left as it was. *)
Theorem setMaxMint_bounds
    (env : FlashLoanMax.Env) (old : option Z) :
  (FlashLoanMax.isWstETHVault env = false -> FlashLoanMax.setMaxMint env old = old) /\
  (forall fromCollateral fromEth vaultMax,
     FlashLoanMax.ready env = true ->
     FlashLoanMax.isWstETHVault env = true ->
     FlashLoanMax.convertToSharesCollateral env (FlashLoanMax.rawCollateralBalance env)
       = Some fromCollateral ->
     FlashLoanMax.convertToShares env (FlashLoanMax.rawEthBalance env) = Some fromEth ->
     FlashLoanMax.maxLowLevelRebalanceShares env = Some vaultMax ->
     0 <= vaultMax ->
     exists m,
       FlashLoanMax.setMaxMint env old = Some m /\
       0 <= m <= vaultMax /\
       m <= Z.max 0 (fromCollateral + fromEth - 6000000000000000)) /\
  (FlashLoanMax.setMaxMint env old <> old ->
   FlashLoanMax.ready env = true /\ FlashLoanMax.isWstETHVault env = true /\
   FlashLoanMax.maxLowLevelRebalanceShares env <> None) /\
  (FlashLoanMax.ready env = false \/
   FlashLoanMax.convertToSharesCollateral env (FlashLoanMax.rawCollateralBalance env)
     = None \/
   FlashLoanMax.convertToShares env (FlashLoanMax.rawEthBalance env) = None \/
   FlashLoanMax.maxLowLevelRebalanceShares env = None ->
   FlashLoanMax.setMaxMint env old = old).
Proof.
  unfold FlashLoanMax.setMaxMint.
  split; [|split; [|split]].
  - intros ->. destruct (FlashLoanMax.ready env); reflexivity.
  - intros c e v -> -> -> -> -> Hv. cbn [negb]. cbv zeta.
    eexists; split; [reflexivity|].
    unfold FlashLoanMax.applyMaxMintSlippage, NumericUtils.minBigInt,
      NumericUtils.clampToPositive, FlashLoanMax.GAS_RESERVE, NumericUtils.GAS_RESERVE_WEI.
    rewrite Z.gtb_ltb.
    set (u := c + e - 2000000000000000 * 3).
    assert (Hq : forall x, 0 <= x -> 0 <= Z.quot (x * 999999) 1000000 <= x).
    { intros x Hx. split; [apply Z.quot_pos; lia|].
      apply Z.quot_le_upper_bound; lia. }
    destruct (Z.ltb_spec 0 u);
      match goal with |- context [?a <? ?b] => destruct (Z.ltb_spec a b) end;
      match goal with |- context [Z.quot (?x * 999999) 1000000] =>
        pose proof (Hq x ltac:(lia)) end; subst u; lia.
  - destruct (FlashLoanMax.ready env); cbn [negb]; [|congruence].
    destruct (FlashLoanMax.isWstETHVault env); [|congruence].
    destruct (FlashLoanMax.convertToSharesCollateral env _); [|congruence].
    destruct (FlashLoanMax.convertToShares env _); [|congruence].
    destruct (FlashLoanMax.maxLowLevelRebalanceShares env); [|congruence].
    intros _. repeat split; discriminate.
  - intros H.
    destruct (FlashLoanMax.ready env); cbn [negb]; [|reflexivity].
    destruct (FlashLoanMax.isWstETHVault env); [|reflexivity].
    destruct (FlashLoanMax.convertToSharesCollateral env _); [|reflexivity].
    destruct (FlashLoanMax.convertToShares env _); [|reflexivity].
    destruct (FlashLoanMax.maxLowLevelRebalanceShares env); [|reflexivity].
    destruct H as [H|[H|[H|H]]]; discriminate.
Qed.

(** X25: after [loadMinAvailable] has read an imbalance [d], the minimum on
    the side that restores the balance is never below [|d|] and the other
    minimum is zero.  When the debt read rejects on the mint side, the
    minimum redeem is already set to zero while the minimum mint keeps its
    former value; with no preview, or before the handler is ready, nothing
    changes. *)
Theorem loadMinAvailable_covers_imbalance
    (env : FlashLoan.Env) (s : FlashLoan.MinState) :
  let s' := FlashLoan.loadMinAvailable env s in
  (FlashLoan.ready env = false \/ FlashLoan.previewLowLevelRebalanceBorrow0 env = None ->
   s' = s) /\
  (forall d,
     FlashLoan.ready env = true ->
     FlashLoan.previewLowLevelRebalanceBorrow0 env = Some d ->
     (0 < d ->
      FlashLoan.minDown s' = Some 0 /\
      match FlashLoan.debtPrecisionCorrection env with
      | Some c => exists m, FlashLoan.minUp s' = Some m /\ d <= m /\ d + 5 * c <= m
      | None => FlashLoan.minUp s' = FlashLoan.minUp s
      end) /\
     (d < 0 ->
      FlashLoan.minUp s' = Some 0 /\
      exists m, FlashLoan.minDown s' = Some m /\ - d <= m) /\
     (d = 0 -> FlashLoan.minUp s' = Some 0 /\ FlashLoan.minDown s' = Some 0)).
Proof.
  cbv zeta. unfold FlashLoan.loadMinAvailable, FlashLoan.debtPrecisionCorrection.
  split.
  - intros [-> | H]; [reflexivity|].
    destruct (FlashLoan.ready env); cbn [negb]; [rewrite H|]; reflexivity.
  - intros d -> ->. cbn [negb]. rewrite Z.gtb_ltb.
    split; [|split]; intros Hd.
    + destruct (Z.ltb_spec 0 d); [|lia].
      destruct (FlashLoan.variableDebtToken_balanceOf env) as [debt|];
        [|split; reflexivity].
      destruct (FlashLoan.convertToShares env debt) as [sh|]; [|split; reflexivity].
      cbv zeta. split; [reflexivity|].
      eexists; split; [reflexivity|].
      unfold maxBigInt. rewrite Z.gtb_ltb.
      assert (d <= Z.quot (d * 101) 100) by (apply Z.quot_le_lower_bound; lia).
      match goal with |- context [?a <? ?b] => destruct (Z.ltb_spec a b) end; lia.
    + destruct (Z.ltb_spec 0 d); [lia|]. destruct (Z.ltb_spec d 0); [|lia].
      cbv zeta. split; [reflexivity|]. eexists; split; [reflexivity|].
      apply Z.quot_le_lower_bound; lia.
    + subst d. cbn. split; reflexivity.
Qed.

End FlashLoanMore.

Section FlashLoanPreviewMore.
Import NumericUtils Effects FlashLoanPreview.
Context {Err : Type}.
Variable mentionsInvalidRebalanceMode : Err -> bool.

(** X26: for a positive share amount and a present helper, [loadPreview]
    stores the helper's answer less the precision buffer and clears both
    error flags; the lists then pair the entered shares with that amount
    (collateral provided for shares on a mint, shares provided for borrow
    tokens on a redeem), an amount never above the helper's answer.  When the
    helper rejects, no preview is kept, the error flag is raised and both
    lists are empty. *)
Theorem flashLoan_preview_legs
    (env : @Env Err) (s : State) (sharesAmount : Z)
    (Hshares : sharesToProcess env = Some sharesAmount)
    (Hpos : 0 < sharesAmount)
    (Hhelper : match helperType env with
               | helper_mint => mintHelper env
               | helper_redeem => redeemHelper env
               end = true) :
  let s' := loadPreview mentionsInvalidRebalanceMode env s in
  match (match helperType env with
         | helper_mint => previewMintSharesWithFlashLoanCollateral env sharesAmount
         | helper_redeem => previewRedeemSharesWithCurveAndFlashLoanBorrow env sharesAmount
         end) with
  | Ok answer =>
      s' = mkState (Some (reduceByPrecisionBuffer answer)) false false /\
      receiveAndProvide env s' =
        match helperType env with
        | helper_mint =>
            mkLegs [mkLeg sharesAmount shares]
                   [mkLeg (reduceByPrecisionBuffer answer) collateral]
        | helper_redeem =>
            mkLegs [mkLeg (reduceByPrecisionBuffer answer) borrow]
                   [mkLeg sharesAmount shares]
        end /\
      (0 <= answer -> 0 <= reduceByPrecisionBuffer answer <= answer)
  | Fail err =>
      s' = mkState None true (mentionsInvalidRebalanceMode err) /\
      receiveAndProvide env s' = mkLegs [] []
  end.
Proof.
  cbv zeta. unfold loadPreview, isValid, receiveAndProvide.
  rewrite Hshares, Hhelper, Z.gtb_ltb.
  destruct (Z.ltb_spec 0 sharesAmount); [|lia]. cbn [negb andb].
  destruct (Z.eqb_spec sharesAmount 0); [lia|]. cbn [negb andb].
  destruct (helperType env).
  - destruct (previewMintSharesWithFlashLoanCollateral env sharesAmount) as [a|e].
    + cbn [previewData]. split; [reflexivity|]. split; [reflexivity|].
      intros Ha. unfold reduceByPrecisionBuffer. cbv zeta. split.
      * apply Z.quot_pos; lia.
      * apply Z.quot_le_upper_bound; lia.
    + cbn [previewData]. split; [|reflexivity].
      destruct (mentionsInvalidRebalanceMode e); reflexivity.
  - destruct (previewRedeemSharesWithCurveAndFlashLoanBorrow env sharesAmount) as [a|e].
    + cbn [previewData]. split; [reflexivity|]. split; [reflexivity|].
      intros Ha. unfold reduceByPrecisionBuffer. cbv zeta. split.
      * apply Z.quot_pos; lia.
      * apply Z.quot_le_upper_bound; lia.
    + cbn [previewData]. split; [|reflexivity].
      destruct (mentionsInvalidRebalanceMode e); reflexivity.
Qed.

End FlashLoanPreviewMore.

(** ** Action preview, tabs and collateral redemption *)

Section ActionPreviewMore.
Import ActionPreview.


End ActionPreviewMore.

Section TabsMore.
Context {T : Type}.
Variable eqb : T -> T -> bool.
Hypothesis eqb_eq : forall a b, eqb a b = true <-> a = b.

(** X28: while an action is processing no run of clicks changes the active
    tab; otherwise the last click decides. *)
Theorem tabs_locked_while_processing
    (isProcessing : bool) (activeTab : T) (tabs : list T) :
  Tabs.clicks eqb isProcessing activeTab tabs =
  if isProcessing then activeTab else last tabs activeTab.
Proof.
  unfold Tabs.clicks. revert activeTab.
  induction tabs as [|tab rest IH]; intros activeTab.
  - destruct isProcessing; reflexivity.
  - cbn [fold_left]. rewrite IH. unfold Tabs.safeSetActiveTab.
    destruct isProcessing; cbn [andb].
    + destruct (eqb tab activeTab) eqn:E; cbn [negb]; [|reflexivity].
      now apply eqb_eq in E.
    + destruct rest as [|t rest]; [reflexivity|].
      change (last (tab :: t :: rest) activeTab) with (last (t :: rest) activeTab).
      generalize t tab activeTab. clear.
      induction rest as [|u rest IHr]; intros t d d'; [reflexivity|].
      change (last (t :: u :: rest) d) with (last (u :: rest) d).
      change (last (t :: u :: rest) d') with (last (u :: rest) d').
      apply IHr.
Qed.

End TabsMore.

Section RedeemCollateralMore.
Import Effects Form RedeemCollateral.
Context {Err : Type}.
Variable isUserRejected : Err -> bool.

(** X29: with the address and the vault there, [handleRedeem] asks the
    signer for a redemption exactly when both the entered amount and the
    context's maximum parse and the amount does not exceed that maximum; the
    request then carries the parsed amount.  An amount above the maximum is
    answered with "Amount higher than available.", and the handler always
    ends with the loading flag cleared. *)
Theorem handleRedeem_guarded_by_context_max
    (env : @Env Err) (s : @State Err)
    (Haddress : address env = true) (Hvault : vault env = true) :
  let final := snd (handleRedeem isUserRejected env s) in
  loading final = false /\
  match parseUnits env (amount s), parseUnits env (maxRedeemCollateral env) with
  | Ok amountToRedeem, Ok maxAvailable =>
      if maxAvailable <? amountToRedeem then
        txs final = txs s /\ error final = Some "Amount higher than available."%string
      else
        txs final = txs s ++ [TxRedeemCollateral amountToRedeem] /\
        (vault_redeemCollateral env amountToRedeem = Ok tt ->
         redeemTx_wait env = Ok tt ->
         success final = Some "Redemption successful!"%string /\
         amount final = ""%string /\ error final = None)
  | _, _ => txs final = txs s /\ error final <> None
  end.
Proof.
  destruct s as [lo er su am co tx]. cbv zeta.
  cbv beta iota zeta delta
    [handleRedeem handleRedeem_try handleRedeem_catch
     bind get await ret set earlyReturn tryCatchFinally
     setLoading setError setSuccess setAmount console_error request
     snd fst loading error success amount console txs].
  rewrite Haddress, Hvault. cbn [negb orb].
  destruct (parseUnits env am) as [a|e]; cbv beta iota.
  2:{ destruct (isUserRejected e); cbn; repeat split; discriminate. }
  destruct (parseUnits env (maxRedeemCollateral env)) as [m|e]; cbv beta iota.
  2:{ destruct (isUserRejected e); cbn; repeat split; discriminate. }
  destruct (m <? a); cbv beta iota; [cbn; auto|].
  destruct (vault_redeemCollateral env a) as [[]|e]; cbv beta iota.
  2:{ destruct (isUserRejected e); cbn; repeat split; intros; discriminate. }
  destruct (redeemTx_wait env) as [[]|e]; cbv beta iota.
  2:{ destruct (isUserRejected e); cbn; repeat split; intros; discriminate. }
  cbn. auto.
Qed.

End RedeemCollateralMore.

Lemma setMaxMint_bounds_witness :
  exists m,
    FlashLoanMax.setMaxMint maxMintEnv None = Some m /\
    0 <= m <= 500000000000000000 /\
    m <= Z.max 0 (2000000000000000000 + 1000000000000000000 - 6000000000000000).
Proof.
  destruct (setMaxMint_bounds maxMintEnv None) as (_ & H & _).
  apply (H 2000000000000000000 1000000000000000000 500000000000000000
           eq_refl eq_refl eq_refl eq_refl eq_refl ltac:(lia)).
Defined.

Lemma loadMinAvailable_covers_imbalance_witness :
  FlashLoan.minDown (FlashLoan.loadMinAvailable mintSideEnv (FlashLoan.mkMin None None))
    = Some 0 /\
  match FlashLoan.debtPrecisionCorrection mintSideEnv with
  | Some c =>
      exists m,
        FlashLoan.minUp (FlashLoan.loadMinAvailable mintSideEnv (FlashLoan.mkMin None None))
          = Some m /\ 10000 <= m /\ 10000 + 5 * c <= m
  | None =>
      FlashLoan.minUp (FlashLoan.loadMinAvailable mintSideEnv (FlashLoan.mkMin None None))
        = FlashLoan.minUp (FlashLoan.mkMin None None)
  end.
Proof.
  destruct (loadMinAvailable_covers_imbalance mintSideEnv (FlashLoan.mkMin None None))
    as (_ & H).
  destruct (H 10000 eq_refl eq_refl) as (Hmint & _).
  apply Hmint. lia.
Defined.

Lemma flashLoan_preview_legs_witness :
  FlashLoanPreview.loadPreview (fun _ : string => false) flashPreviewEnv
    (FlashLoanPreview.mkState None true true) =
    FlashLoanPreview.mkState (Some (NumericUtils.reduceByPrecisionBuffer 3000)) false false /\
  FlashLoanPreview.receiveAndProvide flashPreviewEnv
    (FlashLoanPreview.loadPreview (fun _ : string => false) flashPreviewEnv
       (FlashLoanPreview.mkState None true true)) =
    mkLegs [mkLeg 1000 shares]
           [mkLeg (NumericUtils.reduceByPrecisionBuffer 3000) collateral] /\
  (0 <= 3000 -> 0 <= NumericUtils.reduceByPrecisionBuffer 3000 <= 3000).
Proof.
  apply (flashLoan_preview_legs (fun _ : string => false) flashPreviewEnv
           (FlashLoanPreview.mkState None true true) 1000 eq_refl ltac:(lia) eq_refl).
Defined.

Lemma ActionType_eqb_eq (a b : ActionType) : ActionType_eqb a b = true <-> a = b.
Proof. destruct a, b; cbn; split; congruence. Qed.

Lemma tabs_locked_while_processing_witness :
  Tabs.clicks ActionType_eqb true deposit [redeem; mint; deposit; withdraw] = deposit.
Proof.
  apply (tabs_locked_while_processing ActionType_eqb ActionType_eqb_eq true deposit
           [redeem; mint; deposit; withdraw]).
Defined.

Lemma handleRedeem_guarded_by_context_max_witness :
  let final :=
    snd (RedeemCollateral.handleRedeem isUserRejected_example redeemCollateralEnv
           redeemCollateralState) in
  Form.loading final = false /\
  Form.txs final =
    Form.txs redeemCollateralState ++
    [RedeemCollateral.TxRedeemCollateral 5000000000000000000] /\
  (RedeemCollateral.vault_redeemCollateral redeemCollateralEnv 5000000000000000000
     = Effects.Ok tt ->
   RedeemCollateral.redeemTx_wait redeemCollateralEnv = Effects.Ok tt ->
   Form.success final = Some "Redemption successful!"%string /\
   Form.amount final = ""%string /\ Form.error final = None).
Proof.
  apply (handleRedeem_guarded_by_context_max isUserRejected_example redeemCollateralEnv
           redeemCollateralState eq_refl eq_refl).
Defined.
(** ** A declined signature, wherever it is caught *)

Section ApprovalFailure.
Import Effects LowLevelRebalanceHandler.
Context {Err : Type}.
Variable isUserRejected : Err -> bool.
Variable applyGasSlippage : Z -> Z.
Variable env : @Env Err.

(** A failure of the approval loop ends in the [catch] of
    [checkAndApproveRequiredAssets], which completes normally. *)
Lemma checkAndApprove_failure (s s2 : @State Err) (pd : PreviewData) (e : Err) :
  previewData s = Some pd ->
  address env = true -> vaultAddress env = true ->
  approveEach env
    (provide (getReceiveAndProvide (rebalanceType env) (amount s) (Some pd)))
    false true (approving s) = (Thrown e, s2) ->
  checkAndApproveRequiredAssets isUserRejected env s =
    (Done tt, approvalFailed isUserRejected e s2).
Proof.
  intros Hpd Ha Hva Hloop.
  destruct s as [iv am lo er su ia ae pd0 co tx]. cbn [previewData amount] in *.
  subst pd0. unfold approving in Hloop.
  cbn [inputValue amount loading error success isApproving approvalError
       previewData console txs] in Hloop.
  cbv beta iota zeta delta
    [checkAndApproveRequiredAssets call bind get set earlyReturn tryCatchFinally ret
     setIsApproving setApprovalError setSuccess console_error
     inputValue amount loading error success isApproving approvalError
     previewData console txs fst snd].
  rewrite Ha, Hva. cbn [negb orb]. cbv beta iota.
  destruct (provide (getReceiveAndProvide (rebalanceType env) am (Some pd)))
    as [|item rest].
  - cbn in Hloop. discriminate Hloop.
  - rewrite Hloop. cbv beta iota. unfold approvalFailed.
    destruct s2 as [iv2 am2 lo2 er2 su2 ia2 ae2 pd2 co2 tx2].
    destruct (isUserRejected e); reflexivity.
Qed.

(** When the approval loop of a submission fails, the submission goes on:
    the failure is kept in [approvalError] and the rebalance is requested as
    if nothing had happened. *)
Lemma rebalance_handleSubmit_approval_failure
    (rs s2 : @State Err) (pd : PreviewData) (a : Z) (e : Err) :
  vault env = true -> vaultLens_present env = true -> address env = true ->
  vaultAddress env = true ->
  amount rs = Some a -> a <> 0 -> previewData rs = Some pd ->
  approveEach env
    (provide (getReceiveAndProvide (rebalanceType env) (Some a) (Some pd)))
    false true (approving (snd (handleSubmit_reset rs))) = (Thrown e, s2) ->
  let final := snd (handleSubmit isUserRejected applyGasSlippage env rs) in
  approvalError final =
    Some (if isUserRejected e then "Approval canceled by user."
          else "Failed to approve required tokens.")%string /\
  isApproving final = false /\ loading final = false /\
  (forall g,
     rebalanceType env = shares -> estimateGas_shares env a = Ok g ->
     txs final = txs s2 ++ [TxRebalanceShares a (applyGasSlippage g)] /\
     (vault_execute env (TxRebalanceShares a (applyGasSlippage g)) = Ok tt ->
      tx_wait env = Ok tt ->
      error final = None /\
      success final = Some "Low level rebalance executed successfully!"%string /\
      console final = console (approvalFailed isUserRejected e s2))) /\
  (forall d g,
     rebalanceType env <> shares ->
     previewOf env (rebalanceType env) a = Ok (Some d) -> d <> 0 ->
     estimateOf env (rebalanceType env) a (d >=? 0) = Ok g ->
     txs final =
       txs s2 ++ [hintTx (rebalanceType env) a (d >=? 0) (applyGasSlippage g)] /\
     (vault_execute env (hintTx (rebalanceType env) a (d >=? 0) (applyGasSlippage g))
        = Ok tt ->
      tx_wait env = Ok tt ->
      error final = None /\
      success final = Some "Low level rebalance executed successfully!"%string /\
      console final = console (approvalFailed isUserRejected e s2))).
Proof.
  intros Hv Hl Ha Hva Ham Hnz Hpd Hloop. cbv zeta.
  destruct rs as [iv am lo er su ia ae pd0 co tx]. cbn [amount previewData] in Ham, Hpd.
  subst am pd0.
  assert (Hreset :
    handleSubmit_reset (mkState iv (Some a) lo er su ia ae (Some pd) co tx) =
    (Done tt, mkState iv (Some a) true None None ia None (Some pd) co tx))
    by reflexivity.
  rewrite Hreset in Hloop. cbn [snd] in Hloop.
  match type of Hloop with approveEach _ ?items _ _ ?s1 = _ =>
    pose proof (keeps_approveEach env items false true s1) as Hkeep end.
  rewrite Hloop in Hkeep. cbn [snd] in Hkeep.
  destruct Hkeep as (Her & Hlo & _).
  remember (handleSubmit isUserRejected applyGasSlippage env
              (mkState iv (Some a) lo er su ia ae (Some pd) co tx)) as res eqn:Eres.
  unfold handleSubmit in Eres. unfold bind at 1, get in Eres. rewrite Hv, Hl, Ha in Eres.
  cbn [negb orb amount] in Eres. destruct (Z.eqb_spec a 0); [contradiction|].
  unfold bind at 1 in Eres. rewrite Hreset in Eres.
  unfold tryCatchFinally, handleSubmit_try in Eres. unfold bind at 1 in Eres.
  rewrite (checkAndApprove_failure
             (mkState iv (Some a) true None None ia None (Some pd) co tx) s2 pd e
             eq_refl Ha Hva Hloop) in Eres.
  unfold approvalFailed in *.
  destruct s2 as [iv2 am2 lo2 er2 su2 ia2 ae2 pd2 co2 tx2].
  cbn [error loading approving inputValue amount success isApproving approvalError
       previewData console txs] in Her, Hlo, Eres |- *.
  subst er2 lo2.
  unfold previewOf, estimateOf, hintTx.
  cbv beta iota zeta delta
    [handleSubmit_catch bind await ret set request noDelta earlyReturn
     setLoading setError setSuccess setInputValue setAmount console_error
     inputValue amount loading error success isApproving approvalError
     previewData console txs fst snd] in Eres.
  split; [|split; [|split; [|split]]].
  4:{ intros g Ht Hg. rewrite Ht, Hg in Eres. cbv beta iota in Eres.
      destruct (vault_execute env (TxRebalanceShares a (applyGasSlippage g))) as [[]|e1];
        cbv beta iota in Eres;
        [destruct (tx_wait env) as [[]|e2]; cbv beta iota in Eres;
         [|destruct (isUserRejected e2)]
        |destruct (isUserRejected e1)];
        subst res;
        (split; [reflexivity | intros; try discriminate; auto]). }
  4:{ intros d g Ht Hd Hdz Hg.
      destruct (rebalanceType env); [congruence| |];
      rewrite Hd in Eres; cbv beta iota in Eres;
      (destruct (Z.eqb_spec d 0); [contradiction|]); cbv beta iota in Eres;
      rewrite Hg in Eres; cbv beta iota in Eres;
      match type of Eres with context [vault_execute env ?t] =>
        destruct (vault_execute env t) as [[]|e1] end;
      cbv beta iota in Eres;
      [destruct (tx_wait env) as [[]|e2]; cbv beta iota in Eres;
         [|destruct (isUserRejected e2)]
        |destruct (isUserRejected e1)
      |destruct (tx_wait env) as [[]|e2]; cbv beta iota in Eres;
         [|destruct (isUserRejected e2)]
        |destruct (isUserRejected e1)];
      subst res;
      (split; [reflexivity | intros; try discriminate; auto]). }
  all: destruct (rebalanceType env);
       repeat match type of Eres with
       | context [match ?r with Ok _ => _ | Fail _ => _ end] =>
           destruct r as [?|?]; cbv beta iota in Eres
       | context [match ?o with Some _ => _ | None => _ end] =>
           destruct o as [?|]; cbv beta iota in Eres
       | context [if ?b then _ else _] => destruct b; cbv beta iota in Eres
       end; subst res; reflexivity.
Qed.

End ApprovalFailure.

Section DeclinedRequests.
Import Effects.
Context {Err : Type}.
Variable isUserRejected : Err -> bool.
Variable applyGasSlippage : Z -> Z.

(** In the action handler a rejected approval of a deposit or mint ends in
    the [catch] of [handleSubmit]. *)
Lemma action_handleSubmit_approval_rejected
    (env : @ActionHandler.Env Err) (s : @ActionHandler.State Err)
    (parsed needed balance allowance : Z) (e : Err) :
  ActionHandler.vault env = true /\ ActionHandler.address env = true /\
  ActionHandler.publicProvider env = true /\ ActionHandler.tokenLens env = true /\
  ActionHandler.token env = true /\ ActionHandler.vaultLens env = true ->
  ActionHandler.needsApproval (ActionHandler.ACTION_CONFIGS (ActionHandler.actionType env))
    = true ->
  ActionHandler.parseUnits env (Form.amount s) = Ok parsed ->
  match ActionHandler.actionType env with
  | mint => (if ActionHandler.isBorrow env then ActionHandler.previewMint env parsed
             else ActionHandler.previewMintCollateral env parsed) = Ok needed
  | _ => needed = parsed
  end ->
  ActionHandler.tokenLens_balanceOf env = Ok balance -> needed <= balance ->
  ActionHandler.tokenLens_allowance env = Ok allowance -> allowance < needed ->
  ActionHandler.token_approve env needed = Fail e ->
  let final := snd (ActionHandler.handleSubmit isUserRejected applyGasSlippage env s) in
  Form.error final =
    Some (if isUserRejected e then "Transaction canceled by user."
          else "Failed to " ++ actionName (ActionHandler.actionType env) ++ ".")%string /\
  Form.txs final = Form.txs s ++ [ActionHandler.TxApprove needed] /\
  Form.loading final = false.
Proof.
  intros (Hv & Ha & Hpp & Htl & Ht & Hvl) Hact Hparse Hneeded Hbal Henough Hal Hshort Happ.
  destruct s as [lo er su am co tx]. cbn [Form.amount] in Hparse. cbv zeta.
  cbv beta iota zeta delta
    [ActionHandler.handleSubmit ActionHandler.handleSubmit_try
     ActionHandler.handleSubmit_catch ActionHandler.refetchMaxBeforeTx
     ActionHandler.executeVaultMethod ActionHandler.handleApproval
     ActionHandler.handleWrapIfNeeded
     bind get await ret set earlyReturn tryCatchFinally tryCatch
     Form.setLoading Form.setError Form.setSuccess Form.setAmount Form.console_error
     Form.request snd fst Form.loading Form.error Form.success Form.amount
     Form.console Form.txs].
  rewrite Hv, Ha. cbn [negb orb]. rewrite Hparse. cbv beta iota.
  rewrite Hact, Hpp, Htl, Ht, Hvl, Hbal. cbn [negb orb]. cbv beta iota.
  assert (Hsplit : ActionHandler.actionType env = deposit /\ needed = parsed \/
                   ActionHandler.actionType env = mint /\
                   (if ActionHandler.isBorrow env then ActionHandler.previewMint env parsed
                    else ActionHandler.previewMintCollateral env parsed) = Ok needed).
  { destruct (ActionHandler.actionType env); try discriminate Hact; auto. }
  destruct Hsplit as [[Hat Hn]|[Hat Hn]]; rewrite Hat in *; cbv beta iota.
  - rewrite Hn in *.
    destruct (Z.geb_spec balance parsed); [|lia]. cbn [negb]. cbv beta iota.
    rewrite Hal. cbv beta iota.
    destruct (Z.ltb_spec allowance parsed); [|lia]. cbv beta iota.
    rewrite Happ. cbv beta iota.
    destruct (isUserRejected e); cbn; auto.
  - rewrite Hn. cbv beta iota.
    destruct (Z.geb_spec balance needed); [|lia]. cbn [negb]. cbv beta iota.
    rewrite Hal. cbv beta iota.
    destruct (Z.ltb_spec allowance needed); [|lia]. cbv beta iota.
    rewrite Happ. cbv beta iota.
    destruct (isUserRejected e); cbn; auto.
Qed.

(** In the action handler a rejected vault call of a withdraw or redeem
    without Max ends in the [catch] of [handleSubmit]. *)
Lemma action_handleSubmit_call_rejected
    (env : @ActionHandler.Env Err) (s : @ActionHandler.State Err)
    (parsed gas : Z) (e : Err) :
  ActionHandler.vault env = true -> ActionHandler.address env = true ->
  ActionHandler.vaultLens env = true ->
  isRedeemOrWithdraw (ActionHandler.actionType env) = true ->
  ActionHandler.isMaxSelected env = false ->
  ActionHandler.parseUnits env (Form.amount s) = Ok parsed ->
  ActionHandler.estimateGas env (ActionHandler.actionType env) (ActionHandler.isBorrow env)
    parsed = Ok gas ->
  ActionHandler.vault_call env (ActionHandler.actionType env) (ActionHandler.isBorrow env)
    parsed (applyGasSlippage gas) = Fail e ->
  let final := snd (ActionHandler.handleSubmit isUserRejected applyGasSlippage env s) in
  Form.error final =
    Some (if isUserRejected e then "Transaction canceled by user."
          else "Failed to " ++ actionName (ActionHandler.actionType env) ++ ".")%string /\
  Form.txs final =
    Form.txs s ++ [ActionHandler.TxVault (ActionHandler.actionType env)
                     (ActionHandler.isBorrow env) parsed (applyGasSlippage gas)] /\
  Form.loading final = false.
Proof.
  intros Hv Ha Hvl Hact Hmax Hparse Hgas Hcall.
  destruct s as [lo er su am co tx]. cbn [Form.amount] in Hparse. cbv zeta.
  cbv beta iota zeta delta
    [ActionHandler.handleSubmit ActionHandler.handleSubmit_try
     ActionHandler.handleSubmit_catch ActionHandler.refetchMaxBeforeTx
     ActionHandler.executeVaultMethod ActionHandler.handleApproval
     ActionHandler.handleWrapIfNeeded
     bind get await ret set earlyReturn tryCatchFinally tryCatch
     Form.setLoading Form.setError Form.setSuccess Form.setAmount Form.console_error
     Form.request snd fst Form.loading Form.error Form.success Form.amount
     Form.console Form.txs].
  rewrite Hv, Ha. cbn [negb orb]. rewrite Hparse. cbv beta iota.
  assert (Hcfg : ActionHandler.needsApproval
                   (ActionHandler.ACTION_CONFIGS (ActionHandler.actionType env)) = false)
    by (destruct (ActionHandler.actionType env); try discriminate Hact; reflexivity).
  rewrite Hcfg, Hmax, Hvl. cbn [negb orb andb]. cbv beta iota.
  rewrite Hgas. cbv beta iota. rewrite Hcall. cbv beta iota.
  destruct (isUserRejected e); cbn; auto.
Qed.

(** In the rebalance handler a rejected rebalance call ends in the [catch]
    of [handleSubmit], whatever the approval step did before. *)
Lemma rebalance_handleSubmit_call_rejected
    (renv : @LowLevelRebalanceHandler.Env Err)
    (rs : @LowLevelRebalanceHandler.State Err) (a : Z) (e : Err) :
  LowLevelRebalanceHandler.vault renv = true ->
  LowLevelRebalanceHandler.vaultLens_present renv = true ->
  LowLevelRebalanceHandler.address renv = true ->
  LowLevelRebalanceHandler.amount rs = Some a -> a <> 0 ->
  let rfinal :=
    snd (LowLevelRebalanceHandler.handleSubmit isUserRejected applyGasSlippage renv rs) in
  (forall g,
     LowLevelRebalanceHandler.rebalanceType renv = shares ->
     LowLevelRebalanceHandler.estimateGas_shares renv a = Ok g ->
     LowLevelRebalanceHandler.vault_execute renv
       (LowLevelRebalanceHandler.TxRebalanceShares a (applyGasSlippage g)) = Fail e ->
     LowLevelRebalanceHandler.error rfinal =
       Some (if isUserRejected e then "Transaction canceled by user."
             else "Failed to execute low level rebalance.")%string /\
     LowLevelRebalanceHandler.loading rfinal = false) /\
  (forall d g,
     LowLevelRebalanceHandler.rebalanceType renv <> shares ->
     LowLevelRebalanceHandler.previewOf renv
       (LowLevelRebalanceHandler.rebalanceType renv) a = Ok (Some d) ->
     d <> 0 ->
     LowLevelRebalanceHandler.estimateOf renv
       (LowLevelRebalanceHandler.rebalanceType renv) a (d >=? 0) = Ok g ->
     LowLevelRebalanceHandler.vault_execute renv
       (LowLevelRebalanceHandler.hintTx
          (LowLevelRebalanceHandler.rebalanceType renv) a (d >=? 0)
          (applyGasSlippage g)) = Fail e ->
     LowLevelRebalanceHandler.error rfinal =
       Some (if isUserRejected e then "Transaction canceled by user."
             else "Failed to execute low level rebalance.")%string /\
     LowLevelRebalanceHandler.loading rfinal = false).
Proof.
  intros Hv Hl Ha Ham Hnz. cbv zeta.
  remember (LowLevelRebalanceHandler.handleSubmit isUserRejected applyGasSlippage renv rs)
    as res eqn:Eres.
  unfold LowLevelRebalanceHandler.handleSubmit in Eres. unfold bind at 1, get in Eres.
  rewrite Hv, Hl, Ha, Ham in Eres. cbn [negb orb] in Eres.
  destruct (Z.eqb_spec a 0); [contradiction|].
  unfold bind at 1 in Eres.
  destruct (LowLevelRebalanceHandler.handleSubmit_reset rs) as [o0 s0] eqn:Ereset.
  assert (Hs0 : o0 = Done tt).
  { destruct rs. cbv in Ereset. injection Ereset as <- _. reflexivity. }
  subst o0.
  unfold tryCatchFinally, LowLevelRebalanceHandler.handleSubmit_try in Eres.
  unfold bind at 1 in Eres.
  pose proof (checkAndApprove_done isUserRejected renv s0) as Hdone.
  destruct (LowLevelRebalanceHandler.checkAndApproveRequiredAssets isUserRejected renv s0)
    as [o1 s1].
  cbn [fst] in Hdone. subst o1.
  destruct s1 as [iv am lo er su ia ae pd co tx].
  unfold LowLevelRebalanceHandler.previewOf, LowLevelRebalanceHandler.estimateOf,
    LowLevelRebalanceHandler.hintTx.
  cbv beta iota zeta delta
    [LowLevelRebalanceHandler.handleSubmit_catch bind await ret set
     LowLevelRebalanceHandler.request LowLevelRebalanceHandler.noDelta earlyReturn
     LowLevelRebalanceHandler.setLoading LowLevelRebalanceHandler.setError
     LowLevelRebalanceHandler.setSuccess LowLevelRebalanceHandler.setInputValue
     LowLevelRebalanceHandler.setAmount LowLevelRebalanceHandler.console_error
     LowLevelRebalanceHandler.inputValue LowLevelRebalanceHandler.amount
     LowLevelRebalanceHandler.loading LowLevelRebalanceHandler.error
     LowLevelRebalanceHandler.success LowLevelRebalanceHandler.isApproving
     LowLevelRebalanceHandler.approvalError LowLevelRebalanceHandler.previewData
     LowLevelRebalanceHandler.console LowLevelRebalanceHandler.txs fst snd] in Eres.
  split.
  - intros g Ht Hg Hcall. rewrite Ht, Hg in Eres. cbv beta iota in Eres.
    rewrite Hcall in Eres. cbv beta iota in Eres.
    destruct (isUserRejected e); subst res; cbn; auto.
  - intros d g Ht Hd Hdz Hg Hcall.
    destruct (LowLevelRebalanceHandler.rebalanceType renv); [congruence| |];
      rewrite Hd in Eres; cbv beta iota in Eres;
      (destruct (Z.eqb_spec d 0); [contradiction|]); cbv beta iota in Eres;
      rewrite Hg in Eres; cbv beta iota in Eres;
      rewrite Hcall in Eres; cbv beta iota in Eres;
      destruct (isUserRejected e); subst res; cbn; auto.
Qed.

End DeclinedRequests.

Section DeclinedSignatureClassified.
Import Effects.

(** C7, amended: a declined signature is not silent; it is classified by
    [isUserRejected] where it is caught.  Whatever failure the [try] block of
    [handleSubmit] throws sets the error message "Transaction canceled by
    user." and logs nothing when it is a user rejection, and otherwise sets
    the handler's failure message ("Failed to <action>.", "Failed to execute
    low level rebalance.") and logs the error; the message is shown and the
    loading flag cleared.  This is where a rejected approval of a deposit or
    mint and a rejected vault call of a withdraw or redeem end in the action
    handler, and a rejected rebalance call in the rebalance handler.  In the
    rebalance handler the approval step never throws: a failure of its loop
    is caught inside [checkAndApproveRequiredAssets], which sets
    [approvalError] to "Approval canceled by user." for a user rejection and
    to "Failed to approve required tokens." otherwise, and the submission
    goes on: once the preview and the gas estimate of the rebalance resolve
    the rebalance is requested, and the submission ends without an error
    message when the rebalance goes through. *)
Theorem submission_failure_classified
    {Err : Type} (isUserRejected : Err -> bool) (applyGasSlippage : Z -> Z) :
  (forall (env : @ActionHandler.Env Err) (s s1 : @ActionHandler.State Err) (err : Err),
     ActionHandler.vault env = true ->
     ActionHandler.address env = true ->
     ActionHandler.handleSubmit_try applyGasSlippage env (ActionHandler.actionReset s)
       = (Thrown err, s1) ->
     let final := snd (ActionHandler.handleSubmit isUserRejected applyGasSlippage env s) in
     Form.errorShown final = true /\ Form.loading final = false /\
     Form.txs final = Form.txs s1 /\
     (isUserRejected err = true ->
      Form.error final = Some "Transaction canceled by user."%string /\
      Form.console final = Form.console s1) /\
     (isUserRejected err = false ->
      Form.error final =
        Some ("Failed to " ++ actionName (ActionHandler.actionType env) ++ ".")%string /\
      Form.console final =
        Form.console s1 ++
        [Log ("Failed to " ++ actionName (ActionHandler.actionType env) ++ ": ")%string
             (Some err)])) /\
  (forall (renv : @LowLevelRebalanceHandler.Env Err)
          (rs rs1 : @LowLevelRebalanceHandler.State Err) (a : Z) (rerr : Err),
     LowLevelRebalanceHandler.vault renv = true ->
     LowLevelRebalanceHandler.vaultLens_present renv = true ->
     LowLevelRebalanceHandler.address renv = true ->
     LowLevelRebalanceHandler.amount rs = Some a -> a <> 0 ->
     LowLevelRebalanceHandler.handleSubmit_try isUserRejected applyGasSlippage
       renv a (snd (LowLevelRebalanceHandler.handleSubmit_reset rs))
       = (Thrown rerr, rs1) ->
     let rfinal :=
       snd (LowLevelRebalanceHandler.handleSubmit isUserRejected applyGasSlippage renv rs) in
     LowLevelRebalanceHandler.errorShown rfinal = true /\
     LowLevelRebalanceHandler.loading rfinal = false /\
     LowLevelRebalanceHandler.txs rfinal = LowLevelRebalanceHandler.txs rs1 /\
     (isUserRejected rerr = true ->
      LowLevelRebalanceHandler.error rfinal = Some "Transaction canceled by user."%string /\
      LowLevelRebalanceHandler.console rfinal = LowLevelRebalanceHandler.console rs1) /\
     (isUserRejected rerr = false ->
      LowLevelRebalanceHandler.error rfinal =
        Some "Failed to execute low level rebalance."%string /\
      LowLevelRebalanceHandler.console rfinal =
        LowLevelRebalanceHandler.console rs1 ++
        [Log "Failed to execute low level rebalance:"%string (Some rerr)])) /\
  (forall (renv : @LowLevelRebalanceHandler.Env Err)
          (rs : @LowLevelRebalanceHandler.State Err),
     fst (LowLevelRebalanceHandler.checkAndApproveRequiredAssets isUserRejected renv rs)
       = Done tt) /\
  (forall (renv : @LowLevelRebalanceHandler.Env Err)
          (rs s2 : @LowLevelRebalanceHandler.State Err)
          (pd : LowLevelRebalanceHandler.PreviewData) (a : Z) (e : Err),
     LowLevelRebalanceHandler.vault renv = true ->
     LowLevelRebalanceHandler.vaultLens_present renv = true ->
     LowLevelRebalanceHandler.address renv = true ->
     LowLevelRebalanceHandler.vaultAddress renv = true ->
     LowLevelRebalanceHandler.amount rs = Some a -> a <> 0 ->
     LowLevelRebalanceHandler.previewData rs = Some pd ->
     LowLevelRebalanceHandler.approveEach renv
       (provide (LowLevelRebalanceHandler.getReceiveAndProvide
                   (LowLevelRebalanceHandler.rebalanceType renv) (Some a) (Some pd)))
       false true
       (LowLevelRebalanceHandler.approving
          (snd (LowLevelRebalanceHandler.handleSubmit_reset rs))) = (Thrown e, s2) ->
     let rfinal :=
       snd (LowLevelRebalanceHandler.handleSubmit isUserRejected applyGasSlippage renv rs) in
     LowLevelRebalanceHandler.approvalError rfinal =
       Some (if isUserRejected e then "Approval canceled by user."
             else "Failed to approve required tokens.")%string /\
     LowLevelRebalanceHandler.isApproving rfinal = false /\
     LowLevelRebalanceHandler.loading rfinal = false /\
     (forall g,
        LowLevelRebalanceHandler.rebalanceType renv = shares ->
        LowLevelRebalanceHandler.estimateGas_shares renv a = Ok g ->
        LowLevelRebalanceHandler.txs rfinal =
          LowLevelRebalanceHandler.txs s2 ++
          [LowLevelRebalanceHandler.TxRebalanceShares a (applyGasSlippage g)] /\
        (LowLevelRebalanceHandler.vault_execute renv
           (LowLevelRebalanceHandler.TxRebalanceShares a (applyGasSlippage g)) = Ok tt ->
         LowLevelRebalanceHandler.tx_wait renv = Ok tt ->
         LowLevelRebalanceHandler.error rfinal = None /\
         LowLevelRebalanceHandler.success rfinal =
           Some "Low level rebalance executed successfully!"%string /\
         LowLevelRebalanceHandler.console rfinal =
           LowLevelRebalanceHandler.console
             (LowLevelRebalanceHandler.approvalFailed isUserRejected e s2))) /\
     (forall d g,
        LowLevelRebalanceHandler.rebalanceType renv <> shares ->
        LowLevelRebalanceHandler.previewOf renv
          (LowLevelRebalanceHandler.rebalanceType renv) a = Ok (Some d) ->
        d <> 0 ->
        LowLevelRebalanceHandler.estimateOf renv
          (LowLevelRebalanceHandler.rebalanceType renv) a (d >=? 0) = Ok g ->
        LowLevelRebalanceHandler.txs rfinal =
          LowLevelRebalanceHandler.txs s2 ++
          [LowLevelRebalanceHandler.hintTx
             (LowLevelRebalanceHandler.rebalanceType renv) a (d >=? 0)
             (applyGasSlippage g)] /\
        (LowLevelRebalanceHandler.vault_execute renv
           (LowLevelRebalanceHandler.hintTx
              (LowLevelRebalanceHandler.rebalanceType renv) a (d >=? 0)
              (applyGasSlippage g)) = Ok tt ->
         LowLevelRebalanceHandler.tx_wait renv = Ok tt ->
         LowLevelRebalanceHandler.error rfinal = None /\
         LowLevelRebalanceHandler.success rfinal =
           Some "Low level rebalance executed successfully!"%string /\
         LowLevelRebalanceHandler.console rfinal =
           LowLevelRebalanceHandler.console
             (LowLevelRebalanceHandler.approvalFailed isUserRejected e s2)))) /\
  (forall (env : @ActionHandler.Env Err) (s : @ActionHandler.State Err)
          (parsed needed balance allowance : Z) (e : Err),
     ActionHandler.vault env = true /\ ActionHandler.address env = true /\
     ActionHandler.publicProvider env = true /\ ActionHandler.tokenLens env = true /\
     ActionHandler.token env = true /\ ActionHandler.vaultLens env = true ->
     ActionHandler.needsApproval
       (ActionHandler.ACTION_CONFIGS (ActionHandler.actionType env)) = true ->
     ActionHandler.parseUnits env (Form.amount s) = Ok parsed ->
     match ActionHandler.actionType env with
     | mint => (if ActionHandler.isBorrow env then ActionHandler.previewMint env parsed
                else ActionHandler.previewMintCollateral env parsed) = Ok needed
     | _ => needed = parsed
     end ->
     ActionHandler.tokenLens_balanceOf env = Ok balance -> needed <= balance ->
     ActionHandler.tokenLens_allowance env = Ok allowance -> allowance < needed ->
     ActionHandler.token_approve env needed = Fail e ->
     let final := snd (ActionHandler.handleSubmit isUserRejected applyGasSlippage env s) in
     Form.error final =
       Some (if isUserRejected e then "Transaction canceled by user."
             else "Failed to " ++ actionName (ActionHandler.actionType env) ++ ".")%string /\
     Form.txs final = Form.txs s ++ [ActionHandler.TxApprove needed] /\
     Form.loading final = false) /\
  (forall (env : @ActionHandler.Env Err) (s : @ActionHandler.State Err)
          (parsed gas : Z) (e : Err),
     ActionHandler.vault env = true -> ActionHandler.address env = true ->
     ActionHandler.vaultLens env = true ->
     isRedeemOrWithdraw (ActionHandler.actionType env) = true ->
     ActionHandler.isMaxSelected env = false ->
     ActionHandler.parseUnits env (Form.amount s) = Ok parsed ->
     ActionHandler.estimateGas env (ActionHandler.actionType env)
       (ActionHandler.isBorrow env) parsed = Ok gas ->
     ActionHandler.vault_call env (ActionHandler.actionType env)
       (ActionHandler.isBorrow env) parsed (applyGasSlippage gas) = Fail e ->
     let final := snd (ActionHandler.handleSubmit isUserRejected applyGasSlippage env s) in
     Form.error final =
       Some (if isUserRejected e then "Transaction canceled by user."
             else "Failed to " ++ actionName (ActionHandler.actionType env) ++ ".")%string /\
     Form.txs final =
       Form.txs s ++ [ActionHandler.TxVault (ActionHandler.actionType env)
                        (ActionHandler.isBorrow env) parsed (applyGasSlippage gas)] /\
     Form.loading final = false) /\
  (forall (renv : @LowLevelRebalanceHandler.Env Err)
          (rs : @LowLevelRebalanceHandler.State Err) (a : Z) (e : Err),
     LowLevelRebalanceHandler.vault renv = true ->
     LowLevelRebalanceHandler.vaultLens_present renv = true ->
     LowLevelRebalanceHandler.address renv = true ->
     LowLevelRebalanceHandler.amount rs = Some a -> a <> 0 ->
     let rfinal :=
       snd (LowLevelRebalanceHandler.handleSubmit isUserRejected applyGasSlippage renv rs) in
     (forall g,
        LowLevelRebalanceHandler.rebalanceType renv = shares ->
        LowLevelRebalanceHandler.estimateGas_shares renv a = Ok g ->
        LowLevelRebalanceHandler.vault_execute renv
          (LowLevelRebalanceHandler.TxRebalanceShares a (applyGasSlippage g)) = Fail e ->
        LowLevelRebalanceHandler.error rfinal =
          Some (if isUserRejected e then "Transaction canceled by user."
                else "Failed to execute low level rebalance.")%string /\
        LowLevelRebalanceHandler.loading rfinal = false) /\
     (forall d g,
        LowLevelRebalanceHandler.rebalanceType renv <> shares ->
        LowLevelRebalanceHandler.previewOf renv
          (LowLevelRebalanceHandler.rebalanceType renv) a = Ok (Some d) ->
        d <> 0 ->
        LowLevelRebalanceHandler.estimateOf renv
          (LowLevelRebalanceHandler.rebalanceType renv) a (d >=? 0) = Ok g ->
        LowLevelRebalanceHandler.vault_execute renv
          (LowLevelRebalanceHandler.hintTx
             (LowLevelRebalanceHandler.rebalanceType renv) a (d >=? 0)
             (applyGasSlippage g)) = Fail e ->
        LowLevelRebalanceHandler.error rfinal =
          Some (if isUserRejected e then "Transaction canceled by user."
                else "Failed to execute low level rebalance.")%string /\
        LowLevelRebalanceHandler.loading rfinal = false)).
Proof.
  split; [|split; [|split; [|split; [|split; [|split]]]]].
  - intros env s s1 err Hv Ha Htry.
    exact (action_handleSubmit_failure_report isUserRejected applyGasSlippage
             env s s1 err Hv Ha Htry).
  - intros renv rs rs1 a rerr Hv Hl Ha Ham Hnz Htry.
    exact (rebalance_handleSubmit_failure_report isUserRejected applyGasSlippage
             renv rs rs1 a rerr Hv Hl Ha Ham Hnz Htry).
  - intros renv rs. apply checkAndApprove_done.
  - intros renv rs s2 pd a e Hv Hl Ha Hva Ham Hnz Hpd Hloop.
    exact (rebalance_handleSubmit_approval_failure isUserRejected applyGasSlippage
             renv rs s2 pd a e Hv Hl Ha Hva Ham Hnz Hpd Hloop).
  - intros env s parsed needed balance allowance e.
    exact (action_handleSubmit_approval_rejected isUserRejected applyGasSlippage
             env s parsed needed balance allowance e).
  - intros env s parsed gas e.
    exact (action_handleSubmit_call_rejected isUserRejected applyGasSlippage
             env s parsed gas e).
  - intros renv rs a e.
    exact (rebalance_handleSubmit_call_rejected isUserRejected applyGasSlippage
             renv rs a e).
Qed.

Lemma submission_failure_classified_witness :
  let final :=
    snd (ActionHandler.handleSubmit isUserRejected_example applyGasSlippage_example
           (submitEnv 5000000000000000000 (Fail rejectedBySigner)) formState) in
  let dfinal :=
    snd (ActionHandler.handleSubmit isUserRejected_example applyGasSlippage_example
           (depositAnsweredEnv (Fail rejectedBySigner)) formState) in
  let rfinal :=
    snd (LowLevelRebalanceHandler.handleSubmit isUserRejected_example
           applyGasSlippage_example (rebalanceEnv (Fail "nonce too low"%string))
           rebalanceState) in
  let afinal :=
    snd (LowLevelRebalanceHandler.handleSubmit isUserRejected_example
           applyGasSlippage_example (approvalAnsweredEnv (Fail rejectedBySigner))
           previewState) in
  (Form.error final = Some "Transaction canceled by user."%string /\
   Form.console final = []) /\
  (Form.error dfinal = Some "Transaction canceled by user."%string /\
   Form.txs dfinal = [ActionHandler.TxApprove 5000000000000000000]) /\
  (LowLevelRebalanceHandler.error rfinal =
     Some "Failed to execute low level rebalance."%string /\
   LowLevelRebalanceHandler.console rfinal =
     [] ++ [Log "Failed to execute low level rebalance:"%string
              (Some "nonce too low"%string)]) /\
  (LowLevelRebalanceHandler.approvalError afinal =
     Some "Approval canceled by user."%string /\
   LowLevelRebalanceHandler.txs afinal =
     [LowLevelRebalanceHandler.TxApprove collateral 30] ++
     [LowLevelRebalanceHandler.TxRebalanceShares 100 120000] /\
   LowLevelRebalanceHandler.error afinal = None /\
   LowLevelRebalanceHandler.success afinal =
     Some "Low level rebalance executed successfully!"%string).
Proof.
  cbv zeta.
  destruct (submission_failure_classified isUserRejected_example applyGasSlippage_example)
    as (HA & HB & _ & HC & _).
  split; [|split; [|split]].
  - destruct (HA (submitEnv 5000000000000000000 (Fail rejectedBySigner)) formState
                (Form.mkState true None None "5.0"%string []
                   [ActionHandler.TxVault withdraw true 5000000000000000000 120000])
                rejectedBySigner eq_refl eq_refl eq_refl) as (_ & _ & _ & A & _).
    apply A. reflexivity.
  - destruct (HA (depositAnsweredEnv (Fail rejectedBySigner)) formState
                (Form.mkState true None None "5.0"%string []
                   [ActionHandler.TxApprove 5000000000000000000])
                rejectedBySigner eq_refl eq_refl eq_refl) as (_ & _ & T & A & _).
    split; [apply A; reflexivity | exact T].
  - destruct (HB (rebalanceEnv (Fail "nonce too low"%string)) rebalanceState
                (LowLevelRebalanceHandler.mkState "100"%string (Some 100) true None None
                   false None None []
                   [LowLevelRebalanceHandler.TxRebalanceShares 100 120000])
                100 "nonce too low"%string
                eq_refl eq_refl eq_refl eq_refl ltac:(discriminate) eq_refl)
      as (_ & _ & _ & _ & R).
    apply R. reflexivity.
  - destruct (HC (approvalAnsweredEnv (Fail rejectedBySigner)) previewState
                (LowLevelRebalanceHandler.mkState "100"%string (Some 100) true None None
                   true None
                   (Some (LowLevelRebalanceHandler.mkPreview (Some 30) (Some (-20)) None))
                   [] [LowLevelRebalanceHandler.TxApprove collateral 30])
                (LowLevelRebalanceHandler.mkPreview (Some 30) (Some (-20)) None)
                100 rejectedBySigner
                eq_refl eq_refl eq_refl eq_refl eq_refl ltac:(discriminate) eq_refl eq_refl)
      as (Happ & _ & _ & Hshares & _).
    destruct (Hshares 100000 eq_refl eq_refl) as (Htxs & Hdone).
    destruct (Hdone eq_refl eq_refl) as (Herr & Hsucc & _).
    split; [exact Happ | split; [exact Htxs | split; [exact Herr | exact Hsucc]]].
Defined.

End DeclinedSignatureClassified.
